(** * CryptoTradingBot: risk control, regime scoring, signal blending, control loop

    A shallow embedding of the trading core of the bot
    ([bot/trading/advanced_risk_manager.py], [bot/trading/strategy_optimizer.py],
    [bot/trading/trading_engine.py], with the constants of
    [bot/config/trading_config.py] and [bot/config/deep_learning_config.py])
    together with the properties its specification states about it.

    Conventions of the embedding
    - a Python [float] is a rational number ([Q]); arithmetic is exact, so
      rounding, infinities and NaN are outside the model.  Where the code
      needs a square root (Pearson correlation) the numbers are reals ([R])
      and NaN is an explicit value;
    - a Python call either returns or raises: [Py.outcome];
    - a [try: ... except Exception as e: ...] block is [Py.try_except];
    - a dict with string keys whose order matters is an association list in
      insertion order ([Dict]); an optional key of a record-like dict is an
      [option] field. *)

From Stdlib Require Import QArith Qminmax Qabs Reals Psatz.
From Stdlib Require Import List String Ascii Bool ZArith Lia DecimalString.
Import ListNotations.

Open Scope string_scope.
Open Scope Q_scope.

(* ====================================================================== *)
(** * Python run-time model *)
(* ====================================================================== *)

Module Py.

(** The exceptions the modelled code can meet. *)
Inductive exn : Type :=
| KeyError (key : string)
| ValueError (msg : string)
| NameError (name : string)
| AttributeError (obj attr : string)
| TypeError (msg : string)
| IndexError (msg : string)
| ZeroDivisionError
| OtherError (msg : string).

(** [str(e)] as Python prints it. *)
Definition str (e : exn) : string :=
  match e with
  | KeyError key => "'" ++ key ++ "'"
  | ValueError msg => msg
  | NameError name => "name '" ++ name ++ "' is not defined"
  | AttributeError obj attr =>
      "'" ++ obj ++ "' object has no attribute '" ++ attr ++ "'"
  | TypeError msg => msg
  | IndexError msg => msg
  | ZeroDivisionError => "float division by zero"
  | OtherError msg => msg
  end.

Inductive outcome (A : Type) : Type :=
| Returned (a : A)
| Raised (e : exn).
Arguments Returned {A} a.
Arguments Raised {A} e.

Definition bind {A B} (c : outcome A) (k : A -> outcome B) : outcome B :=
  match c with
  | Returned a => k a
  | Raised e => Raised e
  end.

(** [try: body  except Exception as e: handler(e)] *)
Definition try_except {A} (body : outcome A) (handler : exn -> A) : A :=
  match body with
  | Returned a => a
  | Raised e => handler e
  end.

(** [d[key]] on a dict whose entry may be absent. *)
Definition getitem {A} (key : string) (entry : option A) : outcome A :=
  match entry with
  | Some a => Returned a
  | None => Raised (KeyError key)
  end.

(** [d.get(key, default)] *)
Definition get {A} (entry : option A) (default : A) : A :=
  match entry with
  | Some a => a
  | None => default
  end.

(** [x < y] on floats. *)
Definition ltb (x y : Q) : bool := negb (Qle_bool y x).

(** The builtins [max(a, b)] and [min(a, b)]: the first argument wins ties. *)
Definition max2 (a b : Q) : Q := if ltb a b then b else a.
Definition min2 (a b : Q) : Q := if ltb b a then b else a.

(** [max(iterable)]: the first maximal element; raises on an empty one.
    The message is CPython's up to 3.11 (later releases word it
    differently); no property below depends on the wording. *)
Definition max_empty_msg : string := "max() arg is an empty sequence".

Definition max_of (xs : list Q) : outcome Q :=
  match xs with
  | [] => Raised (ValueError max_empty_msg)
  | x :: rest => Returned (fold_left max2 rest x)
  end.

(** [sum(iterable)] *)
Definition sum (xs : list Q) : Q := fold_left Qplus xs 0.

(** [x / y] on floats. *)
Definition div (x y : Q) : outcome Q :=
  if Qeq_bool y 0 then Raised ZeroDivisionError else Returned (x / y).

(** [np.sign] *)
Definition sign (x : Q) : Q :=
  if ltb 0 x then 1 else if ltb x 0 then -1 else 0.

(** Rounding a non-negative rational to the nearest integer, ties to even. *)
Definition round_half_even (q : Q) : Z :=
  let n := Qnum q in
  let d := Z.pos (Qden q) in
  let fl := (n / d)%Z in
  let r := (2 * (n mod d))%Z in
  if (r <? d)%Z then fl
  else if (d <? r)%Z then (fl + 1)%Z
  else if Z.even fl then fl else (fl + 1)%Z.

Definition digits (z : Z) : string :=
  NilZero.string_of_uint (N.to_uint (Z.to_N z)).

(** [f"{x:.2%}"]: the value times 100 with two decimals and a percent sign. *)
Definition format_pct2 (x : Q) : string :=
  let n := round_half_even (Qabs x * 10000) in
  let frac := (n mod 100)%Z in
  (if ltb x 0 then "-" else "")
    ++ digits (n / 100) ++ "."
    ++ (if (frac <? 10)%Z then "0" else "") ++ digits frac ++ "%".

End Py.

Notation "x <- c ;; k" := (Py.bind c (fun x => k))
  (at level 61, c at next level, right associativity).
Notation "' pat <- c ;; k" := (Py.bind c (fun pat => k))
  (at level 61, pat pattern, c at next level, right associativity).

Import Py.

(* ====================================================================== *)
(** * Insertion-ordered dicts with string keys *)
(* ====================================================================== *)

Module Dict.

Section WithValue.
Context {V : Type}.

(** [d.get(k)] *)
Fixpoint lookup (k : string) (d : list (string * V)) : option V :=
  match d with
  | [] => None
  | (k', v) :: rest => if String.eqb k k' then Some v else lookup k rest
  end.

(** [d[k] = v]: an existing key keeps its place, a new key goes last. *)
Fixpoint set (k : string) (v : V) (d : list (string * V)) : list (string * V) :=
  match d with
  | [] => [(k, v)]
  | (k', v') :: rest =>
      if String.eqb k k' then (k, v) :: rest else (k', v') :: set k v rest
  end.

(** [del d[k]] (on a key that is present): no entry of the key stays. *)
Fixpoint remove (k : string) (d : list (string * V)) : list (string * V) :=
  match d with
  | [] => []
  | (k', v') :: rest =>
      if String.eqb k k' then remove k rest else (k', v') :: remove k rest
  end.

Definition keys (d : list (string * V)) : list string := map fst d.
Definition values (d : list (string * V)) : list V := map snd d.

End WithValue.

End Dict.

(* ====================================================================== *)
(** * advanced_risk_manager.py *)
(* ====================================================================== *)

(** [@dataclass class MarketCondition]; the number type is a parameter
    because the correlation field is computed with a square root. *)
Record MarketCondition (num : Type) : Type := mkMarketCondition {
  volatility : num;
  correlation : num;
  trend_strength : num;
  liquidity : num;
  sentiment : num
}.
Arguments mkMarketCondition {num}.
Arguments volatility {num}.
Arguments correlation {num}.
Arguments trend_strength {num}.
Arguments liquidity {num}.
Arguments sentiment {num}.

(** [self.emergency_triggers]: a dict read from the configuration; a key the
    configuration leaves out is [None]. *)
Record EmergencyTriggers : Type := mkTriggers {
  max_drawdown : option Q;
  max_daily_loss : option Q;
  min_liquidity : option Q;
  max_volatility : option Q
}.

(** The defaults of [AdvancedRiskManager.__init__] (and of RISK_CONFIG). *)
Definition default_triggers : EmergencyTriggers :=
  {| max_drawdown := Some 0.15;
     max_daily_loss := Some 0.05;
     min_liquidity := Some 1000000;
     max_volatility := Some 0.05 |}.

(** One entry of the position table: the dict the engine stores per symbol
    and hands to the risk manager.  Every key is optional in the dict. *)
Record Position : Type := mkPosition {
  price : option Q;
  amount : option Q;
  stop_loss : option Q;
  stop_loss_order_id : option string;
  value : option Q;
  peak_value : option Q;
  daily_pl : option Q
}.

Module RiskManager.

(** The part of [AdvancedRiskManager] the modelled methods read. *)
Record t : Type := mk {
  emergency_triggers : EmergencyTriggers;
  market_conditions : list (string * MarketCondition Q)
}.

(** ** calculate_dynamic_stop_loss *)

(** The [try] block. *)
Definition calculate_dynamic_stop_loss_try (self : t) (symbol : string)
    (entry_price position_size : Q)
    (market_condition : option (MarketCondition Q)) : outcome (Q * Q) :=
  market_condition <-
    match market_condition with
    | Some mc => Returned mc
    | None =>
        match Dict.lookup symbol (market_conditions self) with
        | Some mc => Returned mc
        | None => Raised (ValueError ("No market condition data for " ++ symbol))
        end
    end ;;
  let base_stop := 0.02 in
  let vol_factor := volatility market_condition / 0.02 in
  let vol_adjusted_stop := base_stop * vol_factor in
  let trend_factor := 1.0 + (trend_strength market_condition / 100) in
  let trend_adjusted_stop := vol_adjusted_stop * trend_factor in
  let final_stop_pct := min2 (max2 trend_adjusted_stop 0.01) 0.05 in
  let stop_loss_price := entry_price * (1 - final_stop_pct) in
  let take_profit_price := entry_price * (1 + final_stop_pct * 2) in
  Returned (stop_loss_price, take_profit_price).

(** The method: what the caller sees.  The [except] clause turns every
    failure of the block into the fixed 2%/4% pair. *)
Definition calculate_dynamic_stop_loss (self : t) (symbol : string)
    (entry_price position_size : Q)
    (market_condition : option (MarketCondition Q)) : outcome (Q * Q) :=
  Returned
    (try_except
       (calculate_dynamic_stop_loss_try self symbol entry_price position_size
          market_condition)
       (fun _ => (entry_price * 0.98, entry_price * 1.04))).

(** The final stop percentage of the block, as the specification words it. *)
Definition final_stop_pct (mc : MarketCondition Q) : Q :=
  Qmin (Qmax (0.02 * (volatility mc / 0.02) * (1 + trend_strength mc / 100)) 0.01) 0.05.

(** ** check_emergency_shutdown *)

Inductive reason : Type :=
| MaxDrawdownExceeded (drawdown : Q)
| MaxDailyLossExceeded (daily_pl_pct : Q)
| ExcessiveVolatility (symbol : string) (vol : Q)
| InsufficientLiquidity (symbol : string)
| RiskAssessmentError (e : exn)
| NoReason.

(** The f-strings of the method. *)
Definition reason_text (r : reason) : string :=
  match r with
  | MaxDrawdownExceeded d => "Maximum drawdown exceeded: " ++ format_pct2 d
  | MaxDailyLossExceeded p => "Maximum daily loss exceeded: " ++ format_pct2 p
  | ExcessiveVolatility s v =>
      "Excessive volatility in " ++ s ++ ": " ++ format_pct2 v
  | InsufficientLiquidity s => "Insufficient liquidity in " ++ s
  | RiskAssessmentError e => "Error in risk assessment: " ++ str e
  | NoReason => ""
  end.

(** [sum(pos['value'] for pos in portfolio.values())] *)
Fixpoint sum_values (acc : Q) (ps : list Position) : outcome Q :=
  match ps with
  | [] => Returned acc
  | p :: rest =>
      v <- getitem "value" (value p) ;;
      sum_values (acc + v) rest
  end.

(** [for symbol, condition in self.market_conditions.items(): ...] *)
Fixpoint scan_market_conditions (trg : EmergencyTriggers)
    (conds : list (string * MarketCondition Q)) : outcome (bool * reason) :=
  match conds with
  | [] => Returned (false, NoReason)
  | (symbol, condition) :: rest =>
      max_vol <- getitem "max_volatility" (max_volatility trg) ;;
      if ltb max_vol (volatility condition)
      then Returned (true, ExcessiveVolatility symbol (volatility condition))
      else if ltb (liquidity condition) 0.5
      then Returned (true, InsufficientLiquidity symbol)
      else scan_market_conditions trg rest
  end.

Definition drawdown_of (peak_value total_value : Q) : Q :=
  if ltb 0 peak_value then (peak_value - total_value) / peak_value else 0.

Definition daily_pl_pct_of (daily_pl total_value : Q) : Q :=
  if ltb 0 total_value then daily_pl / total_value else 0.

(** The [try] block. *)
Definition check_emergency_shutdown_try (self : t)
    (portfolio : list (string * Position)) : outcome (bool * reason) :=
  let trg := emergency_triggers self in
  total_value <- sum_values 0 (Dict.values portfolio) ;;
  peak_value <-
    max_of (map (fun pos => get (peak_value pos) 0) (Dict.values portfolio)) ;;
  let drawdown := drawdown_of peak_value total_value in
  max_dd <- getitem "max_drawdown" (max_drawdown trg) ;;
  if ltb max_dd drawdown then Returned (true, MaxDrawdownExceeded drawdown)
  else
    let daily_pl :=
      sum (map (fun pos => get (daily_pl pos) 0) (Dict.values portfolio)) in
    let daily_pl_pct := daily_pl_pct_of daily_pl total_value in
    max_dl <- getitem "max_daily_loss" (max_daily_loss trg) ;;
    if ltb daily_pl_pct (- max_dl)
    then Returned (true, MaxDailyLossExceeded daily_pl_pct)
    else scan_market_conditions trg (market_conditions self).

(** The method with its reason still structured. *)
Definition check_emergency_shutdown_reason (self : t)
    (portfolio : list (string * Position)) : bool * reason :=
  try_except (check_emergency_shutdown_try self portfolio)
    (fun e => (true, RiskAssessmentError e)).

(** The method: [(bool, str)]. *)
Definition check_emergency_shutdown (self : t)
    (portfolio : list (string * Position)) : bool * string :=
  let '(emergency, r) := check_emergency_shutdown_reason self portfolio in
  (emergency, reason_text r).

(** The four triggers the specification numbers (1) to (4). *)
Inductive trigger : Type :=
| Drawdown | DailyLoss | Volatility | Liquidity.

Definition trigger_of (r : reason) : option trigger :=
  match r with
  | MaxDrawdownExceeded _ => Some Drawdown
  | MaxDailyLossExceeded _ => Some DailyLoss
  | ExcessiveVolatility _ _ => Some Volatility
  | InsufficientLiquidity _ => Some Liquidity
  | RiskAssessmentError _ | NoReason => None
  end.

(** The order of evaluation in the specification's words: (1) drawdown,
    (2) daily loss, (3) some instrument's volatility, (4) some instrument's
    liquidity; the first that holds decides. *)
Definition first_trigger_in_stated_order (max_dd max_dl max_vol : Q)
    (drawdown daily_pl_pct : Q)
    (conds : list (string * MarketCondition Q)) : option trigger :=
  if ltb max_dd drawdown then Some Drawdown
  else if ltb daily_pl_pct (- max_dl) then Some DailyLoss
  else if existsb (fun sc => ltb max_vol (volatility (snd sc))) conds
  then Some Volatility
  else if existsb (fun sc => ltb (liquidity (snd sc)) 0.5) conds
  then Some Liquidity
  else None.

(** The first instrument, in stored order, that breaches a market limit. *)
Definition breaches (max_vol : Q) (sc : string * MarketCondition Q) : bool :=
  ltb max_vol (volatility (snd sc)) || ltb (liquidity (snd sc)) 0.5.

End RiskManager.

(* ====================================================================== *)
(** * strategy_optimizer.py *)
(* ====================================================================== *)

(** [@dataclass class MarketRegime]; the type is the string the code stores. *)
Record MarketRegime : Type := mkMarketRegime {
  type : string;
  strength : Q;
  direction : Q;
  confidence : Q
}.

(** The recent indicator values [detect_market_regime] reads off the bars
    through the [ta] library (lines 88 to 99): the last SMA(20) and SMA(50),
    the last ADX(14), the last ATR, and the last value of
    [ta.volatility.bollinger_pband], which the code calls the band width. *)
Record Indicators : Type := mkIndicators {
  sma_20_last : Q;
  sma_50_last : Q;
  current_adx : Q;
  current_atr : Q;
  current_bb_width : Q
}.

Module StrategyOptimizer.

(** The part of [StrategyOptimizer] the modelled methods read and write:
    the keys of [self.models] and [self.scalers], and [self.market_regimes]. *)
Record t : Type := mk {
  models : list string;
  scalers : list string;
  market_regimes : list (string * MarketRegime)
}.

(** [key in d] *)
Definition contains (key : string) (keys : list string) : bool :=
  existsb (String.eqb key) keys.

(** ** detect_market_regime *)

(** The [try] block up to the construction of the regime.  [indicators] is
    the outcome of the [ta] calls and of the [iloc[-1]] reads.  In the last
    branch [current_atr] is the numpy scalar read by [atr.iloc[-1]]; a numpy
    scalar has no attribute [rolling], so [current_atr.rolling(100)] raises
    before anything is divided. *)
Definition detect_market_regime_try (indicators : outcome Indicators)
    : outcome MarketRegime :=
  i <- indicators ;;
  let trend_strength := current_adx i / 100.0 in
  let direction := sign (sma_20_last i - sma_50_last i) in
  ' (regime_type, confidence) <-
    (if ltb 25 (current_adx i)
     then Returned ("trending", min2 (current_adx i / 50.0) 1.0)
     else if ltb (current_bb_width i) 0.1
     then Returned ("ranging", 1.0 - current_bb_width i)
     else Raised (AttributeError "numpy.float64" "rolling")) ;;
  Returned (mkMarketRegime regime_type trend_strength direction confidence).

(** The method: the regime is recorded for the symbol and returned; on any
    failure nothing is recorded and the unknown regime is returned. *)
Definition detect_market_regime (self : t) (indicators : outcome Indicators)
    (symbol : string) : t * MarketRegime :=
  match detect_market_regime_try indicators with
  | Returned regime =>
      (mk (models self) (scalers self)
          (Dict.set symbol regime (market_regimes self)),
       regime)
  | Raised _ => (self, mkMarketRegime "unknown" 0.0 0.0 0.0)
  end.

(** ** predict *)

(** [probability * factor] on the array of class probabilities. *)
Definition scale (factor : Q) (probability : list Q) : list Q :=
  map (fun p => p * factor) probability.

(** [ndarray.max()] *)
Definition ndarray_max (xs : list Q) : outcome Q :=
  match xs with
  | [] =>
      Raised (ValueError
        "zero-size array to reduction operation maximum which has no identity")
  | x :: rest => Returned (fold_left max2 rest x)
  end.

(** The factor the regime puts on the class probabilities. *)
Definition regime_factor (regime : MarketRegime) : Q :=
  if String.eqb (type regime) "trending"
  then 1 + strength regime * confidence regime
  else if String.eqb (type regime) "ranging"
  then 1 - confidence regime * 0.5
  else if String.eqb (type regime) "volatile"
  then 1 - confidence regime * 0.7
  else 1.

(** The adjustment of lines 226 to 236. *)
Definition adjust_probability (self : t) (symbol : string)
    (probability : list Q) : list Q :=
  match Dict.lookup symbol (market_regimes self) with
  | Some regime =>
      if String.eqb (type regime) "trending"
      then scale (1 + strength regime * confidence regime) probability
      else if String.eqb (type regime) "ranging"
      then scale (1 - confidence regime * 0.5) probability
      else if String.eqb (type regime) "volatile"
      then scale (1 - confidence regime * 0.7) probability
      else probability
  | None => probability
  end.

(** The [try] block.  [inference] is the outcome of lines 214 to 223:
    feature preparation, scaling, and the model's class prediction and class
    probabilities for the last bar. *)
Definition predict_try (self : t) (symbol timeframe : string)
    (inference : outcome (Z * list Q)) : outcome (Z * Q) :=
  let model_key := symbol ++ "_" ++ timeframe in
  if negb (contains model_key (models self))
     || negb (contains model_key (scalers self))
  then Raised (ValueError ("Model not found for " ++ model_key))
  else
    ' (prediction, probability) <- inference ;;
    let probability := adjust_probability self symbol probability in
    best <- ndarray_max probability ;;
    Returned (prediction, best).

(** The method: any failure gives [(0, 0.0)]. *)
Definition predict (self : t) (symbol timeframe : string)
    (inference : outcome (Z * list Q)) : Z * Q :=
  try_except (predict_try self symbol timeframe inference)
    (fun _ => (0%Z, 0.0)).

End StrategyOptimizer.

(* ====================================================================== *)
(** * trading_engine.py *)
(* ====================================================================== *)

Module TradingEngine.

(** ** Module namespace and configuration *)

(** The names bound at module level by the imports and definitions of
    [trading_engine.py] (lines 6 to 28). *)
Definition module_globals : list string :=
  [ "os"; "sys"; "logging"; "asyncio"; "signal"; "Dict"; "List"; "Optional";
    "datetime"; "timezone"; "pd"; "ThreadPoolExecutor"; "CONFIG";
    "ExchangeIntegration"; "AdvancedRiskManager"; "StrategyOptimizer";
    "DeepLearningStrategy"; "DEEP_LEARNING_CONFIG"; "logger"; "TradingEngine" ].

(** Reading a global name that no import or definition binds raises. *)
Definition global_name (name : string) : outcome unit :=
  if existsb (String.eqb name) module_globals
  then Returned tt
  else Raised (NameError name).

(** [DEEP_LEARNING_CONFIG['prediction_threshold']] *)
Definition prediction_threshold : Q := 0.02.

(** The entries of [CONFIG] the modelled methods read. *)
Record Config : Type := mkConfig {
  symbols : list string;
  max_open_positions : nat;
  confidence_threshold : Q
}.

(** [trading_config.py] *)
Definition CONFIG : Config :=
  {| symbols := ["BTC/USDT"; "ETH/USDT"; "BNB/USDT"];
     max_open_positions := 5;
     confidence_threshold := 0.7 |}.

(** ** _combine_signals *)

(** The [try] block. *)
Definition _combine_signals_try (traditional_signal : Q) (dl_action : Z)
    (dl_confidence dl_return : Q) : outcome Q :=
  let dl_signal :=
    if (dl_action =? 0)%Z then 0.0
    else if (dl_action =? 1)%Z then 1.0
    else if (dl_action =? 2)%Z then - 1.0
    else 0.0 in
  let traditional_weight := 0.4 in
  let dl_weight := 0.6 in
  let dl_weight := dl_weight * dl_confidence in
  combined <-
    div (traditional_signal * traditional_weight + dl_signal * dl_weight)
        (traditional_weight + dl_weight) ;;
  if ltb prediction_threshold (Qabs dl_return)
  then
    _ <- global_name "np" ;;
    Returned (combined * (1 + sign dl_return * min2 (Qabs dl_return) 0.1))
  else Returned combined.

(** The method: any failure gives [0.0]. *)
Definition _combine_signals (traditional_signal : Q) (dl_action : Z)
    (dl_confidence dl_return : Q) : Q :=
  try_except
    (_combine_signals_try traditional_signal dl_action dl_confidence dl_return)
    (fun _ => 0.0).

(** The combination in the specification's words. *)
Definition combine_stated (traditional_signal : Q) (predictor_action : Z)
    (predictor_confidence predictor_return : Q) : Q :=
  let mapped_action :=
    if (predictor_action =? 1)%Z then 1
    else if (predictor_action =? 2)%Z then - (1)
    else 0 in
  let combined :=
    (traditional_signal * 0.4 + mapped_action * 0.6 * predictor_confidence)
    / (0.4 + 0.6 * predictor_confidence) in
  if ltb prediction_threshold (Qabs predictor_return)
  then combined * (1 + sign predictor_return * Qmin (Qabs predictor_return) 0.1)
  else combined.

(** ** Engine state and its collaborators *)

(** The engine state the modelled methods touch: the position table, the
    risk manager, and everything behind the exchange, the strategy and the
    predictor ([World]). *)
Record t (World : Type) : Type := mk {
  positions : list (string * Position);
  risk_manager : RiskManager.t;
  world : World
}.
Arguments mk {World}.
Arguments positions {World}.
Arguments risk_manager {World}.
Arguments world {World}.

Inductive side : Type := BUY | SELL.
Inductive order_type : Type := MARKET | STOP_LOSS.

(** The calls the engine makes on its collaborators.  Each may change the
    world and may raise; none can reach the position table.
    - [get_portfolio]: [await self.exchange.get_portfolio()], reduced to the
       entry ['total_value'] of the dict it returns;
    - [analyze_multiple_timeframes]: the ['final_signal'] of
       [self.strategy.analyze_multiple_timeframes(symbol, self.market_data[symbol])];
    - [deep_learning_predict]: [self.deep_learning.predict(self.market_data[symbol]['1m'])];
    - [last_close]: [float(self.market_data[symbol]['1m'].iloc[-1]['close'])];
    - [calculate_position_size], [calculate_trailing_stop]: the awaited calls
       on the risk manager; [AdvancedRiskManager] as given defines neither;
    - [execute_order], [update_order]: the awaited calls on the exchange;
       an order that is [None] stands for a falsy result;
    - [emergency_check]: the awaited
       [self.risk_manager.check_emergency_shutdown(self.positions)]. *)
Record Collaborators (World : Type) : Type := mkCollaborators {
  get_portfolio : World -> World * outcome (option Q);
  analyze_multiple_timeframes : string -> World -> World * outcome Q;
  deep_learning_predict : string -> World -> World * outcome (Z * Q * Q);
  last_close : string -> World -> World * outcome Q;
  calculate_position_size : string -> Q -> Q -> World -> World * outcome Q;
  calculate_trailing_stop : Q -> Q -> World -> World * outcome Q;
  execute_order :
    string -> side -> Q -> order_type -> option Q ->
    World -> World * outcome (option Position);
  update_order : string -> string -> Q -> World -> World * outcome unit;
  emergency_check :
    list (string * Position) -> World -> World * outcome (bool * string)
}.
Arguments get_portfolio {World}.
Arguments analyze_multiple_timeframes {World}.
Arguments deep_learning_predict {World}.
Arguments last_close {World}.
Arguments calculate_position_size {World}.
Arguments calculate_trailing_stop {World}.
Arguments execute_order {World}.
Arguments update_order {World}.
Arguments emergency_check {World}.

(** ** The monad of engine methods: state passing with exceptions *)

Definition M (World A : Type) : Type := t World -> t World * outcome A.

Definition ret {World A} (a : A) : M World A := fun e => (e, Returned a).

Definition raise {World A} (x : exn) : M World A := fun e => (e, Raised x).

Definition mbind {World A B} (m : M World A) (k : A -> M World B) : M World B :=
  fun e =>
    match m e with
    | (e', Returned a) => k a e'
    | (e', Raised x) => (e', Raised x)
    end.

(** A pure computation that may raise. *)
Definition of_outcome {World A} (o : outcome A) : M World A := fun e => (e, o).

(** A call on a collaborator. *)
Definition call {World A} (f : World -> World * outcome A) : M World A :=
  fun e =>
    let (w, o) := f (world e) in
    (mk (positions e) (risk_manager e) w, o).

Definition get_positions {World} : M World (list (string * Position)) :=
  fun e => (e, Returned (positions e)).

Definition put_positions {World} (ps : list (string * Position)) : M World unit :=
  fun e => (mk ps (risk_manager e) (world e), Returned tt).

Definition get_risk_manager {World} : M World RiskManager.t :=
  fun e => (e, Returned (risk_manager e)).

(** [try: body  except Exception as e: logger.error(...)]: the state reached
    when the body stopped is the state the method leaves. *)
Definition run_logged {World} (body : M World unit) (e : t World) : t World :=
  fst (body e).

(** [triple Pre m Post Exc]: started on a position table satisfying [Pre],
    [m] either returns [a] with a table satisfying [Post a], or raises with
    a table satisfying [Exc]. *)
Definition triple {World A} (Pre : list (string * Position) -> Prop)
    (m : M World A) (Post : A -> list (string * Position) -> Prop)
    (Exc : list (string * Position) -> Prop) : Prop :=
  forall e : t World,
    Pre (positions e) ->
    match m e with
    | (e', Returned a) => Post a (positions e')
    | (e', Raised _) => Exc (positions e')
    end.

End TradingEngine.

Notation "x <~ c ;; k" := (TradingEngine.mbind c (fun x => k))
  (at level 61, c at next level, right associativity).
Notation "' pat <~ c ;; k" := (TradingEngine.mbind c (fun pat => k))
  (at level 61, pat pattern, c at next level, right associativity).

(** [position['stop_loss'] = new_stop] on a position dict. *)
Definition with_stop_loss (position : Position) (new_stop : Q) : Position :=
  mkPosition (price position) (amount position) (Some new_stop)
    (stop_loss_order_id position) (value position) (peak_value position)
    (daily_pl position).

Module Engine.

Import TradingEngine.

Section Methods.

Context {World : Type}.
Variable C : Collaborators World.
Variable config : Config.

(** ** _check_and_execute_trades *)

(** The body of the [for] loop after the position-count test. *)
Definition trade_symbol (portfolio : option Q) (symbol : string) : M World unit :=
  final_signal <~ call (analyze_multiple_timeframes C symbol) ;;
  ' (dl_action, dl_confidence, dl_return) <~ call (deep_learning_predict C symbol) ;;
  let combined_signal :=
    _combine_signals final_signal dl_action dl_confidence dl_return in
  if ltb (confidence_threshold config) combined_signal
  then
    close <~ call (last_close C symbol) ;;
    total_value <~ of_outcome (getitem "total_value" portfolio) ;;
    position_size <~ call (calculate_position_size C symbol close total_value) ;;
    if ltb 0 position_size
    then
      order <~ call (execute_order C symbol BUY position_size MARKET None) ;;
      match order with
      | Some order =>
          ps <~ get_positions ;;
          _ <~ put_positions (Dict.set symbol order ps) ;;
          entry_price <~ of_outcome (getitem "price" (price order)) ;;
          rm <~ get_risk_manager ;;
          ' (stop_loss, take_profit) <~
            of_outcome
              (RiskManager.calculate_dynamic_stop_loss rm symbol entry_price
                 position_size None) ;;
          _ <~ call (execute_order C symbol SELL position_size STOP_LOSS
                       (Some stop_loss)) ;;
          ret tt
      | None => ret tt
      end
    else ret tt
  else ret tt.

(** [for symbol in CONFIG['exchange']['symbols']: ...] with its [break]. *)
Fixpoint trade_loop (portfolio : option Q) (todo : list string) : M World unit :=
  match todo with
  | [] => ret tt
  | symbol :: rest =>
      ps <~ get_positions ;;
      if (max_open_positions config <=? List.length ps)%nat
      then ret tt
      else
        _ <~ trade_symbol portfolio symbol ;;
        trade_loop portfolio rest
  end.

Definition _check_and_execute_trades (e : t World) : t World :=
  run_logged
    (portfolio <~ call (get_portfolio C) ;;
     trade_loop portfolio (symbols config))
    e.

(** ** _close_all_positions *)

(** [for symbol, position in list(self.positions.items()): ...] *)
Fixpoint close_loop (snapshot : list (string * Position)) : M World unit :=
  match snapshot with
  | [] => ret tt
  | (symbol, position) :: rest =>
      amount <~ of_outcome (getitem "amount" (amount position)) ;;
      _ <~ call (execute_order C symbol SELL amount MARKET None) ;;
      ps <~ get_positions ;;
      _ <~ (match Dict.lookup symbol ps with
            | Some _ => put_positions (Dict.remove symbol ps)
            | None => raise (KeyError symbol)
            end) ;;
      close_loop rest
  end.

(** The method swallows its own failures, so the caller always gets control
    back. *)
Definition _close_all_positions : M World unit :=
  fun e => (run_logged (ps <~ get_positions ;; close_loop ps) e, Returned tt).

(** ** _monitor_positions *)

(** [for symbol, position in list(self.positions.items()): ...].  The
    snapshot copies the table, not the position dicts: [position] is the
    very object the table holds for [symbol], so it is read from the table.
    The [return] after the emergency exit ends the loop. *)
Fixpoint monitor_loop (snapshot : list string) : M World unit :=
  match snapshot with
  | [] => ret tt
  | symbol :: rest =>
      ps <~ get_positions ;;
      position <~ of_outcome (getitem symbol (Dict.lookup symbol ps)) ;;
      current_price <~ call (last_close C symbol) ;;
      entry_price <~ of_outcome (getitem "price" (price position)) ;;
      ' (emergency_exit, reason) <~ call (emergency_check C ps) ;;
      if (emergency_exit : bool)
      then _close_all_positions
      else
        new_stop <~ call (calculate_trailing_stop C entry_price current_price) ;;
        _ <~ (if ltb (get (stop_loss position) 0) new_stop
              then
                order_id <~
                  of_outcome
                    (getitem "stop_loss_order_id" (stop_loss_order_id position)) ;;
                _ <~ call (update_order C symbol order_id new_stop) ;;
                ps <~ get_positions ;;
                current <~ of_outcome (getitem symbol (Dict.lookup symbol ps)) ;;
                put_positions (Dict.set symbol (with_stop_loss current new_stop) ps)
              else ret tt) ;;
        monitor_loop rest
  end.

Definition _monitor_positions (e : t World) : t World :=
  run_logged (ps <~ get_positions ;; monitor_loop (Dict.keys ps)) e.

(** [n] successive monitoring passes of the control loop. *)
Fixpoint monitor_passes (n : nat) (e : t World) : t World :=
  match n with
  | O => e
  | S n' => monitor_passes n' (_monitor_positions e)
  end.

End Methods.

(** A position dict whose stop-loss, if it changed, went up. *)
Definition stop_raised (position position' : Position) : Prop :=
  position' = position \/
  exists new_stop : Q,
    get (stop_loss position) 0 < new_stop /\
    position' = with_stop_loss position new_stop.

(** Every position of the later table comes from the position of the same
    symbol in the earlier one, with its stop-loss at most raised. *)
Definition stops_only_raised (before after : list (string * Position)) : Prop :=
  forall (symbol : string) (position' : Position),
    Dict.lookup symbol after = Some position' ->
    exists position : Position,
      Dict.lookup symbol before = Some position /\
      stop_raised position position'.

End Engine.

(* ====================================================================== *)
(** * advanced_risk_manager.py: the correlation matrix *)
(* ====================================================================== *)

(** Pearson correlation takes a square root, so in this part a float is a
    real number or NaN (pandas' missing value).  A price series is the list
    of its values in index order; all series share one index. *)
Module Correlation.

Local Open Scope R_scope.

Inductive float : Type :=
| NaN
| Num (x : R).


Definition total (xs : list R) : R := fold_right Rplus 0 xs.

Definition mean (xs : list R) : R := total xs / INR (List.length xs).




(** A frame of floats: column label, then row label. *)
Definition frame : Type := list (string * list (string * float)).




(** [Series.mean()]: NaN entries are skipped. *)
Definition present (xs : list float) : list R :=
  flat_map (fun x => match x with Num r => [r] | NaN => [] end) xs.

Definition nanmean (xs : list float) : float :=
  match present xs with
  | [] => NaN
  | _ :: _ => Num (mean (present xs))
  end.

(** The part of [AdvancedRiskManager] the method reads and writes. *)
Record t : Type := mk {
  correlation_matrix : option frame;
  last_update : option R;
  market_conditions : list (string * MarketCondition float)
}.





End Correlation.

(** ** Concrete inputs used by the examples below *)

Module Examples.

(** A risk manager with the default triggers and two instruments: the first
    is calm but illiquid, the second is liquid but far too volatile. *)
Definition illiquid_then_volatile : RiskManager.t :=
  RiskManager.mk default_triggers
    [ ("BTC/USDT", mkMarketCondition 0.01 0 0 0.1 0.5);
      ("ETH/USDT", mkMarketCondition 0.9 0 0 1 0.5) ].

(** A risk manager with the default triggers and no market condition yet. *)
Definition no_conditions : RiskManager.t :=
  RiskManager.mk default_triggers [].

(** A position worth 100 at its peak of 100 with a flat day. *)
Definition flat_position : Position :=
  mkPosition (Some 100) (Some 1) None None (Some 100) (Some 100) (Some 0).

(** A position worth 85 with a peak of 100: a drawdown of exactly 15%. *)
Definition position_at_threshold : Position :=
  mkPosition (Some 100) (Some 1) None None (Some 85) (Some 100) (Some 0).

(** The reference market condition of the stop-loss scenario. *)
Definition reference_condition : MarketCondition Q :=
  mkMarketCondition 0.02 0 0 1 0.5.

(** A strategy optimizer with a trained model for BTC/USDT on the hourly
    bars and no regime recorded yet. *)
Definition trained : StrategyOptimizer.t :=
  StrategyOptimizer.mk ["BTC/USDT_1h"] ["BTC/USDT_1h"] [].

(** Indicator values of a strong up-trend: ADX at 50. *)
Definition strong_trend : Indicators :=
  mkIndicators 110 100 50 2 0.8.

(** Indicator values of a quiet market that closed below its lower
    Bollinger band: ADX at 20, percent-B at -0.5. *)
Definition below_lower_band : Indicators :=
  mkIndicators 100 100 20 1 (-0.5).

(** The strategy optimizer of the specification's scenario: a trending
    regime of strength 0.5 and confidence 0.8 is on record. *)
Definition scenario_trending : StrategyOptimizer.t :=
  StrategyOptimizer.mk ["BTC/USDT_1h"] ["BTC/USDT_1h"]
    [("BTC/USDT", mkMarketRegime "trending" 0.5 1 0.8)].

(** The same optimizer after [detect_market_regime] has seen the strong
    up-trend for BTC/USDT. *)
Definition trained_after_trend : StrategyOptimizer.t :=
  fst (StrategyOptimizer.detect_market_regime trained (Returned strong_trend)
         "BTC/USDT").

(** Collaborators that always see a strong buy signal and always fill:
    the close is 120, the position size 1, the fill at 100, the trailing
    stop 5% under the close, and the emergency evaluation answers with the
    risk manager's own verdict, as a risk manager with an awaitable method
    would (the method of the sources is not awaitable). *)
Definition eager : TradingEngine.Collaborators unit :=
  TradingEngine.mkCollaborators unit
    (fun w => (w, Returned (Some 1000)))
    (fun _ w => (w, Returned 1))
    (fun _ w => (w, Returned (1%Z, 1, 0)))
    (fun _ w => (w, Returned 120))
    (fun _ _ _ w => (w, Returned 1))
    (fun _ current_price w => (w, Returned (current_price * 0.95)))
    (fun _ _ size _ _ w =>
       (w, Returned (Some (mkPosition (Some 100) (Some size) None (Some "sl-1")
                             (Some 100) (Some 100) (Some 0)))))
    (fun _ _ _ w => (w, Returned tt))
    (fun ps w => (w, Returned (RiskManager.check_emergency_shutdown no_conditions ps))).

(** Three symbols, room for two positions. *)
Definition two_slots : TradingEngine.Config :=
  TradingEngine.mkConfig ["BTC/USDT"; "ETH/USDT"; "BNB/USDT"] 2 0.7.

(** An engine with no position. *)
Definition idle_engine : TradingEngine.t unit :=
  TradingEngine.mk [] no_conditions tt.

(** A position bought at 100 with its stop at 98. *)
Definition protected_position : Position :=
  mkPosition (Some 100) (Some 1) (Some 98) (Some "sl-1")
    (Some 120) (Some 120) (Some 0).

(** An engine holding that position. *)
Definition holding_engine : TradingEngine.t unit :=
  TradingEngine.mk [("BTC/USDT", protected_position)] no_conditions tt.



End Examples.

(* ====================================================================== *)
(** * exchange_integration.py *)
(* ====================================================================== *)

Module Exchange.

(** The result of [estimate_slippage]: a float that may be [inf] or [nan]. *)
Inductive slippage : Type :=
| Infinite
| NotANumber
| Finite (x : Q).

(** An order book as [get_order_book] hands it out: price and quantity per
    level, best level first. *)
Record order_book : Type := mkBook {
  bids : list (Q * Q);
  asks : list (Q * Q)
}.

(** [x <= y] on floats. *)
Definition leb (x y : Q) : bool := Qle_bool x y.

(** The walk over the levels (lines 97 to 106): what is still to fill and
    the price-weighted total, starting from [remaining] and [weighted_price].
    Quantities are exact here.  In the source's floats a subtraction can
    leave a remainder of rounding size, so an amount that the levels add up
    to exactly may still count as not filled there. *)
Fixpoint walk (orders : list (Q * Q)) (remaining weighted_price : Q) : Q * Q :=
  match orders with
  | [] => (remaining, weighted_price)
  | (price, quantity) :: rest =>
      if leb remaining 0
      then (remaining, weighted_price)
      else
        let filled := min2 remaining quantity in
        walk rest (remaining - filled) (weighted_price + price * filled)
  end.

(** The [try] block after the book was fetched.  When no level was walked
    the arithmetic is Python's, and dividing by zero raises; when a level
    was walked the operands are numpy floats, and dividing by zero gives
    [inf] or [nan]. *)
Definition estimate_slippage_try (orders : list (Q * Q)) (amount : Q)
    : outcome slippage :=
  let '(remaining, weighted_price) := walk orders amount 0 in
  if ltb 0 remaining
  then Returned Infinite
  else
    average <- div weighted_price amount ;;
    match orders with
    | [] => Raised (IndexError "index 0 is out of bounds for axis 0 with size 0")
    | (best, _) :: _ =>
        let deviation := Qabs (average - best) in
        if Qeq_bool best 0
        then
          if ltb 0 amount
          then Returned (if Qeq_bool deviation 0 then NotANumber else Infinite)
          else Raised ZeroDivisionError
        else Returned (Finite (deviation / best))
    end.

(** [order_book['bids'] if side == 'SELL' else order_book['asks']] *)
Definition consumed (book : order_book) (side : TradingEngine.side)
    : list (Q * Q) :=
  match side with
  | TradingEngine.SELL => bids book
  | TradingEngine.BUY => asks book
  end.

(** The method, on the side of the book the order consumes. *)
Definition estimate_slippage (book : order_book) (side : TradingEngine.side)
    (amount : Q) : slippage :=
  try_except (estimate_slippage_try (consumed book side) amount)
    (fun _ => Infinite).

(** [estimated_slippage > self.slippage_tolerance] *)
Definition exceeds (estimate : slippage) (tolerance : Q) : bool :=
  match estimate with
  | Infinite => true
  | NotANumber => false
  | Finite x => ltb tolerance x
  end.

(** The total quantity a side of the book offers. *)
Definition depth (orders : list (Q * Q)) : Q := sum (map snd orders).

(** ** execute_order *)

(** The keyword arguments of [client.create_order]. *)
Record order_params : Type := mkParams {
  p_symbol : string;
  p_side : TradingEngine.side;
  p_quantity : Q;
  p_type : string;
  p_price : option Q;
  p_time_in_force : option string
}.

(** What the client sends back: the dict itself, as the engine will store
    it, and the outcome of reading [order['fills'][0]['price']]. *)
Record client_order : Type := mkClientOrder {
  as_position : Position;
  executed_price : outcome Q
}.

(** [await self.client.create_order(...)]: an order, a
    [BinanceAPIException], or any other exception. *)
Inductive client_result : Type :=
| Accepted (order : client_order)
| ApiError (e : exn)
| Failed (e : exn).

(** The exchange behind the integration: the book it serves and the orders
    it takes.  [get_order_book] is the integration's own method, which
    answers with a book whatever happens. *)
Record Client (World : Type) : Type := mkClient {
  get_order_book : string -> World -> World * order_book;
  create_order : order_params -> World -> World * client_result
}.
Arguments get_order_book {World}.
Arguments create_order {World}.

(** The settings of [ExchangeIntegration.__init__]. *)
Record settings : Type := mkSettings {
  slippage_tolerance : Q;
  max_retries : nat
}.

(** [EXCHANGE_CONFIG] *)
Definition EXCHANGE_CONFIG : settings :=
  {| slippage_tolerance := 0.001; max_retries := 3 |}.

(** [f"{x:.4%}"] *)
Definition format_pct4 (x : Q) : string :=
  let n := round_half_even (Qabs x * 1000000) in
  let frac := digits (n mod 10000) in
  (if ltb x 0 then "-" else "")
    ++ digits (n / 10000) ++ "."
    ++ (match String.length frac with
        | 1%nat => "000"
        | 2%nat => "00"
        | 3%nat => "0"
        | _ => ""
        end) ++ frac ++ "%".

Definition format_slippage (estimate : slippage) : string :=
  match estimate with
  | Infinite => "inf%"
  | NotANumber => "nan%"
  | Finite x => format_pct4 x
  end.

(** How one pass of the retry loop ends. *)
Inductive attempt_result : Type :=
| Done (order : client_order)
| ApiFailure (e : exn)
| OtherFailure (e : exn).

(** [if not price] *)
Definition falsy_price (price : option Q) : bool :=
  match price with
  | None => true
  | Some p => Qeq_bool p 0
  end.

Section WithClient.

Context {World : Type}.
Variable client : Client World.
Variable self : settings.

(** The body of the [try] of one attempt. *)
Definition attempt (symbol : string) (side : TradingEngine.side) (amount : Q)
    (order_type : string) (price : option Q) (w : World)
    : World * attempt_result :=
  let (w, book) := get_order_book client symbol w in
  let estimated_slippage := estimate_slippage book side amount in
  if exceeds estimated_slippage (slippage_tolerance self)
  then
    (w, OtherFailure
          (OtherError
             ("Estimated slippage " ++ format_slippage estimated_slippage
              ++ " exceeds tolerance "
              ++ format_pct4 (slippage_tolerance self))))
  else
    let limit := String.eqb order_type "LIMIT" in
    if limit && falsy_price price
    then (w, OtherFailure (ValueError "Price required for LIMIT orders"))
    else
      let order_params :=
        if limit
        then mkParams symbol side amount "LIMIT" price (Some "GTC")
        else mkParams symbol side amount "MARKET" None None in
      let (w, answer) := create_order client order_params w in
      match answer with
      | ApiError e => (w, ApiFailure e)
      | Failed e => (w, OtherFailure e)
      | Accepted order =>
          match executed_price order with
          | Raised e => (w, OtherFailure e)
          | Returned executed =>
              let limit_price := get price 0 in
              if limit
                 && match side with
                    | TradingEngine.BUY =>
                        ltb (limit_price * (1 + slippage_tolerance self)) executed
                    | TradingEngine.SELL =>
                        ltb executed (limit_price * (1 - slippage_tolerance self))
                    end
              then
                (w, OtherFailure
                      (OtherError
                         match side with
                         | TradingEngine.BUY =>
                             "Execution price exceeds limit price + tolerance"
                         | TradingEngine.SELL =>
                             "Execution price below limit price - tolerance"
                         end))
              else (w, Done order)
          end
      end.

(** [for attempt in range(self.max_retries): ...] with [todo] passes left.
    Only a [BinanceAPIException] is retried, and not on the last pass; a
    loop that runs out (no pass at all) lets the method return [None]. *)
Fixpoint attempts (todo : nat) (symbol : string) (side : TradingEngine.side)
    (amount : Q) (order_type : string) (price : option Q) (w : World)
    : World * outcome (option client_order) :=
  match todo with
  | O => (w, Returned None)
  | S later =>
      match attempt symbol side amount order_type price w with
      | (w, Done order) => (w, Returned (Some order))
      | (w, OtherFailure e) => (w, Raised e)
      | (w, ApiFailure e) =>
          match later with
          | O => (w, Raised e)
          | S _ => attempts later symbol side amount order_type price w
          end
      end
  end.

Definition execute_order (symbol : string) (side : TradingEngine.side)
    (amount : Q) (order_type : string) (price : option Q) (w : World)
    : World * outcome (option client_order) :=
  attempts (max_retries self) symbol side amount order_type price w.

End WithClient.

(** The parameters [execute_order] builds for the client. *)
Definition params_of (symbol : string) (side : TradingEngine.side) (amount : Q)
    (order_type : string) (price : option Q) : order_params :=
  if String.eqb order_type "LIMIT"
  then mkParams symbol side amount "LIMIT" price (Some "GTC")
  else mkParams symbol side amount "MARKET" None None.

(** Whether a pass started in world [w] gets as far as the client: the
    slippage estimate is within tolerance and a LIMIT order has its price. *)
Definition reaches_client {World : Type} (client : Client World)
    (self : settings) (symbol : string) (side : TradingEngine.side)
    (amount : Q) (order_type : string) (price : option Q) (w : World) : bool :=
  negb (exceeds (estimate_slippage (snd (get_order_book client symbol w)) side
                   amount)
          (slippage_tolerance self))
  && negb (String.eqb order_type "LIMIT" && falsy_price price).

(** A client that keeps the list of the orders it was sent, oldest first. *)
Definition recording {World : Type} (client : Client World)
    : Client (World * list order_params) :=
  mkClient (World * list order_params)
    (fun symbol w =>
       let (w', book) := get_order_book client symbol (fst w) in
       ((w', snd w), book))
    (fun params w =>
       let (w', answer) := create_order client params (fst w) in
       ((w', (snd w ++ [params])%list), answer)).

(** ** analyze_order_book *)

(** A numpy float: a number, [nan], or an infinity with its sign. *)
Inductive npfloat : Type :=
| NpNum (x : Q)
| NpNaN
| NpInf (negative : bool).

(** [x / y] on numpy floats whose operands are numbers: dividing by zero
    warns and gives [nan] or an infinity, it does not raise. *)
Definition np_div (x y : Q) : npfloat :=
  if Qeq_bool y 0
  then if Qeq_bool x 0 then NpNaN else NpInf (ltb x 0)
  else NpNum (x / y).

(** The dict the method returns. *)
Record book_analysis : Type := mkAnalysis {
  spread : Q;
  bid_liquidity : Q;
  ask_liquidity : Q;
  imbalance : npfloat;
  best_bid : Q;
  best_ask : Q
}.

(** The [try] block after the book was fetched.  A side without levels makes
    a one-dimensional array, on which [[:, 1]] raises. *)
Definition analyze_order_book_try (book : order_book) : outcome book_analysis :=
  match bids book, asks book with
  | [], _ | _, [] =>
      Raised (IndexError
        "too many indices for array: array is 1-dimensional, but 2 were indexed")
  | (bid0, _) :: _, (ask0, _) :: _ =>
      let bid_liquidity := sum (map snd (bids book)) in
      let ask_liquidity := sum (map snd (asks book)) in
      let spread := ask0 - bid0 in
      let bid_depth := sum (map snd (firstn 5 (bids book))) in
      let ask_depth := sum (map snd (firstn 5 (asks book))) in
      let imbalance := np_div (bid_depth - ask_depth) (bid_depth + ask_depth) in
      Returned (mkAnalysis spread bid_liquidity ask_liquidity imbalance bid0 ask0)
  end.

(** The method; [None] stands for the empty dict of the [except] clause. *)
Definition analyze_order_book (book : order_book) : option book_analysis :=
  try_except (x <- analyze_order_book_try book ;; Returned (Some x))
    (fun _ => None).

End Exchange.

(* ====================================================================== *)
(** * deep_learning/trading_strategy.py *)
(* ====================================================================== *)

Module DeepLearning.

(** The [try] block of [DeepLearningStrategy.predict].  [n_features] is the
    number of feature rows; [price_model] is the outcome of the price
    prediction and of the relative change numpy computes from it and the
    last close; [dqn_agent] is the outcome of building the state and asking
    the agent for an action; [epsilon] is the agent's exploration rate.  The
    threshold is the one of [DEEP_LEARNING_CONFIG]. *)
Definition predict_try (n_features : nat) (price_model : outcome Q)
    (dqn_agent : outcome Z) (epsilon : Q) : outcome (Z * Q * Q) :=
  if (n_features =? 0)%nat
  then Returned (0%Z, 0.0, 0.0)
  else
    predicted_return <- price_model ;;
    action <- dqn_agent ;;
    let confidence :=
      if (action =? 0)%Z
      then 0.5
      else
        let price_conf :=
          min2 (Qabs predicted_return / TradingEngine.prediction_threshold) 1.0 in
        let dqn_conf := 1.0 - epsilon in
        (price_conf + dqn_conf) / 2 in
    Returned (action, confidence, predicted_return).

(** The method: any failure gives hold with no confidence. *)
Definition predict (n_features : nat) (price_model : outcome Q)
    (dqn_agent : outcome Z) (epsilon : Q) : Z * Q * Q :=
  try_except (predict_try n_features price_model dqn_agent epsilon)
    (fun _ => (0%Z, 0.0, 0.0)).

End DeepLearning.

(* ====================================================================== *)
(** * trading_engine.py on top of exchange_integration.py *)
(* ====================================================================== *)

Module Wiring.

Import TradingEngine.

(** The [order_type] strings the engine passes to [execute_order]. *)
Definition order_type_name (kind : order_type) : string :=
  match kind with
  | MARKET => "MARKET"
  | STOP_LOSS => "STOP_LOSS"
  end.

(** The engine's collaborators when [self.exchange.execute_order] is the
    integration's method over an exchange that records the orders it is
    sent.  The other collaborators are those of [C]; they see the world but
    not the exchange's record. *)
Definition observed {World : Type} (C : Collaborators World)
    (client : Exchange.Client World) (self : Exchange.settings)
    : Collaborators (World * list Exchange.order_params) :=
  let lift (A : Type) (f : World -> World * outcome A)
        (w : World * list Exchange.order_params) :=
    let (w', o) := f (fst w) in ((w', snd w), o) in
  mkCollaborators (World * list Exchange.order_params)
    (lift _ (get_portfolio C))
    (fun symbol => lift _ (analyze_multiple_timeframes C symbol))
    (fun symbol => lift _ (deep_learning_predict C symbol))
    (fun symbol => lift _ (last_close C symbol))
    (fun symbol close total => lift _ (calculate_position_size C symbol close total))
    (fun entry current => lift _ (calculate_trailing_stop C entry current))
    (fun symbol side amount kind price w =>
       let (w', result) :=
         Exchange.execute_order (Exchange.recording client) self symbol side
           amount (order_type_name kind) price w in
       (w',
        match result with
        | Returned (Some order) => Returned (Some (Exchange.as_position order))
        | Returned None => Returned None
        | Raised e => Raised e
        end))
    (fun symbol order_id price => lift _ (update_order C symbol order_id price))
    (fun ps => lift _ (emergency_check C ps)).

(** [keeps I m]: the method [m] keeps the property [I] of the world. *)
Definition keeps {World A : Type} (I : World -> Prop) (m : M World A) : Prop :=
  forall e : t World, I (world e) -> I (world (fst (m e))).

(** Every call on the collaborators keeps the property [I] of the world. *)
Definition collaborators_keep {World : Type} (I : World -> Prop)
    (C : Collaborators World) : Prop :=
  (forall w, I w -> I (fst (get_portfolio C w))) /\
  (forall symbol w, I w -> I (fst (analyze_multiple_timeframes C symbol w))) /\
  (forall symbol w, I w -> I (fst (deep_learning_predict C symbol w))) /\
  (forall symbol w, I w -> I (fst (last_close C symbol w))) /\
  (forall symbol close total w,
      I w -> I (fst (calculate_position_size C symbol close total w))) /\
  (forall entry current w,
      I w -> I (fst (calculate_trailing_stop C entry current w))) /\
  (forall symbol side amount kind price w,
      I w -> I (fst (execute_order C symbol side amount kind price w))) /\
  (forall symbol order_id price w,
      I w -> I (fst (update_order C symbol order_id price w))) /\
  (forall ps w, I w -> I (fst (emergency_check C ps w))).

(** An order without a price, to be filled at the market. *)
Definition market_order (params : Exchange.order_params) : Prop :=
  Exchange.p_type params = "MARKET" /\ Exchange.p_price params = None.

(** The exchange's record has grown from [log] by market orders only. *)
Definition grown_by_market_orders {World : Type}
    (log : list Exchange.order_params)
    (w : World * list Exchange.order_params) : Prop :=
  exists sent : list Exchange.order_params,
    snd w = (log ++ sent)%list /\ Forall market_order sent.

End Wiring.

(* ====================================================================== *)
(** * strategy_optimizer.py: analyze_multiple_timeframes *)
(* ====================================================================== *)

Module MultiTimeframe.

Import StrategyOptimizer.

(** The local table [weights]. *)
Definition weights : list (string * Q) :=
  [ ("1m", 0.05); ("5m", 0.10); ("15m", 0.15);
    ("1h", 0.25); ("4h", 0.25); ("1d", 0.20) ].

(** What the method takes from one DataFrame of [timeframe_data]: the
    outcome of the model inference [predict] runs on it, and the outcome of
    the indicator reads [detect_market_regime] runs on it. *)
Record frame_data : Type := mkFrameData {
  inference : outcome (Z * list Q);
  indicators : outcome Indicators
}.

(** An entry of [signals]. *)
Record signal : Type := mkSignal {
  prediction : Z;
  probability : Q;
  regime : MarketRegime;
  weight : Q
}.

(** The first loop.  [detect_market_regime] records the regime on [self], so
    the optimizer is threaded from one timeframe to the next. *)
Fixpoint analyze_loop (self : t) (symbol : string)
    (timeframe_data : list (string * frame_data))
    (signals : list (string * signal)) : t * list (string * signal) :=
  match timeframe_data with
  | [] => (self, signals)
  | (timeframe, data) :: rest =>
      match Dict.lookup timeframe weights with
      | None => analyze_loop self symbol rest signals
      | Some w =>
          let '(prediction, probability) :=
            predict self symbol timeframe (inference data) in
          let '(self', regime) :=
            detect_market_regime self (indicators data) symbol in
          analyze_loop self' symbol rest
            (Dict.set timeframe (mkSignal prediction probability regime w)
               signals)
      end
  end.

(** The second loop: [(weighted_signal, total_weight)]. *)
Fixpoint combine (signals : list (string * signal))
    (weighted_signal total_weight : Q) : Q * Q :=
  match signals with
  | [] => (weighted_signal, total_weight)
  | (_, s) :: rest =>
      let adjusted_weight := weight s * probability s * confidence (regime s) in
      combine rest
        (weighted_signal + inject_Z (prediction s) * adjusted_weight)
        (total_weight + adjusted_weight)
  end.

(** The method: the optimizer it leaves, [final_signal] and
    [timeframe_signals].  [predict] and [detect_market_regime] catch their
    own failures and nothing else in the block raises, so the [except]
    clause is never entered. *)
Definition analyze_multiple_timeframes (self : t) (symbol : string)
    (timeframe_data : list (string * frame_data))
    : t * (Q * list (string * signal)) :=
  let '(self', signals) := analyze_loop self symbol timeframe_data [] in
  let '(weighted_signal, total_weight) := combine signals 0 0 in
  (self',
   (if ltb 0 total_weight then weighted_signal / total_weight else 0,
    signals)).

Definition final_signal (result : t * (Q * list (string * signal))) : Q :=
  fst (snd result).

Definition timeframe_signals (result : t * (Q * list (string * signal)))
    : list (string * signal) :=
  snd (snd result).

(** [timeframe in weights] *)
Definition weighted (entry : string * frame_data) : bool :=
  match Dict.lookup (fst entry) weights with
  | Some _ => true
  | None => false
  end.

(** A signal that pulls the average toward class 0 or class 1 with a weight
    that is not negative. *)
Definition sound_signal (s : signal) : Prop :=
  (0 <= prediction s <= 1)%Z /\ 0 <= probability s /\
  0 <= confidence (regime s) /\ 0 <= weight s.

(** The regime on record for the symbol does not turn probabilities
    negative. *)
Definition regime_on_record_sound (self : StrategyOptimizer.t)
    (symbol : string) : Prop :=
  forall recorded : MarketRegime,
    Dict.lookup symbol (market_regimes self) = Some recorded ->
    0 <= regime_factor recorded.

(** What the data of one timeframe must satisfy: the model answers with
    class 0 or 1 and class probabilities that are not negative, and the
    Bollinger band value read from the bars is at least -1. *)
Definition sound_data (data : frame_data) : Prop :=
  (forall prediction probability,
      inference data = Returned (prediction, probability) ->
      (0 <= prediction <= 1)%Z /\ Forall (fun p => 0 <= p) probability) /\
  (forall i, indicators data = Returned i -> -1 <= current_bb_width i).

End MultiTimeframe.

(* ====================================================================== *)
(** * advanced_risk_manager.py: optimize_portfolio_weights *)
(* ====================================================================== *)

(** As for the correlation matrix, a float is a real number or NaN here; a
    weight, the result of the final division, may also be an infinity. *)
Module Portfolio.

Import Correlation.
Local Open Scope R_scope.

Inductive weight : Type :=
| Weight (x : R)
| WeightNaN
| WeightInf (negative : bool).

(** [abs(x)] *)
Definition fabs (x : float) : float :=
  match x with
  | Num r => Num (Rabs r)
  | NaN => NaN
  end.

(** [1 - x] *)
Definition one_minus (x : float) : float :=
  match x with
  | Num r => Num (1 - r)
  | NaN => NaN
  end.

(** [x + y] *)
Definition fadd (x y : float) : float :=
  match x, y with
  | Num a, Num b => Num (a + b)
  | _, _ => NaN
  end.

(** [c * x] for a number [c] *)
Definition fscale (c : R) (x : float) : float :=
  match x with
  | Num a => Num (c * a)
  | NaN => NaN
  end.

(** [x / y] on numpy floats: dividing by zero gives [nan] or an infinity. *)
Definition fdiv (x y : float) : weight :=
  match x, y with
  | Num a, Num b =>
      if Req_dec_T b 0
      then if Req_dec_T a 0 then WeightNaN
           else WeightInf (if Rlt_dec a 0 then true else false)
      else Weight (a / b)
  | _, _ => WeightNaN
  end.

(** The rows [symbols] of one column; a label the column lacks raises. *)
Fixpoint loc_rows (entries : list (string * float)) (symbols : list string)
    : outcome (list (string * float)) :=
  match symbols with
  | [] => Returned []
  | row :: rest =>
      x <- getitem row (Dict.lookup row entries) ;;
      others <- loc_rows entries rest ;;
      Returned ((row, x) :: others)
  end.

(** [frame.loc[symbols, columns]] *)
Fixpoint loc (m : frame) (symbols columns : list string) : outcome frame :=
  match columns with
  | [] => Returned []
  | column :: rest =>
      entries <- getitem column (Dict.lookup column m) ;;
      rows <- loc_rows entries symbols ;;
      others <- loc m symbols rest ;;
      Returned ((column, rows) :: others)
  end.

(** [1 - abs(frame)] *)
Definition distance (selected : frame) : frame :=
  map (fun column =>
         (fst column,
          map (fun row => (fst row, one_minus (fabs (snd row)))) (snd column)))
    selected.

(** [frame.mean()]: the mean of each column, NaN entries skipped. *)
Definition column_means (m : frame) : list (string * float) :=
  map (fun column => (fst column, nanmean (Dict.values (snd column)))) m.

(** The loop that fills [scores]. *)
Fixpoint score_loop (div_scores : list (string * float))
    (expected_returns : list (string * R)) (symbols : list string)
    (scores : list (string * float)) : outcome (list (string * float)) :=
  match symbols with
  | [] => Returned scores
  | symbol :: rest =>
      div_score <- getitem symbol (Dict.lookup symbol div_scores) ;;
      let ret_score := get (Dict.lookup symbol expected_returns) 0 in
      score_loop div_scores expected_returns rest
        (Dict.set symbol (fadd (fscale 0.7 div_score) (Num (0.3 * ret_score)))
           scores)
  end.

(** [sum(scores.values())] *)
Definition total_score (scores : list (string * float)) : float :=
  fold_left fadd (Dict.values scores) (Num 0).

(** The [try] block. *)
Definition optimize_portfolio_weights_try (self : Correlation.t)
    (current_portfolio expected_returns : list (string * R))
    : outcome (list (string * weight)) :=
  match correlation_matrix self with
  | None => Raised (ValueError "Correlation matrix not initialized")
  | Some m =>
      let symbols := Dict.keys current_portfolio in
      match symbols with
      | [] => Returned []
      | _ :: _ =>
          selected <- loc m symbols symbols ;;
          let div_scores := column_means (distance selected) in
          scores <- score_loop div_scores expected_returns symbols [] ;;
          Returned
            (map (fun entry => (fst entry, fdiv (snd entry) (total_score scores)))
               scores)
      end
  end.

(** The fallback of the [except] clause: equal weights. *)
Definition equal_weights (current_portfolio : list (string * R))
    : list (string * weight) :=
  map (fun entry =>
         (fst entry, Weight (1 / INR (List.length current_portfolio))))
    current_portfolio.

(** The method. *)
Definition optimize_portfolio_weights (self : Correlation.t)
    (current_portfolio expected_returns : list (string * R))
    : list (string * weight) :=
  try_except
    (optimize_portfolio_weights_try self current_portfolio expected_returns)
    (fun _ => equal_weights current_portfolio).

End Portfolio.

(* ====================================================================== *)
(** * trading_engine.py: the emergency check as the engine makes it *)
(* ====================================================================== *)

Module Awaited.

(** [await value] on a tuple: a tuple is no awaitable, so the expression
    raises once the value has been computed. *)
Definition await_tuple {A B : Type} (value : A * B) : outcome (A * B) :=
  Raised (TypeError "object tuple can't be used in 'await' expression").

(** [await self.risk_manager.check_emergency_shutdown(self.positions)] with
    the risk manager of advanced_risk_manager.py, whose method is an
    ordinary [def] that returns its tuple. *)
Definition check_emergency_shutdown_awaited {World : Type}
    (risk_manager : RiskManager.t) (portfolio : list (string * Position))
    (w : World) : World * outcome (bool * string) :=
  (w,
   await_tuple (RiskManager.check_emergency_shutdown risk_manager portfolio)).

End Awaited.

(** ** Concrete inputs used by the further examples *)

Module MoreExamples.

(** A book with three ask levels and two bid levels. *)
Definition book : Exchange.order_book :=
  Exchange.mkBook [(100, 5); (99, 5)] [(101, 2); (102, 3); (105, 10)].

(** An exchange that serves that book and answers every order with an API
    error; its state counts the orders it was sent. *)
Definition failing_client : Exchange.Client nat :=
  Exchange.mkClient nat
    (fun _ w => (w, book))
    (fun _ w => (S w, Exchange.ApiError (OtherError "APIError(code=-1001)"))).

(** An exchange that serves that book and fills every order at 103. *)
Definition filling_client : Exchange.Client nat :=
  Exchange.mkClient nat
    (fun _ w => (w, book))
    (fun params w =>
       (S w,
        Exchange.Accepted
          (Exchange.mkClientOrder
             (mkPosition (Some 103) (Some (Exchange.p_quantity params)) None
                None None None None)
             (Returned 103)))).

(** Settings with a tolerance wide enough for that book. *)
Definition tolerant : Exchange.settings :=
  Exchange.mkSettings 0.05 3.

(** The eager collaborators of the first examples with another predictor. *)
Definition eager_with_predictor (answer : Z * Q * Q)
    : TradingEngine.Collaborators unit :=
  TradingEngine.mkCollaborators unit
    (TradingEngine.get_portfolio Examples.eager)
    (TradingEngine.analyze_multiple_timeframes Examples.eager)
    (fun _ w => (w, Returned answer))
    (TradingEngine.last_close Examples.eager)
    (TradingEngine.calculate_position_size Examples.eager)
    (TradingEngine.calculate_trailing_stop Examples.eager)
    (TradingEngine.execute_order Examples.eager)
    (TradingEngine.update_order Examples.eager)
    (TradingEngine.emergency_check Examples.eager).

(** The eager collaborators with an exchange that refuses to sell ETH. *)
Definition picky : TradingEngine.Collaborators unit :=
  TradingEngine.mkCollaborators unit
    (TradingEngine.get_portfolio Examples.eager)
    (TradingEngine.analyze_multiple_timeframes Examples.eager)
    (TradingEngine.deep_learning_predict Examples.eager)
    (TradingEngine.last_close Examples.eager)
    (TradingEngine.calculate_position_size Examples.eager)
    (TradingEngine.calculate_trailing_stop Examples.eager)
    (fun symbol side amount order_type price w =>
       if String.eqb symbol "ETH/USDT"
       then (w, Raised (OtherError "APIError(code=-2010)"))
       else TradingEngine.execute_order Examples.eager symbol side amount
              order_type price w)
    (TradingEngine.update_order Examples.eager)
    (TradingEngine.emergency_check Examples.eager).

(** The eager collaborators with the emergency check as the sources make
    it. *)
Definition as_written : TradingEngine.Collaborators unit :=
  TradingEngine.mkCollaborators unit
    (TradingEngine.get_portfolio Examples.eager)
    (TradingEngine.analyze_multiple_timeframes Examples.eager)
    (TradingEngine.deep_learning_predict Examples.eager)
    (TradingEngine.last_close Examples.eager)
    (TradingEngine.calculate_position_size Examples.eager)
    (TradingEngine.calculate_trailing_stop Examples.eager)
    (TradingEngine.execute_order Examples.eager)
    (TradingEngine.update_order Examples.eager)
    (Awaited.check_emergency_shutdown_awaited Examples.no_conditions).

(** A position bought at 100, now worth 40 after a peak of 100. *)
Definition fallen_position : Position :=
  mkPosition (Some 100) (Some 1) (Some 98) (Some "sl-2")
    (Some 40) (Some 100) (Some 0).

(** An engine holding two positions. *)
Definition two_positions : TradingEngine.t unit :=
  TradingEngine.mk
    [ ("BTC/USDT", Examples.protected_position);
      ("ETH/USDT", Examples.protected_position) ]
    Examples.no_conditions tt.

(** An engine whose two positions are together worth 80, a fifth under the
    highest peak value on record. *)
Definition fallen_engine : TradingEngine.t unit :=
  TradingEngine.mk
    [ ("BTC/USDT", fallen_position); ("ETH/USDT", fallen_position) ]
    Examples.no_conditions tt.

(** An optimizer that has trained nothing. *)
Definition untrained : StrategyOptimizer.t := StrategyOptimizer.mk [] [] [].

(** An optimizer with models for the hourly and the four-hour bars. *)
Definition trained_twice : StrategyOptimizer.t :=
  StrategyOptimizer.mk ["BTC/USDT_1h"; "BTC/USDT_4h"]
    ["BTC/USDT_1h"; "BTC/USDT_4h"] [].

(** Hourly bars in a strong up-trend on which the model answers class 1,
    four-hour bars below the lower band on which it answers class 0, and
    weekly bars, for which the method has no weight. *)
Definition three_timeframes : list (string * MultiTimeframe.frame_data) :=
  [ ("1h", MultiTimeframe.mkFrameData (Returned (1%Z, [0.3; 0.7]))
             (Returned Examples.strong_trend));
    ("1w", MultiTimeframe.mkFrameData (Returned (1%Z, [0.1; 0.9]))
             (Returned Examples.strong_trend));
    ("4h", MultiTimeframe.mkFrameData (Returned (0%Z, [0.6; 0.4]))
             (Returned Examples.below_lower_band)) ].

(** A risk manager whose correlation matrix says that BTC and ETH move
    independently of each other. *)
Definition independent_pair : Correlation.t :=
  Correlation.mk
    (Some [ ("BTC/USDT", [ ("BTC/USDT", Correlation.Num 1);
                            ("ETH/USDT", Correlation.Num 0) ]);
            ("ETH/USDT", [ ("BTC/USDT", Correlation.Num 0);
                            ("ETH/USDT", Correlation.Num 1) ]) ])
    None [].

(** Holdings in BTC and ETH. *)
Definition btc_and_eth : list (string * R) :=
  [ ("BTC/USDT", 1000%R); ("ETH/USDT", 500%R) ].

(** Holdings in BTC, ETH and BNB. *)
Definition three_assets : list (string * R) :=
  [ ("BTC/USDT", 1000%R); ("ETH/USDT", 500%R); ("BNB/USDT", 100%R) ].

End MoreExamples.

(* ====================================================================== *)
(** * Properties *)
(* ====================================================================== *)

(** ** Float comparisons and strings *)

(** Division by a literal is multiplication by its inverse, which [lra]
    then reads as a coefficient. *)
Ltac qdiv_consts :=
  unfold Qdiv in *;
  repeat match goal with
  | |- context [ / (Qmake ?n ?d) ] =>
      let v := eval vm_compute in (Qinv (Qmake n d)) in
      change (/ (Qmake n d)) with v
  | H : context [ / (Qmake ?n ?d) ] |- _ =>
      let v := eval vm_compute in (Qinv (Qmake n d)) in
      change (/ (Qmake n d)) with v in H
  end.

Lemma ltb_lt (x y : Q) : ltb x y = true <-> x < y.
Proof.
  unfold ltb. rewrite negb_true_iff. split.
  - intros H. apply Qnot_le_lt. intros Hle.
    apply Qle_bool_iff in Hle. congruence.
  - intros H. destruct (Qle_bool y x) eqn:E; [|reflexivity].
    apply Qle_bool_iff in E. exfalso. apply (Qlt_not_le _ _ H E).
Qed.

Lemma ltb_ge (x y : Q) : ltb x y = false <-> y <= x.
Proof.
  unfold ltb. rewrite negb_false_iff. apply Qle_bool_iff.
Qed.

Lemma max2_Qmax (a b : Q) : max2 a b == Qmax a b.
Proof.
  unfold max2. destruct (ltb a b) eqn:E.
  - apply ltb_lt in E. symmetry. apply Q.max_r. apply Qlt_le_weak, E.
  - apply ltb_ge in E. symmetry. apply Q.max_l, E.
Qed.

Lemma min2_Qmin (a b : Q) : min2 a b == Qmin a b.
Proof.
  unfold min2. destruct (ltb b a) eqn:E.
  - apply ltb_lt in E. symmetry. apply Q.min_r. apply Qlt_le_weak, E.
  - apply ltb_ge in E. symmetry. apply Q.min_l, E.
Qed.

Lemma append_nonempty_l (a b : string) : a <> "" -> a ++ b <> "".
Proof. destruct a; simpl; congruence. Qed.

Lemma Qmax_compat_l (a a' b : Q) : a == a' -> Qmax a b == Qmax a' b.
Proof.
  intros H. destruct (Qlt_le_dec a b) as [Hlt | Hle].
  - rewrite (Q.max_r a b) by lra. rewrite (Q.max_r a' b) by lra. reflexivity.
  - rewrite (Q.max_l a b) by lra. rewrite (Q.max_l a' b) by lra. exact H.
Qed.

Lemma Qmin_compat_l (a a' b : Q) : a == a' -> Qmin a b == Qmin a' b.
Proof.
  intros H. destruct (Qlt_le_dec b a) as [Hlt | Hle].
  - rewrite (Q.min_r a b) by lra. rewrite (Q.min_r a' b) by lra. reflexivity.
  - rewrite (Q.min_l a b) by lra. rewrite (Q.min_l a' b) by lra. exact H.
Qed.

(** ** advanced_risk_manager.py: dynamic stop-loss *)

Import RiskManager.

Lemma final_stop_pct_bounds (mc : MarketCondition Q) :
  0.01 <= final_stop_pct mc /\ final_stop_pct mc <= 0.05.
Proof.
  unfold final_stop_pct. split.
  - apply Q.min_glb; [apply Q.le_max_r | lra].
  - apply Q.le_min_r.
Qed.

(** The clamped percentage the block computes is the one the specification
    words. *)
Lemma block_final_stop_pct (mc : MarketCondition Q) :
  min2 (max2 (0.02 * (volatility mc / 0.02) * (1.0 + trend_strength mc / 100)) 0.01) 0.05
  == final_stop_pct mc.
Proof.
  unfold final_stop_pct. rewrite min2_Qmin.
  apply Qmin_compat_l. rewrite max2_Qmax.
  apply Qmax_compat_l. lra.
Qed.

(** C2.  With a market condition at hand (passed in, or stored for the
    symbol), [calculate_dynamic_stop_loss] returns
    [entry * (1 - p)] and [entry * (1 + 2 p)] where [p] is
    [0.02 * (volatility / 0.02) * (1 + trend_strength / 100)] clamped to
    [0.01, 0.05].  No sign condition on volatility or trend strength is
    needed. *)
Theorem calculate_dynamic_stop_loss_formula
    (self : RiskManager.t) (symbol : string) (entry_price position_size : Q)
    (market_condition : option (MarketCondition Q)) (mc : MarketCondition Q) :
  market_condition = Some mc \/
  (market_condition = None /\
   Dict.lookup symbol (market_conditions self) = Some mc) ->
  exists stop_loss_price take_profit_price : Q,
    calculate_dynamic_stop_loss self symbol entry_price position_size
      market_condition = Returned (stop_loss_price, take_profit_price) /\
    stop_loss_price == entry_price * (1 - final_stop_pct mc) /\
    take_profit_price == entry_price * (1 + 2 * final_stop_pct mc) /\
    0.01 <= final_stop_pct mc <= 0.05.
Proof.
  intros Hmc.
  assert (Hblock :
    calculate_dynamic_stop_loss_try self symbol entry_price position_size
      market_condition
    = Returned
        (let p := min2 (max2 (0.02 * (volatility mc / 0.02)
                              * (1.0 + trend_strength mc / 100)) 0.01) 0.05 in
         (entry_price * (1 - p), entry_price * (1 + p * 2)))).
  { unfold calculate_dynamic_stop_loss_try.
    destruct Hmc as [-> | [-> Hstored]]; [reflexivity |].
    rewrite Hstored. reflexivity. }
  unfold calculate_dynamic_stop_loss. rewrite Hblock. cbn [try_except].
  eexists _, _. split; [reflexivity |].
  pose proof (block_final_stop_pct mc) as Hp.
  repeat split.
  - rewrite Hp. reflexivity.
  - rewrite Hp. ring.
  - apply final_stop_pct_bounds.
  - apply final_stop_pct_bounds.
Qed.

(** The specification's scenario: entry 100, volatility equal to the 2%
    reference, no trend: stop at 98, target at 104. *)
Lemma calculate_dynamic_stop_loss_scenario :
  exists stop_loss_price take_profit_price : Q,
    calculate_dynamic_stop_loss Examples.no_conditions "BTC/USDT" 100 1
      (Some Examples.reference_condition)
    = Returned (stop_loss_price, take_profit_price) /\
    stop_loss_price == 98 /\ take_profit_price == 104.
Proof.
  destruct (calculate_dynamic_stop_loss_formula Examples.no_conditions
              "BTC/USDT" 100 1 (Some Examples.reference_condition)
              Examples.reference_condition (or_introl eq_refl))
    as (sl & tp & Hcall & Hsl & Htp & _).
  exists sl, tp. split; [exact Hcall |].
  assert (Hp : final_stop_pct Examples.reference_condition == 0.02)
    by (vm_compute; reflexivity).
  rewrite Hsl, Htp, Hp. split; reflexivity.
Defined.

(** C8, as the code has it.  With no condition passed in and none stored,
    the block raises "No market condition data for <symbol>", the method's
    own [except] clause catches it, and the method returns the fixed pair
    [entry * 0.98], [entry * 1.04]: the caller sees a result, not an error. *)
Theorem calculate_dynamic_stop_loss_missing_condition
    (self : RiskManager.t) (symbol : string) (entry_price position_size : Q) :
  Dict.lookup symbol (market_conditions self) = None ->
  calculate_dynamic_stop_loss_try self symbol entry_price position_size None
  = Raised (ValueError ("No market condition data for " ++ symbol)) /\
  calculate_dynamic_stop_loss self symbol entry_price position_size None
  = Returned (entry_price * 0.98, entry_price * 1.04).
Proof.
  intros Hnone.
  assert (Hblock :
    calculate_dynamic_stop_loss_try self symbol entry_price position_size None
    = Raised (ValueError ("No market condition data for " ++ symbol))).
  { unfold calculate_dynamic_stop_loss_try. rewrite Hnone. reflexivity. }
  split; [exact Hblock |].
  unfold calculate_dynamic_stop_loss. rewrite Hblock. reflexivity.
Qed.

Lemma calculate_dynamic_stop_loss_missing_condition_example :
  calculate_dynamic_stop_loss_try Examples.no_conditions "BTC/USDT" 100 1 None
  = Raised (ValueError "No market condition data for BTC/USDT") /\
  calculate_dynamic_stop_loss Examples.no_conditions "BTC/USDT" 100 1 None
  = Returned (100 * 0.98, 100 * 1.04).
Proof.
  exact (calculate_dynamic_stop_loss_missing_condition Examples.no_conditions
           "BTC/USDT" 100 1 eq_refl).
Defined.

(** C8 as stated fails: on a manager with no stored condition the call made
    without a condition does not raise. *)
Lemma calculate_dynamic_stop_loss_never_raises_example :
  ~ exists e : exn,
      calculate_dynamic_stop_loss Examples.no_conditions "BTC/USDT" 100 1 None
      = Raised e.
Proof.
  intros [e He]. vm_compute in He. discriminate He.
Qed.

(** ** advanced_risk_manager.py: emergency shutdown *)

Lemma reason_text_nonempty (r : reason) : r <> NoReason -> reason_text r <> "".
Proof.
  destruct r; intros Hr; try (apply append_nonempty_l; discriminate).
  congruence.
Qed.

(** The walk over the stored conditions stops at the first instrument that
    breaches a limit, and reports volatility before liquidity for it. *)
Lemma scan_market_conditions_find (trg : EmergencyTriggers) (max_vol : Q)
    (conds : list (string * MarketCondition Q)) :
  max_volatility trg = Some max_vol ->
  scan_market_conditions trg conds
  = Returned
      match find (breaches max_vol) conds with
      | Some (symbol, c) =>
          if ltb max_vol (volatility c)
          then (true, ExcessiveVolatility symbol (volatility c))
          else (true, InsufficientLiquidity symbol)
      | None => (false, NoReason)
      end.
Proof.
  intros Hmv. induction conds as [| [symbol c] rest IH]; [reflexivity |].
  cbn [scan_market_conditions find]. rewrite Hmv. cbn [getitem bind].
  unfold breaches at 1. cbn [snd].
  destruct (ltb max_vol (volatility c)) eqn:Hvol; cbn [orb].
  - rewrite Hvol. reflexivity.
  - destruct (ltb (liquidity c) 0.5) eqn:Hliq; [| exact IH].
    rewrite Hvol. reflexivity.
Qed.

(** A verdict of the walk is an emergency exactly when it carries a reason. *)
Lemma scan_market_conditions_verdict (trg : EmergencyTriggers)
    (conds : list (string * MarketCondition Q)) (b : bool) (r : reason) :
  scan_market_conditions trg conds = Returned (b, r) ->
  (b = true /\ r <> NoReason) \/ (b = false /\ r = NoReason).
Proof.
  induction conds as [| [symbol c] rest IH]; cbn [scan_market_conditions].
  - intros [= <- <-]. right. split; reflexivity.
  - destruct (max_volatility trg) as [mv |]; cbn [getitem bind]; [| discriminate].
    destruct (ltb mv (volatility c)).
    + intros [= <- <-]. left. split; [reflexivity | discriminate].
    + destruct (ltb (liquidity c) 0.5); [| exact IH].
      intros [= <- <-]. left. split; [reflexivity | discriminate].
Qed.

Lemma check_emergency_shutdown_verdict (self : RiskManager.t)
    (portfolio : list (string * Position)) :
  let result := check_emergency_shutdown_reason self portfolio in
  (fst result = true /\ snd result <> NoReason) \/
  (fst result = false /\ snd result = NoReason).
Proof.
  cbv zeta. unfold check_emergency_shutdown_reason, check_emergency_shutdown_try.
  destruct (sum_values 0 (Dict.values portfolio)) as [total | e]; cbn [bind try_except];
    [| left; split; [reflexivity | discriminate]].
  destruct (max_of _) as [peak | e]; cbn [bind try_except];
    [| left; split; [reflexivity | discriminate]].
  destruct (max_drawdown (emergency_triggers self)) as [md |]; cbn [getitem bind try_except];
    [| left; split; [reflexivity | discriminate]].
  destruct (ltb md _); cbn [try_except];
    [left; split; [reflexivity | discriminate] |].
  destruct (max_daily_loss (emergency_triggers self)) as [ml |]; cbn [getitem bind try_except];
    [| left; split; [reflexivity | discriminate]].
  destruct (ltb _ (- ml)); cbn [try_except];
    [left; split; [reflexivity | discriminate] |].
  destruct (scan_market_conditions _ _) as [[b r] | e] eqn:Hscan; cbn [try_except fst snd].
  - exact (scan_market_conditions_verdict _ _ _ _ Hscan).
  - left; split; [reflexivity | discriminate].
Qed.

(** C1, as the code has it.  The method returns [(true, reason)] with a
    non-empty reason or [(false, "")]; a failure inside the evaluation gives
    [(true, "Error in risk assessment: ...")]; when the evaluation succeeds
    the drawdown test ([(peak - current)/peak] if the peak is positive, else
    0, strictly above [max_drawdown]) comes first, the daily-loss test
    ([daily_pl/total] if the total is positive, else 0, strictly below
    [-max_daily_loss]) second, and then the instruments are walked in stored
    order, each one tested for volatility above [max_volatility] and then
    for liquidity below 0.5, the first breach deciding; a drawdown equal to
    the threshold does not fire the drawdown trigger. *)
Theorem check_emergency_shutdown_order (self : RiskManager.t)
    (portfolio : list (string * Position)) :
  let trg := emergency_triggers self in
  let result := check_emergency_shutdown_reason self portfolio in
  check_emergency_shutdown self portfolio = (fst result, reason_text (snd result)) /\
  ((fst result = true /\ reason_text (snd result) <> "") \/
   check_emergency_shutdown self portfolio = (false, "")) /\
  (forall e : exn,
      check_emergency_shutdown_try self portfolio = Raised e ->
      check_emergency_shutdown self portfolio
      = (true, "Error in risk assessment: " ++ str e)) /\
  (forall total peak max_dd max_dl max_vol : Q,
      sum_values 0 (Dict.values portfolio) = Returned total ->
      max_of (map (fun pos => get (peak_value pos) 0) (Dict.values portfolio))
      = Returned peak ->
      max_drawdown trg = Some max_dd ->
      max_daily_loss trg = Some max_dl ->
      max_volatility trg = Some max_vol ->
      let drawdown := drawdown_of peak total in
      let daily_pl_pct :=
        daily_pl_pct_of
          (sum (map (fun pos => get (daily_pl pos) 0) (Dict.values portfolio)))
          total in
      result
      = (if ltb max_dd drawdown then (true, MaxDrawdownExceeded drawdown)
         else if ltb daily_pl_pct (- max_dl)
         then (true, MaxDailyLossExceeded daily_pl_pct)
         else match find (breaches max_vol) (market_conditions self) with
              | Some (symbol, c) =>
                  if ltb max_vol (volatility c)
                  then (true, ExcessiveVolatility symbol (volatility c))
                  else (true, InsufficientLiquidity symbol)
              | None => (false, NoReason)
              end) /\
      (drawdown == max_dd -> trigger_of (snd result) <> Some Drawdown)).
Proof.
  cbv zeta.
  assert (Htext : check_emergency_shutdown self portfolio
                  = (fst (check_emergency_shutdown_reason self portfolio),
                     reason_text (snd (check_emergency_shutdown_reason self portfolio)))).
  { unfold check_emergency_shutdown.
    destruct (check_emergency_shutdown_reason self portfolio); reflexivity. }
  split; [exact Htext |]. split; [| split].
  - rewrite Htext.
    destruct (check_emergency_shutdown_verdict self portfolio) as [[Hb Hr] | [Hb Hr]].
    + left. split; [exact Hb | apply reason_text_nonempty, Hr].
    + right. rewrite Hb, Hr. reflexivity.
  - intros e He. rewrite Htext.
    unfold check_emergency_shutdown_reason. rewrite He. reflexivity.
  - intros total peak max_dd max_dl max_vol Htotal Hpeak Hdd Hdl Hvol.
    assert (Hres : check_emergency_shutdown_reason self portfolio
      = (if ltb max_dd (drawdown_of peak total)
         then (true, MaxDrawdownExceeded (drawdown_of peak total))
         else if ltb (daily_pl_pct_of
                        (sum (map (fun pos => get (daily_pl pos) 0)
                                (Dict.values portfolio))) total) (- max_dl)
         then (true, MaxDailyLossExceeded
                       (daily_pl_pct_of
                          (sum (map (fun pos => get (daily_pl pos) 0)
                                  (Dict.values portfolio))) total))
         else match find (breaches max_vol) (market_conditions self) with
              | Some (symbol, c) =>
                  if ltb max_vol (volatility c)
                  then (true, ExcessiveVolatility symbol (volatility c))
                  else (true, InsufficientLiquidity symbol)
              | None => (false, NoReason)
              end)).
    { unfold check_emergency_shutdown_reason, check_emergency_shutdown_try.
      rewrite Htotal. cbn [bind]. rewrite Hpeak. cbn [bind].
      rewrite Hdd. cbn [getitem bind].
      destruct (ltb max_dd (drawdown_of peak total)); [reflexivity |].
      rewrite Hdl. cbn [getitem bind].
      destruct (ltb _ (- max_dl)); [reflexivity |].
      rewrite (scan_market_conditions_find _ _ _ Hvol). reflexivity. }
    split; [exact Hres |].
    intros Heq. rewrite Hres.
    assert (Hno : ltb max_dd (drawdown_of peak total) = false)
      by (apply ltb_ge; rewrite Heq; apply Qle_refl).
    rewrite Hno.
    destruct (ltb _ (- max_dl)); cbn [snd trigger_of]; [discriminate |].
    destruct (find _ _) as [[symbol c] |]; [| discriminate].
    destruct (ltb max_vol (volatility c)); discriminate.
Qed.

(** The order at work on a portfolio whose drawdown sits exactly on the 15%
    threshold: no trigger fires. *)
Lemma check_emergency_shutdown_order_at_threshold :
  check_emergency_shutdown_reason Examples.no_conditions
    [("BTC/USDT", Examples.position_at_threshold)] = (false, NoReason) /\
  trigger_of
    (snd (check_emergency_shutdown_reason Examples.no_conditions
            [("BTC/USDT", Examples.position_at_threshold)])) <> Some Drawdown.
Proof.
  destruct (check_emergency_shutdown_order Examples.no_conditions
              [("BTC/USDT", Examples.position_at_threshold)])
    as (_ & _ & _ & Horder).
  destruct (Horder 85 100 0.15 0.05 0.05 eq_refl eq_refl eq_refl eq_refl eq_refl)
    as [Hres Hboundary].
  split.
  - rewrite Hres. reflexivity.
  - apply Hboundary. vm_compute. reflexivity.
Defined.

(** C1 as stated fails: with a calm but illiquid first instrument and a
    liquid but volatile second one, trigger (3) of the stated order holds,
    yet the method answers with the liquidity reason of the first
    instrument. *)
Lemma check_emergency_shutdown_interleaves :
  first_trigger_in_stated_order 0.15 0.05 0.05
    (drawdown_of 100 100) (daily_pl_pct_of 0 100)
    (market_conditions Examples.illiquid_then_volatile) = Some Volatility /\
  check_emergency_shutdown Examples.illiquid_then_volatile
    [("BTC/USDT", Examples.flat_position)]
  = (true, "Insufficient liquidity in BTC/USDT") /\
  trigger_of
    (snd (check_emergency_shutdown_reason Examples.illiquid_then_volatile
            [("BTC/USDT", Examples.flat_position)]))
  <> first_trigger_in_stated_order 0.15 0.05 0.05
       (drawdown_of 100 100) (daily_pl_pct_of 0 100)
       (market_conditions Examples.illiquid_then_volatile).
Proof.
  split; [vm_compute; reflexivity |].
  split; [vm_compute; reflexivity |].
  vm_compute. discriminate.
Qed.

(** C10.  On an empty portfolio the peak is a maximum over nothing: the
    block raises, and the method answers [(true, reason)] with the reason of
    the fail-safe branch, not [(false, "")]. *)
Theorem check_emergency_shutdown_empty_portfolio (self : RiskManager.t) :
  check_emergency_shutdown_try self [] = Raised (ValueError max_empty_msg) /\
  check_emergency_shutdown self []
  = (true, "Error in risk assessment: " ++ max_empty_msg) /\
  snd (check_emergency_shutdown self []) <> "" /\
  check_emergency_shutdown self [] <> (false, "").
Proof.
  assert (Hblock : check_emergency_shutdown_try self []
                   = Raised (ValueError max_empty_msg)) by reflexivity.
  split; [exact Hblock |].
  assert (Hcall : check_emergency_shutdown self []
                  = (true, "Error in risk assessment: " ++ max_empty_msg)).
  { unfold check_emergency_shutdown, check_emergency_shutdown_reason.
    rewrite Hblock. reflexivity. }
  split; [exact Hcall |].
  rewrite Hcall. split; discriminate.
Qed.

(** ** strategy_optimizer.py: regimes and predictions *)

Import StrategyOptimizer.

Lemma max2_cases (a b : Q) : max2 a b = a \/ max2 a b = b.
Proof. unfold max2. destruct (ltb a b); auto. Qed.

Lemma max2_compat_l (a a' b : Q) : a == a' -> max2 a b == max2 a' b.
Proof.
  intros H. rewrite !max2_Qmax. apply Qmax_compat_l, H.
Qed.

Lemma max2_scale (f a b : Q) : 0 <= f -> max2 (a * f) (b * f) == max2 a b * f.
Proof.
  intros Hf. unfold max2.
  destruct (ltb (a * f) (b * f)) eqn:E1; destruct (ltb a b) eqn:E2;
    try reflexivity.
  - apply ltb_lt in E1. apply ltb_ge in E2. nra.
  - apply ltb_ge in E1. apply ltb_lt in E2. nra.
Qed.

(** The running maximum stays within bounds that hold for every element. *)
Lemma fold_max2_bounds (lo hi : Q) (xs : list Q) (x : Q) :
  lo <= x <= hi -> Forall (fun p => lo <= p <= hi) xs ->
  lo <= fold_left max2 xs x <= hi.
Proof.
  revert x. induction xs as [| y ys IH]; intros x Hx Hall; [exact Hx |].
  inversion Hall as [| ? ? Hy Hys]; subst. cbn [fold_left].
  apply IH; [| exact Hys].
  destruct (max2_cases x y) as [-> | ->]; assumption.
Qed.

Lemma fold_max2_compat (xs : list Q) (x x' : Q) :
  x == x' -> fold_left max2 xs x == fold_left max2 xs x'.
Proof.
  revert x x'. induction xs as [| y ys IH]; intros x x' H; [exact H |].
  cbn [fold_left]. apply IH, max2_compat_l, H.
Qed.

(** Scaling by a non-negative factor commutes with the maximum. *)
Lemma fold_max2_scale (f : Q) (xs : list Q) (x : Q) :
  0 <= f ->
  fold_left max2 (scale f xs) (x * f) == fold_left max2 xs x * f.
Proof.
  intros Hf. revert x. induction xs as [| y ys IH]; intros x; [reflexivity |].
  cbn [scale map fold_left]. fold (scale f ys).
  rewrite (fold_max2_compat _ _ _ (max2_scale f x y Hf)). apply IH.
Qed.

Lemma ndarray_max_scale (f raw : Q) (xs : list Q) :
  0 <= f -> ndarray_max xs = Returned raw ->
  exists best, ndarray_max (scale f xs) = Returned best /\ best == raw * f.
Proof.
  intros Hf. destruct xs as [| x rest]; [discriminate |].
  intros [= <-]. eexists. split; [reflexivity |].
  apply fold_max2_scale, Hf.
Qed.

Lemma ndarray_max_bounds (lo hi best : Q) (xs : list Q) :
  Forall (fun p => lo <= p <= hi) xs -> ndarray_max xs = Returned best ->
  lo <= best <= hi.
Proof.
  destruct xs as [| x rest]; [discriminate |].
  intros Hall [= <-]. inversion Hall; subst.
  apply fold_max2_bounds; assumption.
Qed.

Lemma scale_bounds (f hi : Q) (xs : list Q) :
  0 <= f -> f <= hi -> Forall (fun p => 0 <= p <= 1) xs ->
  Forall (fun p => 0 <= p <= hi) (scale f xs).
Proof.
  intros Hf Hhi Hall. unfold scale. apply Forall_map.
  eapply Forall_impl; [| exact Hall]. cbn. intros p [H0 H1]. split; nra.
Qed.

(** The block of [predict] once the model is found and inference is done. *)
Lemma predict_try_found (self : StrategyOptimizer.t) (symbol timeframe : string)
    (prediction : Z) (probability : list Q) :
  contains (symbol ++ "_" ++ timeframe) (models self) = true ->
  contains (symbol ++ "_" ++ timeframe) (scalers self) = true ->
  predict_try self symbol timeframe (Returned (prediction, probability))
  = (best <- ndarray_max (adjust_probability self symbol probability) ;;
     Returned (prediction, best)).
Proof.
  intros Hm Hs. unfold predict_try. rewrite Hm, Hs. reflexivity.
Qed.

Lemma adjust_probability_factor (self : StrategyOptimizer.t) (symbol : string)
    (regime : MarketRegime) (probability : list Q) :
  Dict.lookup symbol (market_regimes self) = Some regime ->
  adjust_probability self symbol probability = scale (regime_factor regime) probability
  \/ (regime_factor regime = 1 /\ adjust_probability self symbol probability = probability).
Proof.
  intros Hr. unfold adjust_probability, regime_factor. rewrite Hr.
  destruct (String.eqb (type regime) "trending"); [left; reflexivity |].
  destruct (String.eqb (type regime) "ranging"); [left; reflexivity |].
  destruct (String.eqb (type regime) "volatile"); [left; reflexivity |].
  right. split; reflexivity.
Qed.

Lemma regime_factor_nonneg (regime : MarketRegime) :
  0 <= strength regime -> 0 <= confidence regime <= 1 ->
  0 <= regime_factor regime.
Proof.
  intros Hs [Hc0 Hc1]. unfold regime_factor.
  destruct (String.eqb (type regime) "trending"); [nra |].
  destruct (String.eqb (type regime) "ranging"); [lra |].
  destruct (String.eqb (type regime) "volatile"); lra.
Qed.

(** C5.  With a trained model and a regime on record, [predict] returns the
    model's class together with the largest of the class probabilities after
    each was multiplied by [1 + strength * confidence] in a trending regime,
    by [1 - confidence * 0.5] in a ranging one, by [1 - confidence * 0.7] in
    a volatile one, whatever values the regime holds; and whenever that
    factor is not negative, this is the raw probability (the largest class
    probability) times the factor. *)
Theorem predict_regime_adjusted
    (self : StrategyOptimizer.t) (symbol timeframe : string)
    (prediction : Z) (probability : list Q) (regime : MarketRegime) (raw : Q) :
  contains (symbol ++ "_" ++ timeframe) (models self) = true ->
  contains (symbol ++ "_" ++ timeframe) (scalers self) = true ->
  Dict.lookup symbol (market_regimes self) = Some regime ->
  ndarray_max probability = Returned raw ->
  exists adjusted : Q,
    predict self symbol timeframe (Returned (prediction, probability))
    = (prediction, adjusted) /\
    (type regime = "trending" ->
     ndarray_max
       (scale (1 + strength regime * confidence regime) probability)
     = Returned adjusted /\
     (0 <= 1 + strength regime * confidence regime ->
      adjusted == raw * (1 + strength regime * confidence regime))) /\
    (type regime = "ranging" ->
     ndarray_max (scale (1 - confidence regime * 0.5) probability)
     = Returned adjusted /\
     (0 <= 1 - confidence regime * 0.5 ->
      adjusted == raw * (1 - confidence regime * 0.5))) /\
    (type regime = "volatile" ->
     ndarray_max (scale (1 - confidence regime * 0.7) probability)
     = Returned adjusted /\
     (0 <= 1 - confidence regime * 0.7 ->
      adjusted == raw * (1 - confidence regime * 0.7))).
Proof.
  intros Hm Hs Hr Hraw.
  assert (Hsome : exists adjusted,
    ndarray_max (adjust_probability self symbol probability)
    = Returned adjusted).
  { destruct probability as [| p rest]; [discriminate |].
    unfold adjust_probability. rewrite Hr.
    repeat (destruct (String.eqb (type regime) _); [cbn; eauto |]).
    cbn. eauto. }
  destruct Hsome as [adjusted Hadj]. exists adjusted. split.
  { unfold predict. rewrite (predict_try_found _ _ _ _ _ Hm Hs).
    rewrite Hadj. reflexivity. }
  assert (Hform : forall f : Q,
    adjust_probability self symbol probability = scale f probability ->
    ndarray_max (scale f probability) = Returned adjusted /\
    (0 <= f -> adjusted == raw * f)).
  { intros f Hf. rewrite Hf in Hadj. split; [exact Hadj |]. intros Hpos.
    destruct (ndarray_max_scale f raw probability Hpos Hraw)
      as (best & Hbest & Heq).
    rewrite Hbest in Hadj. injection Hadj as <-. exact Heq. }
  split; [| split]; intros Hty; apply Hform;
    unfold adjust_probability; rewrite Hr, Hty; reflexivity.
Qed.

(** The specification's scenario: a trending regime of strength 0.5 and
    confidence 0.8 turns a raw probability of 0.6 into 0.84. *)
Lemma predict_regime_adjusted_scenario :
  exists adjusted : Q,
    predict Examples.scenario_trending "BTC/USDT" "1h"
      (Returned (1%Z, [0.4; 0.6])) = (1%Z, adjusted) /\
    adjusted == 0.84.
Proof.
  assert (Hfactor : 0 <= 1 + 0.5 * 0.8) by discriminate.
  destruct (predict_regime_adjusted Examples.scenario_trending
              "BTC/USDT" "1h" 1%Z [0.4; 0.6]
              (mkMarketRegime "trending" 0.5 1 0.8) 0.6
              eq_refl eq_refl eq_refl eq_refl)
    as (adjusted & Hcall & Htrending & _).
  exists adjusted. split; [exact Hcall |].
  destruct (Htrending eq_refl) as [_ Hscalar].
  rewrite (Hscalar Hfactor). reflexivity.
Defined.

(** What the block of [detect_market_regime] can return. *)
Lemma detect_market_regime_try_cases (indicators : outcome Indicators)
    (regime : MarketRegime) :
  detect_market_regime_try indicators = Returned regime ->
  exists i : Indicators,
    indicators = Returned i /\
    ((25 < current_adx i /\ type regime = "trending" /\
      confidence regime = min2 (current_adx i / 50.0) 1.0) \/
     (current_adx i <= 25 /\ current_bb_width i < 0.1 /\
      type regime = "ranging" /\
      confidence regime = 1.0 - current_bb_width i)).
Proof.
  unfold detect_market_regime_try.
  destruct indicators as [i | e]; cbn [bind]; [| discriminate].
  intros H. exists i. split; [reflexivity |].
  destruct (ltb 25 (current_adx i)) eqn:Hadx; cbn [bind] in H.
  - injection H as <-. left. apply ltb_lt in Hadx. cbn. auto.
  - apply ltb_ge in Hadx.
    destruct (ltb (current_bb_width i) 0.1) eqn:Hbb; cbn [bind] in H;
      [| discriminate].
    injection H as <-. right. apply ltb_lt in Hbb. cbn. auto.
Qed.

Lemma detect_market_regime_result (self : StrategyOptimizer.t)
    (indicators : outcome Indicators) (symbol : string) :
  let regime := snd (detect_market_regime self indicators symbol) in
  detect_market_regime_try indicators = Returned regime \/
  regime = mkMarketRegime "unknown" 0.0 0.0 0.0.
Proof.
  cbv zeta. unfold detect_market_regime.
  destruct (detect_market_regime_try indicators); cbn [snd]; auto.
Qed.

Lemma predict_probability_nonneg_bounded (self : StrategyOptimizer.t)
    (symbol timeframe : string) (inference : outcome (Z * list Q)) (hi : Q) :
  1 <= hi ->
  (forall prediction probability,
      inference = Returned (prediction, probability) ->
      Forall (fun p => 0 <= p <= hi)
        (adjust_probability self symbol probability)) ->
  0 <= snd (predict self symbol timeframe inference) <= hi.
Proof.
  intros Hhi Hall. unfold predict, predict_try.
  destruct (negb _ || negb _); cbn [try_except snd]; [lra |].
  destruct inference as [[prediction probability] | e];
    cbn [bind try_except snd]; [| lra].
  destruct (ndarray_max _) as [best | e] eqn:Hbest;
    cbn [bind try_except snd]; [| lra].
  exact (ndarray_max_bounds _ _ _ _ (Hall _ _ eq_refl) Hbest).
Qed.

Lemma Forall_unit_weaken (hi : Q) (xs : list Q) :
  1 <= hi -> Forall (fun p => 0 <= p <= 1) xs -> Forall (fun p => 0 <= p <= hi) xs.
Proof.
  intros Hhi. apply Forall_impl. intros p [H0 H1]. split; lra.
Qed.

(** C4, as the code has it.  The confidence of the regime returned by
    [detect_market_regime] is in [0, 1] whenever the regime is not a ranging
    one, and also for a ranging one whose band value is not negative.  The
    probability returned by [predict], for class probabilities in [0, 1] and
    a recorded regime in range, is never negative, is at most
    [1 + strength * confidence] of the recorded regime, and is at most 1
    when no regime is recorded or the recorded one is not trending. *)
Theorem confidence_and_probability_ranges :
  (forall (self : StrategyOptimizer.t) (indicators : outcome Indicators)
          (symbol : string),
      let regime := snd (detect_market_regime self indicators symbol) in
      (type regime <> "ranging" -> 0 <= confidence regime <= 1) /\
      (forall i : Indicators,
          indicators = Returned i -> 0 <= current_bb_width i ->
          0 <= confidence regime <= 1)) /\
  (forall (self : StrategyOptimizer.t) (symbol timeframe : string)
          (inference : outcome (Z * list Q)),
      (forall prediction probability,
          inference = Returned (prediction, probability) ->
          Forall (fun p => 0 <= p <= 1) probability) ->
      (forall regime,
          Dict.lookup symbol (market_regimes self) = Some regime ->
          0 <= strength regime /\ 0 <= confidence regime <= 1) ->
      let p := snd (predict self symbol timeframe inference) in
      0 <= p /\
      (forall regime,
          Dict.lookup symbol (market_regimes self) = Some regime ->
          p <= 1 + strength regime * confidence regime) /\
      (Dict.lookup symbol (market_regimes self) = None -> p <= 1) /\
      (forall regime,
          Dict.lookup symbol (market_regimes self) = Some regime ->
          type regime <> "trending" -> p <= 1)).
Proof.
  split.
  - intros self indicators symbol. cbv zeta.
    assert (Htrend : forall x, 25 < x -> 0 <= min2 (x / 50.0) 1.0 <= 1).
    { intros x Hx. rewrite min2_Qmin. split.
      - apply Q.min_glb; [qdiv_consts; lra | lra].
      - apply Qle_trans with 1.0; [apply Q.le_min_r | lra]. }
    destruct (detect_market_regime_result self indicators symbol) as [Hok | ->].
    + destruct (detect_market_regime_try_cases _ _ Hok)
        as (i & Hi & [(Hadx & Hty & Hconf) | (Hadx & Hbb & Hty & Hconf)]).
      * split.
        -- intros _. rewrite Hconf. apply Htrend, Hadx.
        -- intros i' _ _. rewrite Hconf. apply Htrend, Hadx.
      * split.
        -- intros Hne. contradiction.
        -- intros i' Hi' Hwidth. rewrite Hi in Hi'. injection Hi' as <-.
           rewrite Hconf. split; lra.
    + cbn [confidence]. split; intros; split; lra.
  - intros self symbol timeframe inference Hprobs Hregime. cbv zeta.
    destruct (Dict.lookup symbol (market_regimes self)) as [regime |] eqn:Hr.
    + destruct (Hregime regime eq_refl) as (Hstr & Hc0 & Hc1).
      pose proof (regime_factor_nonneg regime Hstr (conj Hc0 Hc1)) as Hf.
      assert (Hhi : 1 <= 1 + strength regime * confidence regime) by nra.
      assert (Hup : regime_factor regime <= 1 + strength regime * confidence regime).
      { unfold regime_factor.
        destruct (String.eqb (type regime) "trending"); [lra |].
        destruct (String.eqb (type regime) "ranging"); [lra |].
        destruct (String.eqb (type regime) "volatile"); lra. }
      assert (Hwide : 0 <= snd (predict self symbol timeframe inference)
                      <= 1 + strength regime * confidence regime).
      { apply predict_probability_nonneg_bounded; [exact Hhi |].
        intros prediction probability Hinf.
        destruct (adjust_probability_factor self symbol regime probability Hr)
          as [-> | [_ ->]].
        - apply scale_bounds; eauto.
        - apply Forall_unit_weaken; eauto. }
      split; [apply Hwide |]. split; [| split].
      * intros regime' [= <-]. apply Hwide.
      * discriminate.
      * intros regime' [= <-] Hne.
        assert (Hlow : regime_factor regime <= 1).
        { unfold regime_factor.
          destruct (String.eqb (type regime) "trending") eqn:Ht.
          - apply String.eqb_eq in Ht. contradiction.
          - destruct (String.eqb (type regime) "ranging"); [lra |].
            destruct (String.eqb (type regime) "volatile"); lra. }
        apply (predict_probability_nonneg_bounded self symbol timeframe inference 1);
          [lra |].
        intros prediction probability Hinf.
        destruct (adjust_probability_factor self symbol regime probability Hr)
          as [-> | [_ ->]].
        -- apply scale_bounds; eauto.
        -- eauto.
    + assert (Hunit : 0 <= snd (predict self symbol timeframe inference) <= 1).
      { apply predict_probability_nonneg_bounded; [lra |].
        intros prediction probability Hinf.
        unfold adjust_probability. rewrite Hr. eauto. }
      split; [apply Hunit |]. split; [discriminate |].
      split; [intros _; apply Hunit | discriminate].
Qed.

(** The ranges at work: the regime recorded for a strong trend has
    confidence in range, and the prediction made without a recorded regime
    stays within [0, 1]. *)
Lemma confidence_and_probability_ranges_example :
  0 <= confidence
         (snd (detect_market_regime Examples.trained
                 (Returned Examples.strong_trend) "BTC/USDT")) <= 1 /\
  snd (predict Examples.trained "BTC/USDT" "1h" (Returned (1%Z, [0.1; 0.9])))
  <= 1.
Proof.
  destruct confidence_and_probability_ranges as [Hregime Hpredict].
  split.
  - apply (Hregime Examples.trained (Returned Examples.strong_trend) "BTC/USDT").
    discriminate.
  - apply (Hpredict Examples.trained "BTC/USDT" "1h" (Returned (1%Z, [0.1; 0.9]))).
    + intros prediction probability [= <- <-].
      repeat constructor; discriminate.
    + discriminate.
    + reflexivity.
Defined.

(** C4 as stated fails: after [detect_market_regime] has recorded a trend
    with ADX at 50 (strength 0.5, confidence 1), a raw probability of 0.9
    comes back from [predict] as 1.35. *)
Lemma predict_probability_above_one :
  snd (predict Examples.trained_after_trend "BTC/USDT" "1h"
         (Returned (1%Z, [0.1; 0.9]))) == 1.35 /\
  ~ (0 <= snd (predict Examples.trained_after_trend "BTC/USDT" "1h"
                 (Returned (1%Z, [0.1; 0.9]))) <= 1).
Proof.
  split; [vm_compute; reflexivity |].
  intros [_ H]. vm_compute in H. apply H. reflexivity.
Qed.

(** The ranging branch: a close below the lower band gives a confidence
    above 1. *)
Lemma detect_market_regime_ranging_example :
  snd (detect_market_regime Examples.trained
         (Returned Examples.below_lower_band) "BTC/USDT")
  = mkMarketRegime "ranging" (20 / 100.0) 0 (1.0 - - 0.5).
Proof. reflexivity. Qed.

(** ** trading_engine.py: signal combination *)

Import TradingEngine.

(** The module never imports numpy: the name [np] is unbound. *)
Lemma np_is_unbound : global_name "np" = Raised (NameError "np").
Proof. reflexivity. Qed.

(** Below the prediction threshold, and with a non-zero total weight, the
    method computes the weighted average of the specification. *)
Lemma _combine_signals_below_threshold (traditional_signal : Q) (dl_action : Z)
    (dl_confidence dl_return : Q) :
  Qabs dl_return <= prediction_threshold ->
  ~ 0.4 + 0.6 * dl_confidence == 0 ->
  _combine_signals traditional_signal dl_action dl_confidence dl_return
  == combine_stated traditional_signal dl_action dl_confidence dl_return.
Proof.
  intros Hret Hden.
  unfold _combine_signals, _combine_signals_try, combine_stated, div.
  apply ltb_ge in Hret. rewrite Hret.
  destruct (Qeq_bool (0.4 + 0.6 * dl_confidence) 0) eqn:Hz.
  - apply Qeq_bool_iff in Hz. contradiction.
  - cbn [bind try_except].
    destruct (dl_action =? 0)%Z eqn:H0.
    + apply Z.eqb_eq in H0. subst dl_action. cbn [Z.eqb].
      apply Qdiv_comp; [ring | reflexivity].
    + destruct (dl_action =? 1)%Z; [apply Qdiv_comp; [ring | reflexivity] |].
      destruct (dl_action =? 2)%Z; apply Qdiv_comp; (ring || reflexivity).
Qed.

(** Above the prediction threshold the amplification reads [np], which
    raises, and the method falls back to [0.0]. *)
Lemma _combine_signals_above_threshold (traditional_signal : Q) (dl_action : Z)
    (dl_confidence dl_return : Q) :
  prediction_threshold < Qabs dl_return ->
  _combine_signals traditional_signal dl_action dl_confidence dl_return = 0.0.
Proof.
  intros Hret. unfold _combine_signals, _combine_signals_try.
  apply ltb_lt in Hret. rewrite Hret.
  destruct (div _ _); reflexivity.
Qed.

(** C6 on the input (1, buy, 1, 0.05): the stated combination is 1.05, the
    method returns 0. *)
Lemma _combine_signals_amplification_lost :
  _combine_signals_try 1 1 1 0.05 = Raised (NameError "np") /\
  _combine_signals 1 1 1 0.05 = 0.0 /\
  combine_stated 1 1 1 0.05 == 1.05.
Proof.
  split; [reflexivity |]. split; [reflexivity |].
  vm_compute. reflexivity.
Qed.

(** ** Dicts *)

Lemma getitem_returned {A} (key : string) (entry : option A) (a : A) :
  getitem key entry = Returned a -> entry = Some a.
Proof. destruct entry; cbn; congruence. Qed.

Lemma lookup_set {V : Type} (k k' : string) (v : V) (d : list (string * V)) :
  Dict.lookup k' (Dict.set k v d)
  = if String.eqb k' k then Some v else Dict.lookup k' d.
Proof.
  induction d as [| [k0 v0] rest IH]; cbn [Dict.set Dict.lookup].
  - destruct (String.eqb k' k); reflexivity.
  - destruct (String.eqb k k0) eqn:Hk; cbn [Dict.lookup].
    + apply String.eqb_eq in Hk. subst k0.
      destruct (String.eqb k' k); reflexivity.
    + destruct (String.eqb k' k0) eqn:Hk'; [| exact IH].
      destruct (String.eqb k' k) eqn:Hkk; [| reflexivity].
      apply String.eqb_eq in Hk', Hkk. subst.
      rewrite String.eqb_refl in Hk. discriminate.
Qed.

Lemma lookup_remove {V : Type} (k k' : string) (d : list (string * V)) :
  Dict.lookup k' (Dict.remove k d)
  = if String.eqb k' k then None else Dict.lookup k' d.
Proof.
  induction d as [| [k0 v0] rest IH]; cbn [Dict.remove Dict.lookup].
  - destruct (String.eqb k' k); reflexivity.
  - destruct (String.eqb k k0) eqn:Hk.
    + apply String.eqb_eq in Hk. subst k0. rewrite IH.
      destruct (String.eqb k' k); reflexivity.
    + cbn [Dict.lookup]. destruct (String.eqb k' k0) eqn:Hk'; [| exact IH].
      destruct (String.eqb k' k) eqn:Hkk; [| reflexivity].
      apply String.eqb_eq in Hk', Hkk. subst.
      rewrite String.eqb_refl in Hk. discriminate.
Qed.

(** Storing under a key adds at most one entry. *)
Lemma length_set_le {V : Type} (k : string) (v : V) (d : list (string * V)) :
  (List.length (Dict.set k v d) <= S (List.length d))%nat.
Proof.
  induction d as [| [k0 v0] rest IH]; cbn [Dict.set List.length]; [lia |].
  destruct (String.eqb k k0); cbn [List.length]; lia.
Qed.

(** ** trading_engine.py: the rules of the engine monad *)

Section Triples.

Context {World : Type}.

Local Abbreviation table := (list (string * Position)).

Lemma triple_ret {A} (a : A) (P : table -> Prop) (Exc : table -> Prop) :
  triple P (@ret World A a) (fun _ => P) Exc.
Proof. intros e HP. exact HP. Qed.

Lemma triple_bind {A B} (m : M World A) (k : A -> M World B)
    (P : table -> Prop) (Q : A -> table -> Prop) (R : B -> table -> Prop)
    (Exc : table -> Prop) :
  triple P m Q Exc ->
  (forall a, triple (Q a) (k a) R Exc) ->
  triple P (mbind m k) R Exc.
Proof.
  intros Hm Hk e HP. unfold mbind. specialize (Hm e HP).
  destruct (m e) as [e' [a | x]]; [| exact Hm].
  exact (Hk a e' Hm).
Qed.

Lemma triple_weaken {A} (m : M World A) (P P' : table -> Prop)
    (Q Q' : A -> table -> Prop) (Exc Exc' : table -> Prop) :
  triple P' m Q' Exc' ->
  (forall ps, P ps -> P' ps) ->
  (forall a ps, Q' a ps -> Q a ps) ->
  (forall ps, Exc' ps -> Exc ps) ->
  triple P m Q Exc.
Proof.
  intros Hm HP HQ HE e He. specialize (Hm e (HP _ He)).
  destruct (m e) as [e' [a | x]]; auto.
Qed.

(** A pure step, a collaborator call and a read leave the table alone. *)
Lemma triple_of_outcome {A} (o : outcome A) (P Exc : table -> Prop) :
  (forall ps, P ps -> Exc ps) ->
  triple P (@of_outcome World A o) (fun a ps => o = Returned a /\ P ps) Exc.
Proof. intros HE e HP. unfold of_outcome. destruct o; cbn; auto. Qed.

Lemma triple_raise_weak {A} (x : exn) (P : table -> Prop)
    (Post : A -> table -> Prop) (Exc : table -> Prop) :
  (forall ps, P ps -> Exc ps) ->
  triple P (@raise World A x) Post Exc.
Proof. intros HE e HP. cbn. auto. Qed.

Lemma triple_call {A} (f : World -> World * outcome A) (P Exc : table -> Prop) :
  (forall ps, P ps -> Exc ps) ->
  triple P (call f) (fun _ => P) Exc.
Proof.
  intros HE e HP. unfold call. destruct (f (world e)) as [w [a | x]]; cbn; auto.
Qed.

Lemma triple_get_positions (P Exc : table -> Prop) :
  triple P (@get_positions World) (fun ps current => current = ps /\ P current) Exc.
Proof. intros e HP. cbn. auto. Qed.

Lemma triple_get_risk_manager (P Exc : table -> Prop) :
  triple P (@get_risk_manager World) (fun _ => P) Exc.
Proof. intros e HP. exact HP. Qed.

Lemma triple_put_positions (ps : table) (P : table -> Prop) (Q Exc : table -> Prop) :
  (forall current, P current -> Q ps) ->
  triple P (@put_positions World ps) (fun _ => Q) Exc.
Proof. intros HQ e HP. cbn. eauto. Qed.

Lemma triple_ret_weak {A} (a : A) (P : table -> Prop) (Q : A -> table -> Prop)
    (Exc : table -> Prop) :
  (forall ps, P ps -> Q a ps) ->
  triple P (@ret World A a) Q Exc.
Proof. intros HQ e HP. cbn. auto. Qed.

(** A call that can only raise ends the method where it stands. *)
Lemma triple_call_raises {A} (f : World -> World * outcome A)
    (P Exc : table -> Prop) :
  (forall ps, P ps -> Exc ps) ->
  (forall w, exists x, snd (f w) = Raised x) ->
  triple P (call f) (fun (_ : A) (_ : table) => False) Exc.
Proof.
  intros HE Hraises e HP. unfold call.
  destruct (Hraises (world e)) as [x Hx].
  destruct (f (world e)) as [w o]. cbn [snd] in Hx. subst o. cbn. auto.
Qed.

(** What a logged method leaves behind. *)
Lemma run_logged_triple (body : M World unit) (P Q : table -> Prop) (e : t World) :
  triple P body (fun _ => Q) Q -> P (positions e) ->
  Q (positions (run_logged body e)).
Proof.
  intros Hbody HP. unfold run_logged. specialize (Hbody e HP).
  destruct (body e) as [e' [[] | x]]; exact Hbody.
Qed.

End Triples.

(** One step of a method that leaves the table alone; [side] proves that
    the current assertion implies the one promised on failure. *)
Tactic Notation "triple_keep" tactic3(side) "as" simple_intropattern(x) :=
  eapply triple_bind;
  [ first [ apply triple_call | apply triple_of_outcome
          | apply triple_get_risk_manager ]; side
  | intros x ].

(** ** trading_engine.py: the position limit *)

Section PositionLimit.

Context {World : Type}.
Variable C : Collaborators World.
Variable config : Config.

Local Abbreviation within_limit :=
  (fun ps : list (string * Position) =>
     (List.length ps <= max_open_positions config)%nat).
Local Abbreviation below_limit :=
  (fun ps : list (string * Position) =>
     (List.length ps < max_open_positions config)%nat).

(** Evaluating one symbol with room left keeps the table within the limit. *)
Lemma trade_symbol_within_limit (portfolio : option Q) (symbol : string) :
  triple below_limit (Engine.trade_symbol C config portfolio symbol)
    (fun _ => within_limit) within_limit.
Proof.
  unfold Engine.trade_symbol.
  triple_keep (cbn; intuition lia) as final_signal.
  triple_keep (cbn; intuition lia) as [[dl_action dl_confidence] dl_return].
  destruct (ltb _ _); [| apply triple_ret_weak; cbn; intuition lia].
  triple_keep (cbn; intuition lia) as close.
  triple_keep (cbn; intuition lia) as total_value.
  triple_keep (cbn; intuition lia) as position_size.
  destruct (ltb 0 _); [| apply triple_ret_weak; cbn; intuition lia].
  triple_keep (cbn; intuition lia) as [order |];
    [| apply triple_ret_weak; cbn; intuition lia].
  eapply triple_bind; [apply triple_get_positions | intros ps].
  eapply triple_bind.
  { apply (triple_put_positions _ _ within_limit).
    intros current [Hcur Hlen]. subst current.
    pose proof (length_set_le symbol order ps). cbn in *. intuition lia. }
  intros stored.
  triple_keep (cbn; intuition lia) as entry_price.
  triple_keep (cbn; intuition lia) as rm.
  triple_keep (cbn; intuition lia) as [stop_loss take_profit].
  triple_keep (cbn; intuition lia) as placed.
  apply triple_ret_weak. cbn. intuition lia.
Qed.

(** The loop keeps the table within the limit, and a full table ends it. *)
Lemma trade_loop_within_limit (portfolio : option Q) (todo : list string) :
  triple within_limit (Engine.trade_loop C config portfolio todo)
    (fun _ => within_limit) within_limit.
Proof.
  induction todo as [| symbol rest IH]; cbn [Engine.trade_loop].
  - apply triple_ret.
  - eapply triple_bind; [apply triple_get_positions | intros ps].
    destruct (max_open_positions config <=? List.length ps)%nat eqn:Hfull.
    + apply triple_ret_weak. intros current [_ H]. exact H.
    + apply Nat.leb_gt in Hfull.
      eapply triple_bind; [| intros done; exact IH].
      eapply triple_weaken; [apply trade_symbol_within_limit | | auto | auto].
      intros current [Hcur _]. subst current. exact Hfull.
Qed.

Lemma trade_loop_full_table (portfolio : option Q) (todo : list string)
    (e : t World) :
  (max_open_positions config <= List.length (positions e))%nat ->
  fst (Engine.trade_loop C config portfolio todo e) = e.
Proof.
  intros Hfull. destruct todo as [| symbol rest]; [reflexivity |].
  cbn [Engine.trade_loop]. unfold mbind, get_positions.
  apply Nat.leb_le in Hfull. rewrite Hfull. reflexivity.
Qed.

(** C3.  A pass of [_check_and_execute_trades] over the configured symbols
    started with at most [max_open_positions] open positions ends with at
    most that many; and the loop, met with a table that is already full,
    stops without touching the engine, so a position is only ever added
    while the count is strictly below the maximum. *)
Theorem _check_and_execute_trades_position_limit (e : t World) :
  (List.length (positions e) <= max_open_positions config)%nat ->
  (List.length (positions (Engine._check_and_execute_trades C config e))
   <= max_open_positions config)%nat /\
  (forall (portfolio : option Q) (todo : list string) (e1 : t World),
      (max_open_positions config <= List.length (positions e1))%nat ->
      fst (Engine.trade_loop C config portfolio todo e1) = e1) /\
  (forall (portfolio : option Q) (symbol : string) (rest : list string)
          (e1 : t World),
      positions (fst (Engine.trade_loop C config portfolio (symbol :: rest) e1))
      <> positions e1 ->
      (List.length (positions e1) < max_open_positions config)%nat).
Proof.
  intros Hlimit. split; [| split].
  - unfold Engine._check_and_execute_trades.
    apply (run_logged_triple _ within_limit within_limit); [| exact Hlimit].
    triple_keep auto as portfolio.
    apply trade_loop_within_limit.
  - intros portfolio todo e1. apply trade_loop_full_table.
  - intros portfolio symbol rest e1 Hchanged.
    destruct (Nat.lt_ge_cases (List.length (positions e1))
                (max_open_positions config)) as [Hlt | Hge]; [exact Hlt |].
    exfalso. apply Hchanged.
    rewrite (trade_loop_full_table portfolio (symbol :: rest) e1 Hge).
    reflexivity.
Qed.

End PositionLimit.

(** The limit at work: two slots, three symbols, eager collaborators. *)
Lemma _check_and_execute_trades_two_slots :
  (List.length
     (positions (Engine._check_and_execute_trades Examples.eager
                   Examples.two_slots Examples.idle_engine)) <= 2)%nat.
Proof.
  apply (_check_and_execute_trades_position_limit Examples.eager
           Examples.two_slots Examples.idle_engine).
  cbn. lia.
Defined.

Lemma _check_and_execute_trades_fills_two_slots :
  Dict.keys
    (positions (Engine._check_and_execute_trades Examples.eager
                  Examples.two_slots Examples.idle_engine))
  = ["BTC/USDT"; "ETH/USDT"].
Proof. vm_compute. reflexivity. Qed.

(** ** trading_engine.py: trailing stops *)

Lemma stop_raised_trans (p1 p2 p3 : Position) :
  Engine.stop_raised p1 p2 -> Engine.stop_raised p2 p3 -> Engine.stop_raised p1 p3.
Proof.
  intros [-> | (n1 & Hn1 & ->)] [-> | (n2 & Hn2 & ->)].
  - left. reflexivity.
  - right. exists n2. auto.
  - right. exists n1. auto.
  - right. exists n2. split; [| reflexivity].
    cbn [with_stop_loss stop_loss get] in Hn2. lra.
Qed.

(** A raised position keeps a stop-loss that was set, at or above it. *)
Lemma stop_raised_stop_loss (position position' : Position) (old : Q) :
  stop_loss position = Some old -> Engine.stop_raised position position' ->
  exists current : Q, stop_loss position' = Some current /\ old <= current.
Proof.
  intros Hold [-> | (new_stop & Hnew & ->)].
  - exists old. split; [exact Hold | lra].
  - exists new_stop. split; [reflexivity |].
    rewrite Hold in Hnew. cbn [get] in Hnew. lra.
Qed.

Lemma stops_only_raised_refl (ps : list (string * Position)) :
  Engine.stops_only_raised ps ps.
Proof. intros symbol position' H. exists position'. split; [exact H | left; reflexivity]. Qed.

Lemma stops_only_raised_trans (ps1 ps2 ps3 : list (string * Position)) :
  Engine.stops_only_raised ps1 ps2 -> Engine.stops_only_raised ps2 ps3 ->
  Engine.stops_only_raised ps1 ps3.
Proof.
  intros H12 H23 symbol p3 Hp3.
  destruct (H23 symbol p3 Hp3) as (p2 & Hp2 & Hr23).
  destruct (H12 symbol p2 Hp2) as (p1 & Hp1 & Hr12).
  exists p1. split; [exact Hp1 | exact (stop_raised_trans _ _ _ Hr12 Hr23)].
Qed.

(** Raising the stop of one position keeps the relation. *)
Lemma stops_only_raised_set (before current : list (string * Position))
    (symbol : string) (position : Position) (new_stop : Q) :
  Engine.stops_only_raised before current ->
  Dict.lookup symbol current = Some position ->
  get (stop_loss position) 0 < new_stop ->
  Engine.stops_only_raised before
    (Dict.set symbol (with_stop_loss position new_stop) current).
Proof.
  intros Hrel Hpos Hnew s p' Hp'. rewrite lookup_set in Hp'.
  destruct (String.eqb s symbol) eqn:Hs.
  - apply String.eqb_eq in Hs. subst s. injection Hp' as <-.
    destruct (Hrel symbol position Hpos) as (p0 & Hp0 & Hr).
    exists p0. split; [exact Hp0 |].
    apply (stop_raised_trans _ _ _ Hr). right. exists new_stop. auto.
  - exact (Hrel s p' Hp').
Qed.

(** Closing a position keeps the relation. *)
Lemma stops_only_raised_remove (before current : list (string * Position))
    (symbol : string) :
  Engine.stops_only_raised before current ->
  Engine.stops_only_raised before (Dict.remove symbol current).
Proof.
  intros Hrel s p' Hp'. rewrite lookup_remove in Hp'.
  destruct (String.eqb s symbol); [discriminate |].
  exact (Hrel s p' Hp').
Qed.

Section TrailingStops.

Context {World : Type}.
Variable C : Collaborators World.

Variable before : list (string * Position).

Local Abbreviation only_raised := (Engine.stops_only_raised before).

Lemma close_loop_only_raised (snapshot : list (string * Position)) :
  triple only_raised (Engine.close_loop C snapshot) (fun _ => only_raised)
    only_raised.
Proof.
  induction snapshot as [| [symbol position] rest IH]; cbn [Engine.close_loop].
  - apply triple_ret.
  - triple_keep (cbn; intuition) as amount.
    triple_keep (cbn; intuition) as sold.
    eapply triple_bind; [apply triple_get_positions | intros ps].
    eapply triple_bind; [| intros removed; exact IH].
    destruct (Dict.lookup symbol ps).
    + apply triple_put_positions. intros current (Hcur & _ & Hrel). subst current.
      apply stops_only_raised_remove, Hrel.
    + apply triple_raise_weak. cbn. intuition.
Qed.

Lemma _close_all_positions_only_raised :
  triple only_raised (Engine._close_all_positions C) (fun _ => only_raised)
    only_raised.
Proof.
  intros e Hrel. unfold Engine._close_all_positions.
  apply (run_logged_triple _ only_raised only_raised); [| exact Hrel].
  eapply triple_bind; [apply triple_get_positions | intros ps].
  eapply triple_weaken; [apply close_loop_only_raised | | auto | auto].
  cbn. intuition.
Qed.

Lemma monitor_loop_only_raised (snapshot : list string) :
  triple only_raised (Engine.monitor_loop C snapshot) (fun _ => only_raised)
    only_raised.
Proof.
  induction snapshot as [| symbol rest IH]; cbn [Engine.monitor_loop].
  - apply triple_ret.
  - eapply triple_bind; [apply triple_get_positions | intros ps].
    triple_keep (cbn; intuition) as position.
    triple_keep (cbn; intuition) as current_price.
    triple_keep (cbn; intuition) as entry_price.
    triple_keep (cbn; intuition) as [emergency_exit reason].
    destruct emergency_exit.
    + eapply triple_weaken;
        [apply _close_all_positions_only_raised | | auto | auto].
      cbn. intuition.
    + triple_keep (cbn; intuition) as new_stop.
      eapply triple_bind; [| intros updated; exact IH].
      destruct (ltb (get (stop_loss position) 0) new_stop) eqn:Hnew.
      * apply ltb_lt in Hnew.
        triple_keep (cbn; intuition) as order_id.
        triple_keep (cbn; intuition) as moved.
        eapply triple_bind; [apply triple_get_positions | intros ps'].
        triple_keep (cbn; intuition) as current.
        apply triple_put_positions.
        intros table (Hcurrent & Hps' & _ & _ & Hposition & Hps & Hrel).
        subst table ps'.
        apply getitem_returned in Hcurrent, Hposition.
        assert (current = position) by congruence. subst current.
        apply stops_only_raised_set; assumption.
      * apply triple_ret_weak. cbn. intuition.
Qed.

(** One pass never lowers a stop. *)
Lemma _monitor_positions_only_raised (e : t World) :
  positions e = before ->
  only_raised (positions (Engine._monitor_positions C e)).
Proof.
  intros Hbefore. unfold Engine._monitor_positions.
  apply (run_logged_triple _ only_raised only_raised).
  - eapply triple_bind; [apply triple_get_positions | intros ps].
    eapply triple_weaken; [apply monitor_loop_only_raised | | auto | auto].
    cbn. intuition.
  - rewrite Hbefore. apply stops_only_raised_refl.
Qed.

End TrailingStops.

(** Nor does any number of passes. *)
Lemma monitor_passes_only_raised {World : Type} (C : Collaborators World)
    (n : nat) (e : t World) :
  Engine.stops_only_raised (positions e)
    (positions (Engine.monitor_passes C n e)).
Proof.
  revert e. induction n as [| n IH]; intros e; cbn [Engine.monitor_passes].
  - apply stops_only_raised_refl.
  - apply (stops_only_raised_trans _ (positions (Engine._monitor_positions C e))).
    + apply _monitor_positions_only_raised. reflexivity.
    + apply IH.
Qed.

(** C9.  Take an open position whose stop-loss is set.  After a monitoring
    pass the position is either closed, or unchanged, or changed only in
    its stop-loss, which is then strictly greater; and after any number of
    passes its stop-loss, if the position is still open, is set and not
    below the value it started from. *)
Theorem _monitor_positions_stop_loss_monotone {World : Type}
    (C : Collaborators World) (e : t World) (symbol : string)
    (position : Position) (old : Q) :
  Dict.lookup symbol (positions e) = Some position ->
  stop_loss position = Some old ->
  (forall position' : Position,
      Dict.lookup symbol (positions (Engine._monitor_positions C e))
      = Some position' ->
      position' = position \/
      exists new_stop : Q,
        old < new_stop /\ position' = with_stop_loss position new_stop) /\
  (forall (n : nat) (position' : Position),
      Dict.lookup symbol (positions (Engine.monitor_passes C n e))
      = Some position' ->
      exists current : Q, stop_loss position' = Some current /\ old <= current).
Proof.
  intros Hposition Hold. split.
  - intros position' Hafter.
    destruct (_monitor_positions_only_raised C (positions e) e eq_refl
                symbol position' Hafter) as (p & Hp & Hraised).
    assert (p = position) by congruence. subst p.
    destruct Hraised as [-> | (new_stop & Hnew & ->)]; [left; reflexivity |].
    right. exists new_stop. split; [| reflexivity].
    rewrite Hold in Hnew. exact Hnew.
  - intros n position' Hafter.
    destruct (monitor_passes_only_raised C n e symbol position' Hafter)
      as (p & Hp & Hraised).
    assert (p = position) by congruence. subst p.
    exact (stop_raised_stop_loss _ _ _ Hold Hraised).
Qed.

(** The pass at work: a stop at 98 under a close of 120 moves to 114. *)
Lemma _monitor_positions_raises_stop_example :
  Dict.lookup "BTC/USDT"
    (positions (Engine._monitor_positions Examples.eager Examples.holding_engine))
  = Some (with_stop_loss Examples.protected_position (120 * 0.95)) /\
  (forall position' : Position,
      Dict.lookup "BTC/USDT"
        (positions (Engine._monitor_positions Examples.eager
                      Examples.holding_engine)) = Some position' ->
      position' = Examples.protected_position \/
      exists new_stop : Q,
        98 < new_stop /\
        position' = with_stop_loss Examples.protected_position new_stop).
Proof.
  split; [reflexivity |].
  exact (proj1 (_monitor_positions_stop_loss_monotone Examples.eager
                  Examples.holding_engine "BTC/USDT"
                  Examples.protected_position 98 eq_refl eq_refl)).
Defined.

(** *** The passes with collaborators that cannot answer

    As the sources stand, [ExchangeIntegration] has no [get_portfolio] and
    [check_emergency_shutdown] is an ordinary method, whose result cannot be
    awaited.  With such collaborators the first call of each pass raises and
    the pass leaves the position table as it found it. *)

Lemma _check_and_execute_trades_without_portfolio {World : Type}
    (C : Collaborators World) (config : Config) (e : t World) :
  (forall w, exists x, snd (get_portfolio C w) = Raised x) ->
  positions (Engine._check_and_execute_trades C config e) = positions e.
Proof.
  intros Hraises.
  unfold Engine._check_and_execute_trades, run_logged, mbind, call.
  destruct (Hraises (world e)) as [x Hx].
  destruct (get_portfolio C (world e)) as [w o]. cbn [snd] in Hx. subst o.
  reflexivity.
Qed.

Lemma monitor_loop_without_emergency_check {World : Type}
    (C : Collaborators World) (snapshot : list string)
    (before : list (string * Position)) :
  (forall ps w, exists x, snd (emergency_check C ps w) = Raised x) ->
  triple (eq before) (Engine.monitor_loop C snapshot) (fun _ => eq before)
    (eq before).
Proof.
  intros Hraises. destruct snapshot as [| symbol rest]; cbn [Engine.monitor_loop].
  - apply triple_ret.
  - eapply triple_bind; [apply triple_get_positions | intros ps].
    triple_keep (cbn; intuition) as position.
    triple_keep (cbn; intuition) as current_price.
    triple_keep (cbn; intuition) as entry_price.
    eapply triple_bind;
      [ apply triple_call_raises; [cbn; intuition | apply Hraises]
      | intros result e' [] ].
Qed.

Lemma _monitor_positions_without_emergency_check {World : Type}
    (C : Collaborators World) (e : t World) :
  (forall ps w, exists x, snd (emergency_check C ps w) = Raised x) ->
  positions (Engine._monitor_positions C e) = positions e.
Proof.
  intros Hraises. unfold Engine._monitor_positions. symmetry.
  apply (run_logged_triple _ (eq (positions e)) (eq (positions e)));
    [| reflexivity].
  eapply triple_bind; [apply triple_get_positions | intros ps].
  eapply triple_weaken;
    [ apply (monitor_loop_without_emergency_check C _ (positions e) Hraises)
    | cbn; intuition | auto | auto ].
Qed.

(** ** advanced_risk_manager.py: the correlation matrix *)

Section CorrelationMatrix.

Import Correlation.
Local Open Scope R_scope.




(** *** Pearson correlation *)






(** *** The frame of correlations *)









End CorrelationMatrix.

(* ====================================================================== *)
(** * Further properties of the code *)
(* ====================================================================== *)

(** ** exchange_integration.py: slippage estimate *)

Lemma leb_le (x y : Q) : Exchange.leb x y = true <-> x <= y.
Proof. unfold Exchange.leb. apply Qle_bool_iff. Qed.

Lemma leb_gt (x y : Q) : Exchange.leb x y = false <-> y < x.
Proof.
  unfold Exchange.leb. split.
  - intros H. apply Qnot_le_lt. intros Hle. apply Qle_bool_iff in Hle. congruence.
  - intros H. destruct (Qle_bool x y) eqn:E; [| reflexivity].
    apply Qle_bool_iff in E. lra.
Qed.

Lemma min2_cases (a b : Q) :
  (b < a /\ min2 a b = b) \/ (a <= b /\ min2 a b = a).
Proof.
  unfold min2. destruct (ltb b a) eqn:E.
  - left. apply ltb_lt in E. auto.
  - right. apply ltb_ge in E. auto.
Qed.

Lemma fold_plus_shift (xs : list Q) (a : Q) :
  fold_left Qplus xs a == a + fold_left Qplus xs 0.
Proof.
  revert a. induction xs as [| x xs IH]; intros a; cbn [fold_left]; [lra |].
  rewrite (IH (a + x)), (IH (0 + x)). lra.
Qed.

Lemma depth_cons (level : Q * Q) (rest : list (Q * Q)) :
  Exchange.depth (level :: rest) == snd level + Exchange.depth rest.
Proof.
  unfold Exchange.depth, sum. cbn [map fold_left].
  rewrite fold_plus_shift. lra.
Qed.

Lemma depth_nonneg (orders : list (Q * Q)) :
  Forall (fun level => 0 <= snd level) orders -> 0 <= Exchange.depth orders.
Proof.
  induction 1 as [| level rest Hq _ IH].
  - unfold Exchange.depth, sum. cbn. lra.
  - rewrite depth_cons. lra.
Qed.









(** X3.  An order that the first level alone can fill has no estimated
    slippage. *)
Theorem estimate_slippage_top_of_book (book : Exchange.order_book)
    (side : TradingEngine.side) (amount best quantity : Q)
    (rest : list (Q * Q)) :
  Exchange.consumed book side = (best, quantity) :: rest ->
  ~ best == 0 ->
  0 < amount ->
  amount <= quantity ->
  exists x : Q,
    Exchange.estimate_slippage book side amount = Exchange.Finite x /\ x == 0.
Proof.
  intros Hbook Hbest Hamount Hquantity.
  unfold Exchange.estimate_slippage, Exchange.estimate_slippage_try.
  rewrite Hbook. cbn [Exchange.walk].
  assert (Hgo : Exchange.leb amount 0 = false) by (apply leb_gt; exact Hamount).
  rewrite Hgo.
  destruct (min2_cases amount quantity) as [[Hlt _] | [_ Hmin]]; [lra |].
  rewrite Hmin.
  assert (Hwalk : Exchange.walk rest (amount - amount) (0 + best * amount)
                  = (amount - amount, 0 + best * amount)).
  { destruct rest as [| [p q] rest']; [reflexivity |].
    cbn [Exchange.walk].
    assert (Hdone : Exchange.leb (amount - amount) 0 = true)
      by (apply leb_le; lra).
    rewrite Hdone. reflexivity. }
  rewrite Hwalk.
  assert (Hstop : ltb 0 (amount - amount) = false) by (apply ltb_ge; lra).
  rewrite Hstop. unfold div.
  destruct (Qeq_bool amount 0) eqn:Hzero;
    [apply Qeq_bool_iff in Hzero; lra |].
  cbn [bind].
  destruct (Qeq_bool best 0) eqn:Hbest0;
    [apply Qeq_bool_iff in Hbest0; contradiction |].
  cbn [try_except]. eexists. split; [reflexivity |].
  assert (Havg : (0 + best * amount) / amount - best == 0)
    by (field; lra).
  rewrite Havg. change (Qabs 0) with 0. field. exact Hbest.
Qed.

Lemma estimate_slippage_top_of_book_example :
  exists x : Q,
    Exchange.estimate_slippage MoreExamples.book SELL 5 = Exchange.Finite x /\
    x == 0.
Proof.
  apply (estimate_slippage_top_of_book MoreExamples.book SELL 5 100 5 [(99, 5)]).
  - reflexivity.
  - discriminate.
  - reflexivity.
  - discriminate.
Defined.

(** ** exchange_integration.py: order execution *)

Section OrderExecution.

Context {World : Type}.
Variable client : Exchange.Client World.
Variable self : Exchange.settings.
Variables (symbol : string) (side : TradingEngine.side) (amount : Q)
          (order_type : string) (price : option Q).

Local Abbreviation sent :=
  (Exchange.params_of symbol side amount order_type price).
Local Abbreviation reaches :=
  (Exchange.reaches_client client self symbol side amount order_type price).
Local Abbreviation recorded := (Exchange.recording client).

(** One pass over the recording client: the same result as over the client
    itself, and the order appended to the list if the pass got that far. *)
Lemma attempt_recording (w : World) (log : list Exchange.order_params) :
  Exchange.attempt recorded self symbol side amount order_type price (w, log)
  = ((fst (Exchange.attempt client self symbol side amount order_type price w),
      (log ++ if reaches w then [sent] else [])%list),
     snd (Exchange.attempt client self symbol side amount order_type price w)).
Proof.
  unfold Exchange.attempt, Exchange.reaches_client, Exchange.params_of.
  cbn [Exchange.recording Exchange.get_order_book Exchange.create_order fst snd].
  destruct (Exchange.get_order_book client symbol w) as [w1 book]. cbn [snd].
  destruct (Exchange.exceeds _ _); cbn [negb andb fst snd];
    [rewrite app_nil_r; reflexivity |].
  destruct (String.eqb order_type "LIMIT" && Exchange.falsy_price price) eqn:Hbad;
    cbn [negb fst snd]; [rewrite app_nil_r; reflexivity |].
  destruct (String.eqb order_type "LIMIT");
    (destruct (Exchange.create_order client _ w1) as [w2 [order | e | e]];
     cbn [fst snd]; try reflexivity;
     destruct (Exchange.executed_price order); cbn [fst snd]; try reflexivity;
     match goal with
     | |- context [if ?c then _ else _] => destruct c; reflexivity
     end).
Qed.

(** The orders sent over the passes of the retry loop. *)
Lemma attempts_log (todo : nat) (w : World) (log : list Exchange.order_params) :
  exists n : nat,
    (n <= todo)%nat /\
    snd (fst (Exchange.attempts recorded self todo symbol side amount
                order_type price (w, log)))
    = (log ++ repeat sent n)%list.
Proof.
  revert w log. induction todo as [| later IH]; intros w log.
  - exists 0%nat. split; [lia |]. cbn. rewrite app_nil_r. reflexivity.
  - cbn [Exchange.attempts]. rewrite attempt_recording.
    set (one := if reaches w then [sent] else []).
    assert (Hone : exists k, (k <= 1)%nat /\ one = repeat sent k).
    { unfold one. destruct (reaches w);
        [exists 1%nat | exists 0%nat]; split; (lia || reflexivity). }
    destruct Hone as (k & Hk & ->).
    destruct (snd (Exchange.attempt client self symbol side amount
                     order_type price w)) as [order | e | e];
      cbn [fst snd]; try (exists k; split; [lia | reflexivity]).
    destruct later as [| later'];
      [exists k; split; [lia | reflexivity] |].
    destruct (IH (fst (Exchange.attempt client self symbol side amount
                         order_type price w))
                 (log ++ repeat sent k)%list) as (n & Hn & Hlog).
    exists (k + n)%nat. split; [lia |].
    rewrite Hlog, repeat_app, app_assoc. reflexivity.
Qed.

(** X4.  The list of orders the client has received grows, during one call
    of [execute_order], by at most [max_retries] orders, all with the same
    parameters; and whatever the order type, unless it is LIMIT, these are
    MARKET orders without a price. *)
Theorem execute_order_submissions (w : World) (log : list Exchange.order_params) :
  exists n : nat,
    (n <= Exchange.max_retries self)%nat /\
    snd (fst (Exchange.execute_order recorded self symbol side amount
                order_type price (w, log)))
    = (log ++ repeat sent n)%list /\
    (order_type <> "LIMIT" ->
     sent = Exchange.mkParams symbol side amount "MARKET" None None).
Proof.
  unfold Exchange.execute_order.
  destruct (attempts_log (Exchange.max_retries self) w log) as (n & Hn & Hlog).
  exists n. split; [exact Hn |]. split; [exact Hlog |].
  intros Hne. unfold Exchange.params_of.
  destruct (String.eqb order_type "LIMIT") eqn:E; [| reflexivity].
  apply String.eqb_eq in E. contradiction.
Qed.

Lemma attempts_none (todo : nat) (w : World) :
  snd (Exchange.attempts client self todo symbol side amount order_type price w)
  = Returned None ->
  todo = 0%nat.
Proof.
  revert w. induction todo as [| later IH]; intros w; [reflexivity |].
  cbn [Exchange.attempts].
  destruct (Exchange.attempt client self symbol side amount order_type price w)
    as [w1 [order | e | e]]; cbn [snd]; try discriminate.
  destruct later as [| later']; [discriminate |].
  intros H. apply IH in H. discriminate.
Qed.

(** X5.  [execute_order] returns [None] exactly when [max_retries] is 0:
    with no pass to make it neither places an order nor raises. *)
Theorem execute_order_none (w : World) :
  snd (Exchange.execute_order client self symbol side amount order_type price w)
  = Returned None
  <-> Exchange.max_retries self = 0%nat.
Proof.
  unfold Exchange.execute_order. split.
  - apply attempts_none.
  - intros ->. reflexivity.
Qed.

(** A pass that does not reach the client fails without retry. *)
Lemma attempt_stopped (w : World) :
  reaches w = false ->
  exists e : exn,
    Exchange.attempt client self symbol side amount order_type price w
    = (fst (Exchange.get_order_book client symbol w), Exchange.OtherFailure e).
Proof.
  unfold Exchange.reaches_client, Exchange.attempt.
  destruct (Exchange.get_order_book client symbol w) as [w1 book]. cbn [fst snd].
  destruct (Exchange.exceeds _ _); cbn [negb andb]; [eauto |].
  destruct (String.eqb order_type "LIMIT" && Exchange.falsy_price price);
    cbn [negb]; [eauto | discriminate].
Qed.

(** X6.  The pre-trade gate: when the slippage estimated on the book the
    exchange serves exceeds the tolerance, [execute_order] raises and the
    client receives no order. *)
Theorem execute_order_slippage_gate (w : World)
    (log : list Exchange.order_params) :
  Exchange.max_retries self <> 0%nat ->
  Exchange.exceeds
    (Exchange.estimate_slippage (snd (Exchange.get_order_book client symbol w))
       side amount)
    (Exchange.slippage_tolerance self) = true ->
  exists e : exn,
    Exchange.execute_order recorded self symbol side amount order_type price
      (w, log)
    = ((fst (Exchange.get_order_book client symbol w), log), Raised e).
Proof.
  intros Hretries Hexceeds. unfold Exchange.execute_order.
  destruct (Exchange.max_retries self) as [| later]; [contradiction |].
  cbn [Exchange.attempts]. rewrite attempt_recording.
  assert (Hstop : reaches w = false)
    by (unfold Exchange.reaches_client; rewrite Hexceeds; reflexivity).
  rewrite Hstop, app_nil_r.
  destruct (attempt_stopped w Hstop) as [e ->]. cbn [fst snd].
  exists e. reflexivity.
Qed.

(** A pass that reaches the client and is answered with an API error. *)
Lemma attempt_api_error (w : World) :
  reaches w = true ->
  (forall params w', exists e,
      snd (Exchange.create_order client params w') = Exchange.ApiError e) ->
  exists e : exn,
    snd (Exchange.attempt client self symbol side amount order_type price w)
    = Exchange.ApiFailure e.
Proof.
  unfold Exchange.reaches_client, Exchange.attempt. intros Hreach Hapi.
  destruct (Exchange.get_order_book client symbol w) as [w1 book].
  cbn [fst snd] in *.
  destruct (Exchange.exceeds _ _); cbn [negb andb] in Hreach; [discriminate |].
  destruct (String.eqb order_type "LIMIT" && Exchange.falsy_price price);
    cbn [negb] in Hreach; [discriminate |].
  match goal with
  | |- context [Exchange.create_order client ?p w1] =>
      destruct (Hapi p w1) as [e He];
      destruct (Exchange.create_order client p w1) as [w2 answer]
  end.
  cbn [snd] in He. subst answer. cbn [snd]. eauto.
Qed.

(** X7.  Against an exchange that answers every order with an API error,
    and with the gate open, [execute_order] sends the order [max_retries]
    times and then raises. *)
Theorem execute_order_retries (w : World) (log : list Exchange.order_params) :
  Exchange.max_retries self <> 0%nat ->
  (forall w', reaches w' = true) ->
  (forall params w', exists e,
      snd (Exchange.create_order client params w') = Exchange.ApiError e) ->
  exists e : exn,
    snd (Exchange.execute_order recorded self symbol side amount order_type
           price (w, log)) = Raised e /\
    snd (fst (Exchange.execute_order recorded self symbol side amount
                order_type price (w, log)))
    = (log ++ repeat sent (Exchange.max_retries self))%list.
Proof.
  intros Hretries Hreach Hapi. unfold Exchange.execute_order.
  destruct (Exchange.max_retries self) as [| later]; [contradiction |].
  clear Hretries. revert w log.
  induction later as [| later' IH]; intros w log.
  - cbn [Exchange.attempts]. rewrite attempt_recording, Hreach.
    destruct (attempt_api_error w (Hreach w) Hapi) as [e ->].
    cbn [fst snd repeat]. eauto.
  - cbn [Exchange.attempts]. cbn [Exchange.attempts] in IH.
    rewrite attempt_recording, Hreach.
    destruct (attempt_api_error w (Hreach w) Hapi) as [e ->].
    cbn [fst snd].
    destruct (IH (fst (Exchange.attempt client self symbol side amount
                         order_type price w)) (log ++ [sent])%list)
      as (e' & Hraise & Hlog).
    exists e'. split; [exact Hraise |].
    rewrite Hlog, <- app_assoc. reflexivity.
Qed.

(** X8.  The price check of a LIMIT order comes after the order is placed:
    a buy filled above the limit plus tolerance makes [execute_order] raise,
    without retry, with the order already at the exchange. *)
Theorem execute_order_limit_check_after_placement (w : World)
    (log : list Exchange.order_params) (limit executed : Q)
    (order : Exchange.client_order) :
  Exchange.max_retries self <> 0%nat ->
  order_type = "LIMIT" ->
  side = BUY ->
  price = Some limit ->
  reaches w = true ->
  snd (Exchange.create_order client sent
         (fst (Exchange.get_order_book client symbol w)))
  = Exchange.Accepted order ->
  Exchange.executed_price order = Returned executed ->
  limit * (1 + Exchange.slippage_tolerance self) < executed ->
  snd (Exchange.execute_order recorded self symbol side amount order_type price
         (w, log))
  = Raised (OtherError "Execution price exceeds limit price + tolerance") /\
  snd (fst (Exchange.execute_order recorded self symbol side amount order_type
              price (w, log)))
  = (log ++ [Exchange.mkParams symbol BUY amount "LIMIT" (Some limit)
               (Some "GTC")])%list.
Proof.
  intros Hretries Htype Hside Hprice Hreach Hanswer Hexecuted Habove.
  unfold Exchange.execute_order.
  destruct (Exchange.max_retries self) as [| later]; [contradiction |].
  cbn [Exchange.attempts]. rewrite attempt_recording, Hreach.
  assert (Hattempt :
    snd (Exchange.attempt client self symbol side amount order_type price w)
    = Exchange.OtherFailure
        (OtherError "Execution price exceeds limit price + tolerance")).
  { unfold Exchange.reaches_client in Hreach. unfold Exchange.attempt.
    unfold Exchange.params_of in Hanswer.
    destruct (Exchange.get_order_book client symbol w) as [w1 book].
    cbn [fst snd] in *.
    destruct (Exchange.exceeds _ _); cbn [negb andb] in Hreach; [discriminate |].
    destruct (String.eqb order_type "LIMIT" && Exchange.falsy_price price);
      cbn [negb] in Hreach; [discriminate |].
    subst order_type side price. cbn [String.eqb Ascii.eqb Bool.eqb] in *.
    destruct (Exchange.create_order client _ w1) as [w2 answer].
    cbn [snd] in Hanswer. subst answer. rewrite Hexecuted.
    cbn [get andb].
    apply ltb_lt in Habove. rewrite Habove. reflexivity. }
  rewrite Hattempt. cbn [fst snd]. split; [reflexivity |].
  unfold Exchange.params_of. subst order_type side price. reflexivity.
Qed.

End OrderExecution.

Lemma execute_order_slippage_gate_example :
  exists e : exn,
    Exchange.execute_order (Exchange.recording MoreExamples.filling_client)
      Exchange.EXCHANGE_CONFIG "BTC/USDT" BUY 4 "MARKET" None (0%nat, [])
    = ((0%nat, []), Raised e).
Proof.
  apply (execute_order_slippage_gate MoreExamples.filling_client
           Exchange.EXCHANGE_CONFIG "BTC/USDT" BUY 4 "MARKET" None 0%nat []).
  - discriminate.
  - reflexivity.
Defined.

Lemma execute_order_retries_example :
  exists e : exn,
    snd (Exchange.execute_order (Exchange.recording MoreExamples.failing_client)
           MoreExamples.tolerant "BTC/USDT" SELL 5 "STOP_LOSS" (Some 98)
           (0%nat, [])) = Raised e /\
    snd (fst (Exchange.execute_order
                (Exchange.recording MoreExamples.failing_client)
                MoreExamples.tolerant "BTC/USDT" SELL 5 "STOP_LOSS" (Some 98)
                (0%nat, [])))
    = repeat (Exchange.mkParams "BTC/USDT" SELL 5 "MARKET" None None) 3.
Proof.
  apply (execute_order_retries MoreExamples.failing_client MoreExamples.tolerant
           "BTC/USDT" SELL 5 "STOP_LOSS" (Some 98) 0%nat []).
  - discriminate.
  - intros w'. reflexivity.
  - intros params w'. eexists. reflexivity.
Defined.

Lemma execute_order_limit_check_example :
  snd (Exchange.execute_order (Exchange.recording MoreExamples.filling_client)
         MoreExamples.tolerant "BTC/USDT" BUY 1 "LIMIT" (Some 95) (0%nat, []))
  = Raised (OtherError "Execution price exceeds limit price + tolerance") /\
  snd (fst (Exchange.execute_order
              (Exchange.recording MoreExamples.filling_client)
              MoreExamples.tolerant "BTC/USDT" BUY 1 "LIMIT" (Some 95)
              (0%nat, [])))
  = [Exchange.mkParams "BTC/USDT" BUY 1 "LIMIT" (Some 95) (Some "GTC")].
Proof.
  eapply (execute_order_limit_check_after_placement MoreExamples.filling_client
            MoreExamples.tolerant "BTC/USDT" BUY 1 "LIMIT" (Some 95) 0%nat []
            95 103).
  - discriminate.
  - reflexivity.
  - reflexivity.
  - reflexivity.
  - reflexivity.
  - reflexivity.
  - reflexivity.
  - reflexivity.
Defined.

(** ** trading_engine.py on exchange_integration.py: what reaches the exchange *)

Section WorldInvariant.

Import Wiring.

Context {World : Type}.
Variable I : World -> Prop.

Lemma keeps_ret {A} (a : A) : keeps I (@ret World A a).
Proof. intros e H. exact H. Qed.

Lemma keeps_raise {A} (x : exn) : keeps I (@raise World A x).
Proof. intros e H. exact H. Qed.

Lemma keeps_bind {A B} (m : M World A) (k : A -> M World B) :
  keeps I m -> (forall a, keeps I (k a)) -> keeps I (mbind m k).
Proof.
  intros Hm Hk e H. unfold mbind. specialize (Hm e H).
  destruct (m e) as [e' [a | x]]; [exact (Hk a e' Hm) | exact Hm].
Qed.

Lemma keeps_of_outcome {A} (o : outcome A) : keeps I (@of_outcome World A o).
Proof. intros e H. exact H. Qed.

Lemma keeps_call {A} (f : World -> World * outcome A) :
  (forall w, I w -> I (fst (f w))) -> keeps I (call f).
Proof.
  intros Hf e H. unfold call. specialize (Hf (world e) H).
  destruct (f (world e)) as [w o]. exact Hf.
Qed.

Lemma keeps_get_positions : keeps I (@get_positions World).
Proof. intros e H. exact H. Qed.

Lemma keeps_put_positions (ps : list (string * Position)) :
  keeps I (@put_positions World ps).
Proof. intros e H. exact H. Qed.

Lemma keeps_get_risk_manager : keeps I (@get_risk_manager World).
Proof. intros e H. exact H. Qed.

Lemma keeps_run_logged (body : M World unit) (e : t World) :
  keeps I body -> I (world e) -> I (world (run_logged body e)).
Proof. intros Hbody H. exact (Hbody e H). Qed.

Variable C : Collaborators World.
Variable config : Config.
Hypothesis HC : collaborators_keep I C.

Ltac keeps_step :=
  first
    [ apply keeps_ret | apply keeps_raise | apply keeps_of_outcome
    | apply keeps_get_positions | apply keeps_put_positions
    | apply keeps_get_risk_manager
    | apply keeps_call; intros; apply HC; assumption ].

Ltac keeps_walk :=
  repeat
    (first
       [ keeps_step
       | apply keeps_bind; [| intros ? ]
       | match goal with
         | |- keeps _ (if ?c then _ else _) => destruct c
         | |- keeps _ (match ?x with _ => _ end) => destruct x
         | |- keeps _ (let (_, _) := ?x in _) => destruct x
         end ]).

Lemma trade_symbol_keeps (portfolio : option Q) (symbol : string) :
  keeps I (Engine.trade_symbol C config portfolio symbol).
Proof. unfold Engine.trade_symbol. keeps_walk. Qed.

Lemma trade_loop_keeps (portfolio : option Q) (todo : list string) :
  keeps I (Engine.trade_loop C config portfolio todo).
Proof.
  induction todo as [| symbol rest IH]; cbn [Engine.trade_loop]; [keeps_step |].
  apply keeps_bind; [keeps_step | intros ps].
  destruct (max_open_positions config <=? List.length ps)%nat; [keeps_step |].
  apply keeps_bind; [apply trade_symbol_keeps | intros done; exact IH].
Qed.

Lemma _check_and_execute_trades_keeps (e : t World) :
  I (world e) -> I (world (Engine._check_and_execute_trades C config e)).
Proof.
  unfold Engine._check_and_execute_trades. apply keeps_run_logged.
  apply keeps_bind; [keeps_step | intros portfolio; apply trade_loop_keeps].
Qed.

Lemma close_loop_keeps (snapshot : list (string * Position)) :
  keeps I (Engine.close_loop C snapshot).
Proof.
  induction snapshot as [| [symbol position] rest IH]; cbn [Engine.close_loop];
    [keeps_step |].
  apply keeps_bind; [keeps_step | intros amount].
  apply keeps_bind; [keeps_step | intros sold].
  apply keeps_bind; [keeps_step | intros ps].
  apply keeps_bind; [| intros removed; exact IH].
  destruct (Dict.lookup symbol ps); keeps_step.
Qed.

Lemma _close_all_positions_keeps : keeps I (Engine._close_all_positions C).
Proof.
  intros e H. unfold Engine._close_all_positions. cbn [fst].
  apply keeps_run_logged; [| exact H].
  apply keeps_bind; [keeps_step | intros ps; apply close_loop_keeps].
Qed.

Lemma monitor_loop_keeps (snapshot : list string) :
  keeps I (Engine.monitor_loop C snapshot).
Proof.
  induction snapshot as [| symbol rest IH]; cbn [Engine.monitor_loop];
    [keeps_step |].
  apply keeps_bind; [keeps_step | intros ps].
  apply keeps_bind; [keeps_step | intros position].
  apply keeps_bind; [keeps_step | intros current_price].
  apply keeps_bind; [keeps_step | intros entry_price].
  apply keeps_bind; [keeps_step | intros [emergency_exit reason]].
  destruct emergency_exit; [apply _close_all_positions_keeps |].
  apply keeps_bind; [keeps_step | intros new_stop].
  apply keeps_bind; [| intros updated; exact IH].
  destruct (ltb _ new_stop); [| keeps_step].
  keeps_walk.
Qed.

Lemma _monitor_positions_keeps (e : t World) :
  I (world e) -> I (world (Engine._monitor_positions C e)).
Proof.
  unfold Engine._monitor_positions. apply keeps_run_logged.
  apply keeps_bind; [keeps_step | intros ps; apply monitor_loop_keeps].
Qed.

End WorldInvariant.

Section MarketOrdersOnly.

Import Wiring.

Context {World : Type}.
Variable C : Collaborators World.
Variable client : Exchange.Client World.
Variable self : Exchange.settings.

Lemma grown_refl (w : World * list Exchange.order_params) :
  grown_by_market_orders (snd w) w.
Proof. exists []. split; [symmetry; apply app_nil_r | constructor]. Qed.

Lemma grown_lift {A} (log : list Exchange.order_params)
    (f : World -> World * outcome A) (w : World * list Exchange.order_params) :
  grown_by_market_orders log w ->
  grown_by_market_orders log
    (fst (let (w', o) := f (fst w) in ((w', snd w), o))).
Proof. intros H. destruct (f (fst w)) as [w' o]. exact H. Qed.

Lemma params_of_market (symbol : string) (side : TradingEngine.side)
    (amount : Q) (kind : TradingEngine.order_type) (price : option Q) :
  market_order
    (Exchange.params_of symbol side amount (order_type_name kind) price).
Proof. destruct kind; split; reflexivity. Qed.

(** The collaborators wired to the exchange only ever add market orders to
    its record. *)
Lemma observed_keeps (log : list Exchange.order_params) :
  collaborators_keep (grown_by_market_orders log) (observed C client self).
Proof.
  unfold collaborators_keep, observed.
  cbn [get_portfolio analyze_multiple_timeframes deep_learning_predict
       last_close calculate_position_size calculate_trailing_stop
       execute_order update_order emergency_check].
  repeat split; try (intros; apply (grown_lift log); assumption).
  intros symbol sd amt kind prc [w0 log0] (sent & Hlog & Hmarket).
  cbn [snd] in Hlog. subst log0.
  unfold Exchange.execute_order.
  destruct (attempts_log client self symbol sd amt (order_type_name kind)
              prc (Exchange.max_retries self) w0 (log ++ sent)%list)
    as (n & _ & Hn).
  destruct (Exchange.attempts _ _ _ _ _ _ _ _ _) as [w' result].
  cbn [fst snd] in *.
  exists (sent ++ repeat
            (Exchange.params_of symbol sd amt (order_type_name kind) prc)
            n)%list.
  split; [rewrite Hn; symmetry; apply app_assoc |].
  apply Forall_app. split; [exact Hmarket |].
  apply Forall_forall. intros params Hin. apply repeat_spec in Hin. subst params.
  apply params_of_market.
Qed.

(** X9.  Whatever the engine asks of the exchange integration while it
    looks for trades, monitors its positions or closes them all - buys,
    protective stops, closing sales - reaches the exchange as MARKET orders
    without a price: a STOP_LOSS request with its stop price is sent as an
    immediate market sale. *)
Theorem engine_sends_market_orders_only (config : Config)
    (e : t (World * list Exchange.order_params)) :
  grown_by_market_orders (snd (world e))
    (world (Engine._check_and_execute_trades (observed C client self) config e))
  /\
  grown_by_market_orders (snd (world e))
    (world (Engine._monitor_positions (observed C client self) e)) /\
  grown_by_market_orders (snd (world e))
    (world (fst (Engine._close_all_positions (observed C client self) e))).
Proof.
  pose proof (observed_keeps (snd (world e))) as Hkeep.
  split; [| split].
  - apply _check_and_execute_trades_keeps; [exact Hkeep | apply grown_refl].
  - apply _monitor_positions_keeps; [exact Hkeep | apply grown_refl].
  - apply _close_all_positions_keeps; [exact Hkeep | apply grown_refl].
Qed.

End MarketOrdersOnly.

(** ** deep_learning/trading_strategy.py and the engine's entry gate *)



(** With a non-negative predictor confidence the total weight is positive,
    so the weighted average is computed. *)
Lemma _combine_signals_average (traditional_signal : Q) (dl_action : Z)
    (dl_confidence dl_return : Q) :
  0 <= dl_confidence ->
  Qabs dl_return <= prediction_threshold ->
  exists dl_signal : Q,
    (dl_signal = 0.0 \/ dl_signal = 1.0 \/ dl_signal = - 1.0) /\
    (dl_action = 0%Z -> dl_signal = 0.0) /\
    _combine_signals traditional_signal dl_action dl_confidence dl_return
    = (traditional_signal * 0.4 + dl_signal * (0.6 * dl_confidence))
      / (0.4 + 0.6 * dl_confidence).
Proof.
  intros Hconf Hret.
  unfold _combine_signals, _combine_signals_try, div.
  apply ltb_ge in Hret. rewrite Hret.
  destruct (Qeq_bool (0.4 + 0.6 * dl_confidence) 0) eqn:Hz;
    [apply Qeq_bool_iff in Hz; lra |].
  cbn [bind try_except].
  destruct (dl_action =? 0)%Z eqn:H0.
  - exists 0.0. repeat split; auto.
  - apply Z.eqb_neq in H0.
    destruct (dl_action =? 1)%Z;
      [exists 1.0; repeat split; auto; intros; contradiction |].
    destruct (dl_action =? 2)%Z;
      [exists (- 1.0) | exists 0.0]; repeat split; auto; intros; contradiction.
Qed.

(** X11.  With a traditional signal within [-1, 1] and a predictor
    confidence that is not negative, the combined signal is within
    [-1, 1], whatever the action and the predicted return. *)
Theorem _combine_signals_range (traditional_signal : Q) (dl_action : Z)
    (dl_confidence dl_return : Q) :
  - (1) <= traditional_signal <= 1 ->
  0 <= dl_confidence ->
  - (1) <= _combine_signals traditional_signal dl_action dl_confidence dl_return
  <= 1.
Proof.
  intros [Hlo Hhi] Hconf.
  destruct (Qlt_le_dec prediction_threshold (Qabs dl_return)) as [Habove | Hbelow].
  - rewrite (_combine_signals_above_threshold _ _ _ _ Habove). split; lra.
  - destruct (_combine_signals_average traditional_signal dl_action
                dl_confidence dl_return Hconf Hbelow)
      as (dl_signal & Hsignal & _ & ->).
    assert (Hden : 0 < 0.4 + 0.6 * dl_confidence) by lra.
    split.
    + apply Qle_shift_div_l; [exact Hden |].
      destruct Hsignal as [-> | [-> | ->]]; nra.
    + apply Qle_shift_div_r; [exact Hden |].
      destruct Hsignal as [-> | [-> | ->]]; nra.
Qed.

Lemma _combine_signals_range_example :
  - (1) <= _combine_signals 0.5 2 1 0.01 <= 1.
Proof.
  apply (_combine_signals_range 0.5 2 1 0.01).
  - split; discriminate.
  - discriminate.
Defined.

Section EntryGate.

Context {World : Type}.
Variable C : Collaborators World.
Variable config : Config.

(** A symbol whose combined signal does not exceed the threshold is left
    after the two reads: no price is fetched, no size asked, no order sent. *)
Lemma trade_symbol_no_entry (portfolio : option Q) (symbol : string)
    (e : t World) (w1 w2 : World) (final_signal : Q) (dl_action : Z)
    (dl_confidence dl_return : Q) :
  analyze_multiple_timeframes C symbol (world e) = (w1, Returned final_signal) ->
  deep_learning_predict C symbol w1
  = (w2, Returned (dl_action, dl_confidence, dl_return)) ->
  _combine_signals final_signal dl_action dl_confidence dl_return
  <= confidence_threshold config ->
  Engine.trade_symbol C config portfolio symbol e
  = (mk (positions e) (risk_manager e) w2, Returned tt).
Proof.
  intros Hanalyze Hpredict Hsignal.
  unfold Engine.trade_symbol, mbind, call. rewrite Hanalyze.
  cbn [world positions risk_manager]. rewrite Hpredict.
  apply ltb_ge in Hsignal. rewrite Hsignal. reflexivity.
Qed.

(** X12.  When the predictor's agent says hold, the engine does not enter:
    with a traditional signal of at most 1 and a confidence threshold of at
    least 4/7 (it is 0.7), the symbol is left after the two reads, with the
    position table as it was. *)
Theorem trade_symbol_hold_never_enters (portfolio : option Q) (symbol : string)
    (e : t World) (w1 w2 : World) (final_signal predicted_return epsilon : Q)
    (n_features : nat) :
  final_signal <= 1 ->
  4 # 7 <= confidence_threshold config ->
  analyze_multiple_timeframes C symbol (world e) = (w1, Returned final_signal) ->
  deep_learning_predict C symbol w1
  = (w2, Returned (DeepLearning.predict (S n_features)
                     (Returned predicted_return) (Returned 0%Z) epsilon)) ->
  Engine.trade_symbol C config portfolio symbol e
  = (mk (positions e) (risk_manager e) w2, Returned tt).
Proof.
  intros Hsignal Hthreshold Hanalyze Hpredict.
  apply (trade_symbol_no_entry portfolio symbol e w1 w2 final_signal 0%Z 0.5
           predicted_return Hanalyze Hpredict).
  destruct (Qlt_le_dec prediction_threshold (Qabs predicted_return))
    as [Habove | Hbelow].
  - rewrite (_combine_signals_above_threshold _ _ _ _ Habove). lra.
  - assert (Hconf : 0 <= 0.5) by discriminate.
    destruct (_combine_signals_average final_signal 0%Z 0.5 predicted_return
                Hconf Hbelow) as (dl_signal & _ & Hhold & ->).
    rewrite (Hhold eq_refl).
    apply Qle_trans with (4 # 7); [| exact Hthreshold].
    apply Qle_shift_div_r; [reflexivity | lra].
Qed.

(** X13.  When the predictor forecasts a move of more than the prediction
    threshold (2%), in either direction, the engine does not enter, whatever
    the other signals say: the combined signal is 0. *)
Theorem trade_symbol_large_forecast_never_enters (portfolio : option Q)
    (symbol : string) (e : t World) (w1 w2 : World) (final_signal : Q)
    (dl_action : Z) (dl_confidence dl_return : Q) :
  prediction_threshold < Qabs dl_return ->
  0 <= confidence_threshold config ->
  analyze_multiple_timeframes C symbol (world e) = (w1, Returned final_signal) ->
  deep_learning_predict C symbol w1
  = (w2, Returned (dl_action, dl_confidence, dl_return)) ->
  Engine.trade_symbol C config portfolio symbol e
  = (mk (positions e) (risk_manager e) w2, Returned tt).
Proof.
  intros Habove Hthreshold Hanalyze Hpredict.
  apply (trade_symbol_no_entry portfolio symbol e w1 w2 final_signal dl_action
           dl_confidence dl_return Hanalyze Hpredict).
  rewrite (_combine_signals_above_threshold _ _ _ _ Habove). lra.
Qed.

End EntryGate.

Lemma trade_symbol_hold_never_enters_example :
  Engine.trade_symbol
    (MoreExamples.eager_with_predictor
       (DeepLearning.predict 1 (Returned 0.01) (Returned 0%Z) 0.2))
    CONFIG (Some 1000) "BTC/USDT" Examples.idle_engine
  = (Examples.idle_engine, Returned tt).
Proof.
  apply (trade_symbol_hold_never_enters
           (MoreExamples.eager_with_predictor
              (DeepLearning.predict 1 (Returned 0.01) (Returned 0%Z) 0.2))
           CONFIG (Some 1000) "BTC/USDT" Examples.idle_engine tt tt 1 0.01 0.2
           0%nat).
  - discriminate.
  - discriminate.
  - reflexivity.
  - reflexivity.
Defined.

Lemma trade_symbol_large_forecast_never_enters_example :
  Engine.trade_symbol (MoreExamples.eager_with_predictor (1%Z, 1, 0.05))
    CONFIG (Some 1000) "BTC/USDT" Examples.idle_engine
  = (Examples.idle_engine, Returned tt).
Proof.
  apply (trade_symbol_large_forecast_never_enters
           (MoreExamples.eager_with_predictor (1%Z, 1, 0.05))
           CONFIG (Some 1000) "BTC/USDT" Examples.idle_engine tt tt 1 1%Z 1
           0.05).
  - reflexivity.
  - discriminate.
  - reflexivity.
  - reflexivity.
Defined.

(** ** trading_engine.py: closing positions *)

Lemma remove_absent {V : Type} (k : string) (d : list (string * V)) :
  ~ In k (Dict.keys d) -> Dict.remove k d = d.
Proof.
  induction d as [| [k0 v0] rest IH]; [reflexivity |].
  cbn [Dict.keys map fst In Dict.remove]. intros Hnot.
  destruct (String.eqb k k0) eqn:Hk.
  - apply String.eqb_eq in Hk. exfalso. apply Hnot. left. congruence.
  - f_equal. apply IH. intros Hin. apply Hnot. right. exact Hin.
Qed.

Section ClosingPositions.

Context {World : Type}.
Variable C : Collaborators World.

(** One turn of the closing loop on a table without repeated symbols. *)
Lemma close_loop_step (symbol : string) (position : Position)
    (rest : list (string * Position)) (e : t World) :
  positions e = (symbol, position) :: rest ->
  ~ In symbol (Dict.keys rest) ->
  Engine.close_loop C ((symbol, position) :: rest) e
  = match amount position with
    | None => (e, Raised (KeyError "amount"))
    | Some quantity =>
        match execute_order C symbol SELL quantity MARKET None (world e) with
        | (w, Returned _) =>
            Engine.close_loop C rest (mk rest (risk_manager e) w)
        | (w, Raised x) => (mk (positions e) (risk_manager e) w, Raised x)
        end
    end.
Proof.
  intros Htable Hfresh. cbn [Engine.close_loop].
  unfold mbind, of_outcome, call, get_positions, put_positions.
  destruct (amount position) as [quantity |]; cbn [getitem];
    [| reflexivity].
  destruct (execute_order C symbol SELL quantity MARKET None (world e))
    as [w [sold | x]]; cbn [positions risk_manager world];
    [| reflexivity].
  rewrite Htable. cbn [Dict.lookup]. rewrite String.eqb_refl.
  cbn [Dict.remove]. rewrite String.eqb_refl.
  rewrite (remove_absent symbol rest Hfresh). reflexivity.
Qed.

Lemma close_loop_suffix (snapshot : list (string * Position)) (e : t World) :
  positions e = snapshot ->
  NoDup (Dict.keys snapshot) ->
  exists closed : list (string * Position),
    snapshot = (closed ++ positions (fst (Engine.close_loop C snapshot e)))%list.
Proof.
  revert e. induction snapshot as [| [symbol position] rest IH];
    intros e Htable Hwf.
  - exists []. cbn. symmetry. exact Htable.
  - cbn [Dict.keys map fst] in Hwf.
    inversion Hwf as [| ? ? Hfresh Hrest]; subst.
    rewrite (close_loop_step symbol position rest e Htable Hfresh).
    destruct (amount position) as [quantity |].
    + destruct (execute_order C symbol SELL quantity MARKET None (world e))
        as [w [sold | x]].
      * destruct (IH (mk rest (risk_manager e) w) eq_refl Hrest)
          as [closed Hclosed].
        exists ((symbol, position) :: closed). cbn [app]. f_equal.
        exact Hclosed.
      * exists []. cbn. symmetry. exact Htable.
    + exists []. cbn. symmetry. exact Htable.
Qed.

Lemma close_loop_empties (snapshot : list (string * Position)) (e : t World) :
  positions e = snapshot ->
  NoDup (Dict.keys snapshot) ->
  Forall (fun entry => amount (snd entry) <> None) snapshot ->
  (forall symbol quantity w,
      exists sold,
        snd (execute_order C symbol SELL quantity MARKET None w)
        = Returned sold) ->
  positions (fst (Engine.close_loop C snapshot e)) = [].
Proof.
  intros Htable Hwf Hamounts Hsells. revert e Htable.
  induction snapshot as [| [symbol position] rest IH]; intros e Htable.
  - exact Htable.
  - cbn [Dict.keys map fst] in Hwf.
    inversion Hwf as [| ? ? Hfresh Hrest]; subst.
    inversion Hamounts as [| ? ? Hamount Hothers]; subst.
    cbn [snd] in Hamount.
    rewrite (close_loop_step symbol position rest e Htable Hfresh).
    destruct (amount position) as [quantity |]; [| contradiction].
    destruct (Hsells symbol quantity (world e)) as [sold Hsold].
    destruct (execute_order C symbol SELL quantity MARKET None (world e))
      as [w o]. cbn [snd] in Hsold. subst o.
    apply (IH Hrest Hothers). reflexivity.
Qed.

(** X14.  [_close_all_positions] closes the positions in the order of the
    table and stops at the first one it cannot sell: what it leaves open is
    a tail of the table it found, each position as it was. *)
Theorem _close_all_positions_leaves_tail (e : t World) :
  NoDup (Dict.keys (positions e)) ->
  exists closed : list (string * Position),
    positions e
    = (closed ++ positions (fst (Engine._close_all_positions C e)))%list.
Proof.
  intros Hwf. unfold Engine._close_all_positions, run_logged. cbn [fst].
  unfold mbind, get_positions.
  exact (close_loop_suffix (positions e) e eq_refl Hwf).
Qed.

(** X15.  When every open position records its amount and no sale raises,
    [_close_all_positions] leaves the table empty: it sells whatever the
    exchange answers, a falsy order included. *)
Theorem _close_all_positions_closes_everything (e : t World) :
  NoDup (Dict.keys (positions e)) ->
  Forall (fun entry => amount (snd entry) <> None) (positions e) ->
  (forall symbol quantity w,
      exists sold,
        snd (execute_order C symbol SELL quantity MARKET None w)
        = Returned sold) ->
  positions (fst (Engine._close_all_positions C e)) = [].
Proof.
  intros Hwf Hamounts Hsells.
  unfold Engine._close_all_positions, run_logged. cbn [fst].
  unfold mbind, get_positions.
  exact (close_loop_empties (positions e) e eq_refl Hwf Hamounts Hsells).
Qed.

End ClosingPositions.

Lemma _close_all_positions_leaves_tail_example :
  exists closed : list (string * Position),
    positions MoreExamples.two_positions
    = (closed
       ++ positions
            (fst (Engine._close_all_positions MoreExamples.picky
                    MoreExamples.two_positions)))%list.
Proof.
  apply (_close_all_positions_leaves_tail MoreExamples.picky
           MoreExamples.two_positions).
  cbn. repeat constructor; cbn; intuition discriminate.
Defined.

Lemma _close_all_positions_closes_everything_example :
  positions
    (fst (Engine._close_all_positions Examples.eager MoreExamples.two_positions))
  = [].
Proof.
  apply (_close_all_positions_closes_everything Examples.eager
           MoreExamples.two_positions).
  - cbn. repeat constructor; cbn; intuition discriminate.
  - cbn. repeat constructor; cbn; discriminate.
  - intros symbol quantity w. cbn. eexists. reflexivity.
Defined.

(** ** trading_engine.py: the emergency exit of the monitoring pass *)

Lemma monitor_passes_without_emergency_check {World : Type}
    (C : Collaborators World) (n : nat) :
  (forall ps w, exists x, snd (emergency_check C ps w) = Raised x) ->
  forall e : t World,
    positions (Engine.monitor_passes C n e) = positions e.
Proof.
  intros Hraises. induction n as [| n IH]; intros e; cbn [Engine.monitor_passes];
    [reflexivity |].
  rewrite IH. apply _monitor_positions_without_emergency_check, Hraises.
Qed.

(** X16.  With the risk manager of the sources, whose
    [check_emergency_shutdown] is an ordinary method, the emergency exit of
    [_monitor_positions] is never taken: awaiting the tuple raises, each
    pass ends there, and the position table stays as it was after any
    number of passes, whether or not a trigger fires. *)
Theorem _monitor_positions_emergency_exit_not_taken {World : Type}
    (C : Collaborators World) (risk : RiskManager.t) (n : nat) (e : t World) :
  (forall ps w,
      snd (emergency_check C ps w)
      = snd (Awaited.check_emergency_shutdown_awaited risk ps w)) ->
  positions (Engine.monitor_passes C n e) = positions e.
Proof.
  intros Hsource. apply monitor_passes_without_emergency_check.
  intros ps w. rewrite Hsource.
  unfold Awaited.check_emergency_shutdown_awaited, Awaited.await_tuple.
  cbn [snd]. eauto.
Qed.

Lemma _monitor_positions_emergency_exit_not_taken_example :
  fst (RiskManager.check_emergency_shutdown Examples.no_conditions
         (positions MoreExamples.fallen_engine)) = true /\
  positions (Engine.monitor_passes MoreExamples.as_written 3
               MoreExamples.fallen_engine)
  = positions MoreExamples.fallen_engine.
Proof.
  split; [vm_compute; reflexivity |].
  apply (_monitor_positions_emergency_exit_not_taken MoreExamples.as_written
           Examples.no_conditions 3 MoreExamples.fallen_engine).
  intros ps w. reflexivity.
Defined.

(** ** strategy_optimizer.py: analyze_multiple_timeframes *)

Section MultiTimeframeAnalysis.

Import MultiTimeframe.

Lemma weights_positive (timeframe : string) (w : Q) :
  Dict.lookup timeframe weights = Some w -> 0 < w.
Proof.
  unfold weights. cbn [Dict.lookup].
  repeat (destruct (String.eqb timeframe _); [intros [= <-]; lra |]).
  discriminate.
Qed.

Lemma Forall_values_set {V : Type} (P : V -> Prop) (k : string) (v : V)
    (d : list (string * V)) :
  P v -> Forall P (Dict.values d) -> Forall P (Dict.values (Dict.set k v d)).
Proof.
  intros Hv. induction d as [| [k0 v0] rest IH]; intros Hall.
  - cbn. constructor; [exact Hv | constructor].
  - cbn [Dict.set]. inversion Hall as [| ? ? H0 Hrest]; subst.
    destruct (String.eqb k k0).
    + constructor; assumption.
    + constructor; [exact H0 | apply IH, Hrest].
Qed.

Lemma detect_market_regime_models (self : StrategyOptimizer.t)
    (indicators : outcome Indicators) (symbol : string) :
  models (fst (detect_market_regime self indicators symbol)) = models self.
Proof.
  unfold detect_market_regime.
  destruct (detect_market_regime_try indicators); reflexivity.
Qed.

Lemma predict_untrained (self : StrategyOptimizer.t) (symbol timeframe : string)
    (inference : outcome (Z * list Q)) :
  contains (symbol ++ "_" ++ timeframe) (models self) = false ->
  predict self symbol timeframe inference = (0%Z, 0.0).
Proof.
  intros Hm. unfold predict, predict_try. rewrite Hm. reflexivity.
Qed.

(** The weights of signals without probability add up to nothing. *)
Lemma combine_no_probability (signals : list (string * signal))
    (weighted_signal total_weight : Q) :
  Forall (fun s => probability s == 0) (Dict.values signals) ->
  total_weight == 0 ->
  snd (combine signals weighted_signal total_weight) == 0.
Proof.
  revert weighted_signal total_weight.
  induction signals as [| [tf s] rest IH]; intros ws tw Hall Htw;
    cbn [combine]; [exact Htw |].
  inversion Hall as [| ? ? Hs Hrest]; subst. cbn [snd] in Hs.
  apply IH; [exact Hrest |]. rewrite Htw, Hs. ring.
Qed.

Lemma analyze_loop_untrained (symbol : string)
    (timeframe_data : list (string * frame_data)) :
  forall (self : StrategyOptimizer.t) (signals : list (string * signal)),
    (forall timeframe,
        contains (symbol ++ "_" ++ timeframe) (models self) = false) ->
    Forall (fun s => probability s == 0) (Dict.values signals) ->
    Forall (fun s => probability s == 0)
      (Dict.values (snd (analyze_loop self symbol timeframe_data signals))).
Proof.
  induction timeframe_data as [| [timeframe data] rest IH];
    intros self signals Hnone Hall; cbn [analyze_loop]; [exact Hall |].
  destruct (Dict.lookup timeframe weights) as [w |]; [| apply IH; assumption].
  rewrite (predict_untrained self symbol timeframe _ (Hnone timeframe)).
  destruct (detect_market_regime self (indicators data) symbol)
    as [self' regime] eqn:Hdetect.
  apply IH.
  - intros tf.
    replace self' with (fst (detect_market_regime self (indicators data) symbol))
      by (rewrite Hdetect; reflexivity).
    rewrite detect_market_regime_models. apply Hnone.
  - apply Forall_values_set; [reflexivity | exact Hall].
Qed.

(** X17.  For a symbol without a trained model, whatever the timeframes and
    their data, [analyze_multiple_timeframes] gives the final signal 0:
    every probability is 0.0, so no weight is left to divide by. *)
Theorem analyze_multiple_timeframes_untrained (self : StrategyOptimizer.t)
    (symbol : string) (timeframe_data : list (string * frame_data)) :
  (forall timeframe,
      contains (symbol ++ "_" ++ timeframe) (models self) = false) ->
  final_signal (analyze_multiple_timeframes self symbol timeframe_data) = 0.
Proof.
  intros Hnone. unfold final_signal, analyze_multiple_timeframes.
  pose proof (analyze_loop_untrained symbol timeframe_data self [] Hnone
                (Forall_nil _)) as Hall.
  destruct (analyze_loop self symbol timeframe_data []) as [self' signals].
  cbn [snd] in Hall.
  pose proof (combine_no_probability signals 0 0 Hall (Qeq_refl 0)) as Htotal.
  destruct (combine signals 0 0) as [weighted_signal total_weight].
  cbn [snd fst] in Htotal |- *.
  assert (Hle : total_weight <= 0) by (rewrite Htotal; lra).
  apply ltb_ge in Hle. rewrite Hle. reflexivity.
Qed.

Lemma analyze_loop_filter (symbol : string)
    (timeframe_data : list (string * frame_data)) :
  forall (self : StrategyOptimizer.t) (signals : list (string * signal)),
    analyze_loop self symbol (filter weighted timeframe_data) signals
    = analyze_loop self symbol timeframe_data signals.
Proof.
  induction timeframe_data as [| [timeframe data] rest IH];
    intros self signals; [reflexivity |].
  cbn [filter]. unfold weighted at 1. cbn [fst].
  destruct (Dict.lookup timeframe weights) as [w |] eqn:Hw.
  - cbn [analyze_loop]. rewrite Hw.
    destruct (predict self symbol timeframe (inference data))
      as [prediction probability].
    destruct (detect_market_regime self (indicators data) symbol)
      as [self' regime].
    apply IH.
  - cbn [analyze_loop]. rewrite Hw. apply IH.
Qed.

(** X18.  Timeframes outside the weight table count for nothing in
    [analyze_multiple_timeframes]: neither the result nor the regimes the
    optimizer keeps depend on their data. *)
Theorem analyze_multiple_timeframes_ignores_unweighted
    (self : StrategyOptimizer.t) (symbol : string)
    (timeframe_data : list (string * frame_data)) :
  analyze_multiple_timeframes self symbol (filter weighted timeframe_data)
  = analyze_multiple_timeframes self symbol timeframe_data.
Proof.
  unfold analyze_multiple_timeframes.
  rewrite analyze_loop_filter. reflexivity.
Qed.

Lemma combine_average (signals : list (string * signal))
    (weighted_signal total_weight : Q) :
  Forall sound_signal (Dict.values signals) ->
  0 <= weighted_signal <= total_weight ->
  0 <= fst (combine signals weighted_signal total_weight)
    <= snd (combine signals weighted_signal total_weight).
Proof.
  revert weighted_signal total_weight.
  induction signals as [| [tf s] rest IH]; intros ws tw Hall Hws;
    cbn [combine]; [exact Hws |].
  inversion Hall as [| ? ? Hs Hrest]; subst. cbn [snd] in Hs.
  destruct Hs as ([Hp0 Hp1] & Hprob & Hconf & Hweight).
  apply IH; [exact Hrest |].
  assert (Hadj : 0 <= weight s * probability s * confidence (regime s)).
  { apply Qmult_le_0_compat; [apply Qmult_le_0_compat |]; assumption. }
  assert (Hz : prediction s = 0%Z \/ prediction s = 1%Z) by lia.
  set (adjusted_weight := weight s * probability s * confidence (regime s))
    in Hadj |- *.
  destruct Hz as [-> | ->];
    [change (inject_Z 0) with 0 | change (inject_Z 1) with 1]; lra.
Qed.

Lemma fold_max2_lower (xs : list Q) (x : Q) :
  0 <= x -> 0 <= fold_left max2 xs x.
Proof.
  revert x. induction xs as [| y ys IH]; intros x Hx; [exact Hx |].
  cbn [fold_left]. apply IH.
  unfold max2. destruct (ltb x y) eqn:Hxy; [| exact Hx].
  apply ltb_lt in Hxy. lra.
Qed.

Lemma scale_nonneg (f : Q) (xs : list Q) :
  0 <= f -> Forall (fun p => 0 <= p) xs -> Forall (fun p => 0 <= p) (scale f xs).
Proof.
  intros Hf Hall. unfold scale. apply Forall_map.
  eapply Forall_impl; [| exact Hall]. cbn. intros p Hp.
  apply Qmult_le_0_compat; assumption.
Qed.

Lemma adjust_probability_nonneg (self : StrategyOptimizer.t) (symbol : string)
    (probability : list Q) :
  regime_on_record_sound self symbol ->
  Forall (fun p => 0 <= p) probability ->
  Forall (fun p => 0 <= p) (adjust_probability self symbol probability).
Proof.
  intros Hrec Hall.
  destruct (Dict.lookup symbol (market_regimes self)) as [recorded |] eqn:Hr.
  - destruct (adjust_probability_factor self symbol recorded probability Hr)
      as [-> | [_ ->]]; [| exact Hall].
    apply scale_nonneg; [apply Hrec, Hr | exact Hall].
  - unfold adjust_probability. rewrite Hr. exact Hall.
Qed.

Lemma predict_sound (self : StrategyOptimizer.t) (symbol timeframe : string)
    (data : frame_data) :
  regime_on_record_sound self symbol -> sound_data data ->
  (0 <= fst (predict self symbol timeframe (inference data)) <= 1)%Z /\
  0 <= snd (predict self symbol timeframe (inference data)).
Proof.
  intros Hrec [Hinf _]. unfold predict, predict_try.
  destruct (negb _ || negb _); cbn [try_except fst snd]; [split; [lia | lra] |].
  destruct (inference data) as [[prediction probability] | e];
    cbn [bind try_except fst snd]; [| split; [lia | lra]].
  destruct (Hinf prediction probability eq_refl) as [Hclass Hprob].
  pose proof (adjust_probability_nonneg self symbol probability Hrec Hprob)
    as Hadj.
  destruct (adjust_probability self symbol probability) as [| x rest];
    cbn [ndarray_max bind try_except fst snd]; [split; [lia | lra] |].
  inversion Hadj; subst. split; [exact Hclass |].
  apply fold_max2_lower. assumption.
Qed.

Lemma detect_market_regime_sound (self : StrategyOptimizer.t)
    (data : frame_data) (symbol : string) :
  regime_on_record_sound self symbol -> sound_data data ->
  regime_on_record_sound
    (fst (detect_market_regime self (indicators data) symbol)) symbol /\
  0 <= confidence (snd (detect_market_regime self (indicators data) symbol)).
Proof.
  intros Hrec [_ Hband]. unfold detect_market_regime.
  destruct (detect_market_regime_try (indicators data)) as [detected | x]
    eqn:Htry; cbn [fst snd]; [| split; [exact Hrec | cbn; lra]].
  destruct (detect_market_regime_try_cases _ _ Htry)
    as (i & Hi & [(Hadx & Htype & Hconf) | (Hadx & Hbb & Htype & Hconf)]).
  - assert (Hmin : 0 <= confidence detected).
    { rewrite Hconf. unfold min2.
      destruct (ltb 1.0 (current_adx i / 50.0)); [lra |].
      qdiv_consts. lra. }
    split; [| exact Hmin].
    intros recorded Hlookup. cbn [market_regimes] in Hlookup.
    rewrite lookup_set, String.eqb_refl in Hlookup.
    injection Hlookup as <-.
    unfold regime_factor. rewrite Htype. cbn [String.eqb Ascii.eqb Bool.eqb].
    assert (Hstrength : 0 <= strength detected).
    { unfold detect_market_regime_try in Htry. rewrite Hi in Htry.
      cbn [bind] in Htry.
      destruct (ltb 25 (current_adx i));
        [| destruct (ltb (current_bb_width i) 0.1); [| discriminate]];
        cbn [bind] in Htry; injection Htry as <-; cbn [strength];
        qdiv_consts; lra. }
    pose proof (Qmult_le_0_compat _ _ Hstrength Hmin). lra.
  - pose proof (Hband i Hi) as Hlow.
    assert (Hc : 0 <= confidence detected) by (rewrite Hconf; lra).
    split; [| exact Hc].
    intros recorded Hlookup. cbn [market_regimes] in Hlookup.
    rewrite lookup_set, String.eqb_refl in Hlookup.
    injection Hlookup as <-.
    unfold regime_factor. rewrite Htype. cbn [String.eqb Ascii.eqb Bool.eqb].
    rewrite Hconf. lra.
Qed.

Lemma analyze_loop_sound (symbol : string)
    (timeframe_data : list (string * frame_data)) :
  forall (self : StrategyOptimizer.t) (signals : list (string * signal)),
    regime_on_record_sound self symbol ->
    Forall (fun entry => sound_data (snd entry)) timeframe_data ->
    Forall sound_signal (Dict.values signals) ->
    Forall sound_signal
      (Dict.values (snd (analyze_loop self symbol timeframe_data signals))).
Proof.
  induction timeframe_data as [| [timeframe data] rest IH];
    intros self signals Hrec Hdata Hall; cbn [analyze_loop]; [exact Hall |].
  inversion Hdata as [| ? ? Hfirst Hrest]; subst. cbn [snd] in Hfirst.
  destruct (Dict.lookup timeframe weights) as [w |] eqn:Hw;
    [| apply IH; assumption].
  pose proof (predict_sound self symbol timeframe data Hrec Hfirst)
    as [Hclass Hprob].
  destruct (predict self symbol timeframe (inference data))
    as [prediction probability]. cbn [fst snd] in Hclass, Hprob.
  pose proof (detect_market_regime_sound self data symbol Hrec Hfirst)
    as [Hrec' Hconf].
  destruct (detect_market_regime self (indicators data) symbol)
    as [self' detected]. cbn [fst snd] in Hrec', Hconf.
  apply IH; [exact Hrec' | exact Hrest |].
  apply Forall_values_set; [| exact Hall].
  unfold sound_signal. cbn.
  pose proof (weights_positive timeframe w Hw). repeat split; try lia; lra.
Qed.

(** X19.  When every model answer is class 0 or 1 with class probabilities
    that are not negative, every Bollinger band value is at least -1, and
    the regime on record for the symbol does not turn probabilities
    negative, the final signal of [analyze_multiple_timeframes] lies between
    0 and 1. *)
Theorem analyze_multiple_timeframes_range (self : StrategyOptimizer.t)
    (symbol : string) (timeframe_data : list (string * frame_data)) :
  regime_on_record_sound self symbol ->
  Forall (fun entry => sound_data (snd entry)) timeframe_data ->
  0 <= final_signal (analyze_multiple_timeframes self symbol timeframe_data)
    <= 1.
Proof.
  intros Hrec Hdata. unfold final_signal, analyze_multiple_timeframes.
  pose proof (analyze_loop_sound symbol timeframe_data self [] Hrec Hdata
                (Forall_nil _)) as Hall.
  destruct (analyze_loop self symbol timeframe_data []) as [self' signals].
  cbn [snd] in Hall.
  assert (Hstart : 0 <= 0 <= 0) by (split; lra).
  pose proof (combine_average signals 0 0 Hall Hstart) as [Hlow Hhigh].
  destruct (combine signals 0 0) as [weighted_signal total_weight].
  cbn [fst snd] in Hlow, Hhigh |- *.
  destruct (ltb 0 total_weight) eqn:Htotal; [| split; lra].
  apply ltb_lt in Htotal. split.
  - apply Qle_shift_div_l; [exact Htotal | lra].
  - apply Qle_shift_div_r; [exact Htotal | lra].
Qed.

End MultiTimeframeAnalysis.

Lemma analyze_multiple_timeframes_untrained_example :
  MultiTimeframe.final_signal
    (MultiTimeframe.analyze_multiple_timeframes MoreExamples.untrained
       "BTC/USDT" MoreExamples.three_timeframes)
  = 0.
Proof.
  apply (analyze_multiple_timeframes_untrained MoreExamples.untrained
           "BTC/USDT" MoreExamples.three_timeframes).
  intros timeframe. reflexivity.
Defined.

Lemma analyze_multiple_timeframes_range_example :
  0 <= MultiTimeframe.final_signal
         (MultiTimeframe.analyze_multiple_timeframes MoreExamples.trained_twice
            "BTC/USDT" MoreExamples.three_timeframes)
    <= 1.
Proof.
  apply (analyze_multiple_timeframes_range MoreExamples.trained_twice
           "BTC/USDT" MoreExamples.three_timeframes).
  - intros recorded Hlookup. discriminate Hlookup.
  - unfold MoreExamples.three_timeframes.
    repeat (apply Forall_cons; [split |]); [.. | apply Forall_nil]; cbn.
    all: try (intros prediction probability [= <- <-]; split; [lia |];
              repeat (apply Forall_cons; [lra |]); apply Forall_nil).
    all: intros i [= <-]; cbn; lra.
Defined.

(** ** exchange_integration.py: analyze_order_book *)

Lemma Forall_top_levels {A : Type} (P : A -> Prop) (n : nat) (xs : list A) :
  Forall P xs -> Forall P (firstn n xs).
Proof.
  revert xs. induction n as [| n IH]; intros xs Hall; [apply Forall_nil |].
  destruct Hall as [| x rest Hx Hrest]; [apply Forall_nil |].
  cbn [firstn]. apply Forall_cons; [exact Hx | apply IH, Hrest].
Qed.

Lemma sum_firstn_nonneg (n : nat) (orders : list (Q * Q)) :
  Forall (fun level => 0 <= snd level) orders ->
  0 <= sum (map snd (firstn n orders)).
Proof.
  intros Hall. change (sum (map snd (firstn n orders)))
    with (Exchange.depth (firstn n orders)).
  apply depth_nonneg, Forall_top_levels, Hall.
Qed.

(** X20.  On a book with levels on both sides and no negative quantity,
    [analyze_order_book] answers, and the imbalance it reports is a number
    between -1 and 1, or [nan] when the top five levels of both sides are
    empty; it is never infinite. *)
Theorem analyze_order_book_imbalance_range (book : Exchange.order_book) :
  Exchange.bids book <> [] -> Exchange.asks book <> [] ->
  Forall (fun level => 0 <= snd level) (Exchange.bids book) ->
  Forall (fun level => 0 <= snd level) (Exchange.asks book) ->
  exists analysis : Exchange.book_analysis,
    Exchange.analyze_order_book book = Some analysis /\
    (Exchange.imbalance analysis = Exchange.NpNaN \/
     exists x : Q,
       Exchange.imbalance analysis = Exchange.NpNum x /\ -1 <= x <= 1).
Proof.
  intros Hbids Hasks Hbid_quantities Hask_quantities.
  unfold Exchange.analyze_order_book, Exchange.analyze_order_book_try.
  pose proof (sum_firstn_nonneg 5 _ Hbid_quantities) as Hb.
  pose proof (sum_firstn_nonneg 5 _ Hask_quantities) as Ha.
  destruct (Exchange.bids book) as [| [bid0 bid_quantity] bids'];
    [contradiction |].
  destruct (Exchange.asks book) as [| [ask0 ask_quantity] asks'];
    [contradiction |].
  cbn [bind try_except]. eexists. split; [reflexivity |].
  cbn [Exchange.imbalance].
  set (bid_depth := sum (map snd (firstn 5 ((bid0, bid_quantity) :: bids'))))
    in Hb |- *.
  set (ask_depth := sum (map snd (firstn 5 ((ask0, ask_quantity) :: asks'))))
    in Ha |- *.
  unfold Exchange.np_div.
  destruct (Qeq_bool (bid_depth + ask_depth) 0) eqn:Hzero.
  - apply Qeq_bool_iff in Hzero. left.
    assert (Hdiff : bid_depth - ask_depth == 0) by lra.
    apply Qeq_bool_iff in Hdiff. rewrite Hdiff. reflexivity.
  - apply Qeq_bool_neq in Hzero. right. eexists. split; [reflexivity |].
    assert (Hpos : 0 < bid_depth + ask_depth).
    { destruct (Qlt_le_dec 0 (bid_depth + ask_depth)) as [H | H];
        [exact H |]. exfalso. apply Hzero. lra. }
    split.
    + apply Qle_shift_div_l; [exact Hpos | lra].
    + apply Qle_shift_div_r; [exact Hpos | lra].
Qed.

Lemma analyze_order_book_imbalance_range_example :
  exists analysis : Exchange.book_analysis,
    Exchange.analyze_order_book MoreExamples.book = Some analysis /\
    (Exchange.imbalance analysis = Exchange.NpNaN \/
     exists x : Q,
       Exchange.imbalance analysis = Exchange.NpNum x /\ -1 <= x <= 1).
Proof.
  apply (analyze_order_book_imbalance_range MoreExamples.book).
  - discriminate.
  - discriminate.
  - cbn. repeat (apply Forall_cons; [cbn; lra |]). apply Forall_nil.
  - cbn. repeat (apply Forall_cons; [cbn; lra |]). apply Forall_nil.
Defined.

(** ** advanced_risk_manager.py: optimize_portfolio_weights *)

Section PortfolioWeights.

Import Correlation.
Import Portfolio.
Local Open Scope R_scope.

Lemma set_nonempty {V : Type} (k : string) (v : V) (d : list (string * V)) :
  Dict.set k v d <> [].
Proof.
  destruct d as [| [k0 v0] rest]; cbn [Dict.set]; [discriminate |].
  destruct (String.eqb k k0); discriminate.
Qed.

Lemma score_loop_nonempty (div_scores : list (string * float))
    (expected_returns : list (string * R)) (symbols : list string) :
  forall scores result : list (string * float),
    score_loop div_scores expected_returns symbols scores = Returned result ->
    symbols <> [] \/ scores <> [] -> result <> [].
Proof.
  induction symbols as [| symbol rest IH]; intros scores result Hloop Hsome.
  - cbn in Hloop. injection Hloop as <-. destruct Hsome; [contradiction | assumption].
  - cbn [score_loop] in Hloop.
    destruct (getitem symbol (Dict.lookup symbol div_scores)) as [div_score | x];
      cbn [bind] in Hloop; [| discriminate].
    apply (IH _ _ Hloop). right. apply set_nonempty.
Qed.

(** Scores whose quotients by [t] are all numbers add up to [t] times the
    sum of the quotients. *)
Lemma fold_fadd_quotients (t : R) (scores : list float) :
  t <> 0 ->
  forall (ws : list R) (acc : R),
    map (fun score => fdiv score (Num t)) scores = map Weight ws ->
    fold_left fadd scores (Num acc) = Num (acc + t * total ws).
Proof.
  intros Ht. induction scores as [| score rest IH]; intros ws acc Hmap.
  - destruct ws; [| discriminate]. cbn. f_equal. unfold total. cbn. ring.
  - destruct ws as [| w ws']; [discriminate |].
    cbn [map] in Hmap. injection Hmap as Hfirst Hrest.
    destruct score as [| s]; [discriminate |].
    unfold fdiv in Hfirst. destruct (Req_dec_T t 0); [contradiction |].
    injection Hfirst as <-.
    cbn [fold_left fadd]. rewrite (IH ws' (acc + s) Hrest).
    f_equal. unfold total. cbn [fold_right]. field. exact Ht.
Qed.

Lemma total_constant {A : Type} (c : R) (xs : list A) :
  total (map (fun _ => c) xs) = INR (List.length xs) * c.
Proof.
  induction xs as [| x rest IH].
  - unfold total. cbn. ring.
  - cbn [map List.length]. rewrite S_INR. unfold total in *.
    cbn [fold_right]. rewrite IH. ring.
Qed.

Lemma equal_weights_total (current_portfolio : list (string * R)) (ws : list R) :
  current_portfolio <> [] ->
  Dict.values (equal_weights current_portfolio) = map Weight ws ->
  total ws = 1.
Proof.
  intros Hsome Hvalues.
  assert (Hws : ws
                = map (fun _ => 1 / INR (List.length current_portfolio))
                    current_portfolio).
  { unfold equal_weights, Dict.values in Hvalues. rewrite map_map in Hvalues.
    cbn [snd] in Hvalues.
    generalize dependent ws.
    generalize (1 / INR (List.length current_portfolio)) as c.
    induction current_portfolio as [| entry rest IH]; intros c ws Hvalues.
    - destruct ws; [reflexivity | discriminate].
    - destruct ws as [| w ws']; [discriminate |].
      cbn [map] in Hvalues |- *. injection Hvalues as <- Hrest.
      f_equal. destruct rest as [| entry' rest'].
      + destruct ws'; [reflexivity | discriminate].
      + apply IH; [discriminate | exact Hrest]. }
  rewrite Hws, total_constant. field.
  apply not_0_INR. destruct current_portfolio; [contradiction | discriminate].
Qed.

(** X21.  Whenever [optimize_portfolio_weights] gives every symbol of a
    portfolio that is not empty a weight that is a number, the weights add
    up to 1, on the scored path as on the fallback to equal weights. *)
Theorem optimize_portfolio_weights_sum_to_one (self : Correlation.t)
    (current_portfolio expected_returns : list (string * R)) (ws : list R) :
  current_portfolio <> [] ->
  Dict.values
    (optimize_portfolio_weights self current_portfolio expected_returns)
  = map Weight ws ->
  total ws = 1.
Proof.
  intros Hsome. unfold optimize_portfolio_weights.
  destruct (optimize_portfolio_weights_try self current_portfolio
              expected_returns) as [weights | x] eqn:Htry;
    cbn [try_except];
    [| apply equal_weights_total, Hsome].
  unfold optimize_portfolio_weights_try in Htry.
  destruct (correlation_matrix self) as [m |]; [| discriminate].
  destruct (Dict.keys current_portfolio) as [| symbol symbols] eqn:Hkeys.
  { destruct current_portfolio; [contradiction | discriminate]. }
  destruct (loc m (symbol :: symbols) (symbol :: symbols)) as [selected | x];
    cbn [bind] in Htry; [| discriminate].
  destruct (score_loop _ expected_returns (symbol :: symbols) [])
    as [scores | x] eqn:Hscores; cbn [bind] in Htry; [| discriminate].
  injection Htry as <-. intros Hvalues.
  unfold Dict.values in Hvalues. rewrite map_map in Hvalues. cbn [snd] in Hvalues.
  assert (Hnonempty : scores <> []).
  { apply (score_loop_nonempty _ _ _ _ _ Hscores). left. discriminate. }
  unfold total_score, Dict.values in Hvalues.
  destruct (fold_left fadd (map snd scores) (Num 0)) as [| t] eqn:Htotal.
  - destruct scores as [| [k score] rest]; [contradiction |].
    destruct ws; [discriminate |]. cbn [map snd] in Hvalues.
    destruct score; discriminate.
  - assert (Ht : t <> 0).
    { intros ->. destruct scores as [| [k score] rest]; [contradiction |].
      destruct ws; [discriminate |]. cbn [map snd] in Hvalues.
      destruct score as [| s]; [discriminate |].
      unfold fdiv in Hvalues. destruct (Req_dec_T 0 0); [| contradiction].
      destruct (Req_dec_T s 0); discriminate. }
    rewrite <- (map_map snd (fun score => fdiv score (Num t))) in Hvalues.
    pose proof (fold_fadd_quotients t (map snd scores) Ht ws 0 Hvalues) as Hsum.
    rewrite Htotal in Hsum. injection Hsum as Hsum.
    apply (Rmult_eq_reg_l t); [lra | exact Ht].
Qed.

Lemma loc_missing_column (m : frame) (symbols : list string) (symbol : string)
    (columns : list string) :
  In symbol columns -> Dict.lookup symbol m = None ->
  exists x, loc m symbols columns = Raised x.
Proof.
  intros Hin Hmissing. induction columns as [| column rest IH];
    [contradiction |].
  cbn [loc]. destruct Hin as [-> | Hin].
  - rewrite Hmissing. cbn. eauto.
  - destruct (getitem column (Dict.lookup column m)) as [entries | x];
      cbn [bind]; [| eauto].
    destruct (loc_rows entries symbols) as [rows | x]; cbn [bind]; [| eauto].
    destruct (IH Hin) as [x ->]. cbn [bind]. eauto.
Qed.

(** X22.  When the risk manager has no correlation matrix, or the matrix
    lacks one symbol of the portfolio, [optimize_portfolio_weights] gives
    every symbol the same weight, one over the number of symbols, whatever
    the expected returns. *)
Theorem optimize_portfolio_weights_fallback (self : Correlation.t)
    (current_portfolio expected_returns : list (string * R)) (symbol : string) :
  In symbol (Dict.keys current_portfolio) ->
  (forall m, correlation_matrix self = Some m -> Dict.lookup symbol m = None) ->
  optimize_portfolio_weights self current_portfolio expected_returns
  = equal_weights current_portfolio.
Proof.
  intros Hin Hmissing.
  unfold optimize_portfolio_weights, optimize_portfolio_weights_try.
  destruct (correlation_matrix self) as [m |]; [| reflexivity].
  destruct (Dict.keys current_portfolio) as [| first others] eqn:Hkeys;
    [contradiction |].
  destruct (loc_missing_column m (first :: others) symbol (first :: others)
              Hin (Hmissing m eq_refl)) as [x ->].
  reflexivity.
Qed.

End PortfolioWeights.

Lemma optimize_portfolio_weights_independent_pair :
  Dict.values
    (Portfolio.optimize_portfolio_weights MoreExamples.independent_pair
       MoreExamples.btc_and_eth [])
  = map Portfolio.Weight [(1 / 2)%R; (1 / 2)%R].
Proof.
  unfold Portfolio.optimize_portfolio_weights,
    Portfolio.optimize_portfolio_weights_try. cbn.
  rewrite Rabs_R1, Rabs_R0. unfold Correlation.mean, Correlation.total. cbn.
  destruct (Req_dec_T _ 0) as [Hzero | _]; [exfalso; lra |].
  apply f_equal2; [apply f_equal | apply f_equal2; [apply f_equal |]];
    [field; lra | field; lra | reflexivity].
Defined.

Lemma optimize_portfolio_weights_sum_to_one_example :
  Dict.values
    (Portfolio.optimize_portfolio_weights MoreExamples.independent_pair
       MoreExamples.btc_and_eth [])
  = map Portfolio.Weight [(1 / 2)%R; (1 / 2)%R] /\
  Correlation.total [(1 / 2)%R; (1 / 2)%R] = 1%R.
Proof.
  split; [exact optimize_portfolio_weights_independent_pair |].
  apply (optimize_portfolio_weights_sum_to_one MoreExamples.independent_pair
           MoreExamples.btc_and_eth [] [(1 / 2)%R; (1 / 2)%R]).
  - discriminate.
  - exact optimize_portfolio_weights_independent_pair.
Defined.

Lemma optimize_portfolio_weights_fallback_example :
  Portfolio.optimize_portfolio_weights MoreExamples.independent_pair
    MoreExamples.three_assets [("BNB/USDT", 0.1%R)]
  = Portfolio.equal_weights MoreExamples.three_assets.
Proof.
  apply (optimize_portfolio_weights_fallback MoreExamples.independent_pair
           MoreExamples.three_assets [("BNB/USDT", 0.1%R)] "BNB/USDT").
  - cbn. auto.
  - intros m [= <-]. reflexivity.
Defined.

(** ** trading_engine.py: monitoring opens nothing *)

Lemma length_set_present {V : Type} (k : string) (v v0 : V)
    (d : list (string * V)) :
  Dict.lookup k d = Some v0 ->
  List.length (Dict.set k v d) = List.length d.
Proof.
  induction d as [| [k1 v1] rest IH]; cbn [Dict.lookup Dict.set];
    [discriminate |].
  destruct (String.eqb k k1); [reflexivity |].
  intros Hrest. cbn [List.length]. f_equal. apply IH, Hrest.
Qed.

Lemma length_remove_le {V : Type} (k : string) (d : list (string * V)) :
  (List.length (Dict.remove k d) <= List.length d)%nat.
Proof.
  induction d as [| [k1 v1] rest IH]; cbn [Dict.remove List.length]; [lia |].
  destruct (String.eqb k k1); cbn [List.length]; lia.
Qed.

Section MonitoringOpensNothing.

Context {World : Type}.
Variable C : Collaborators World.
Variable n : nat.

Local Abbreviation at_most :=
  (fun ps : list (string * Position) => (List.length ps <= n)%nat).

Lemma close_loop_at_most (snapshot : list (string * Position)) :
  triple at_most (Engine.close_loop C snapshot) (fun _ => at_most) at_most.
Proof.
  induction snapshot as [| [symbol position] rest IH]; cbn [Engine.close_loop].
  - apply triple_ret.
  - triple_keep (cbn; intuition) as amount.
    triple_keep (cbn; intuition) as sold.
    eapply triple_bind; [apply triple_get_positions | intros ps].
    eapply triple_bind; [| intros removed; exact IH].
    destruct (Dict.lookup symbol ps).
    + apply triple_put_positions. intros current (Hcur & _ & Hlen).
      subst current. pose proof (length_remove_le symbol ps). lia.
    + apply triple_raise_weak. cbn. intuition.
Qed.

Lemma _close_all_positions_at_most :
  triple at_most (Engine._close_all_positions C) (fun _ => at_most) at_most.
Proof.
  intros e Hlen. unfold Engine._close_all_positions.
  apply (run_logged_triple _ at_most at_most); [| exact Hlen].
  eapply triple_bind; [apply triple_get_positions | intros ps].
  eapply triple_weaken; [apply close_loop_at_most | | auto | auto].
  cbn. intuition.
Qed.

Lemma monitor_loop_at_most (snapshot : list string) :
  triple at_most (Engine.monitor_loop C snapshot) (fun _ => at_most) at_most.
Proof.
  induction snapshot as [| symbol rest IH]; cbn [Engine.monitor_loop].
  - apply triple_ret.
  - eapply triple_bind; [apply triple_get_positions | intros ps].
    triple_keep (cbn; intuition) as position.
    triple_keep (cbn; intuition) as current_price.
    triple_keep (cbn; intuition) as entry_price.
    triple_keep (cbn; intuition) as [emergency_exit reason].
    destruct emergency_exit.
    + eapply triple_weaken;
        [apply _close_all_positions_at_most | | auto | auto].
      cbn. intuition.
    + triple_keep (cbn; intuition) as new_stop.
      eapply triple_bind; [| intros updated; exact IH].
      destruct (ltb (get (stop_loss position) 0) new_stop).
      * triple_keep (cbn; intuition) as order_id.
        triple_keep (cbn; intuition) as moved.
        eapply triple_bind; [apply triple_get_positions | intros ps'].
        triple_keep (cbn; intuition) as current.
        apply triple_put_positions.
        intros table (Hcurrent & Hps' & _ & _ & Hposition & Hps & Hlen).
        subst table ps'.
        apply getitem_returned in Hcurrent.
        rewrite (length_set_present symbol _ current ps Hcurrent). exact Hlen.
      * apply triple_ret_weak. cbn. intuition.
Qed.

End MonitoringOpensNothing.

(** X23.  A pass of [_monitor_positions] opens no position: the table it
    leaves has at most as many entries as the table it found, whatever the
    exchange and the risk manager answer. *)
Theorem _monitor_positions_opens_nothing {World : Type}
    (C : Collaborators World) (e : t World) :
  (List.length (positions (Engine._monitor_positions C e))
   <= List.length (positions e))%nat.
Proof.
  unfold Engine._monitor_positions.
  apply (run_logged_triple _
           (fun ps => (List.length ps <= List.length (positions e))%nat)
           (fun ps => (List.length ps <= List.length (positions e))%nat));
    [| cbn; lia].
  eapply triple_bind; [apply triple_get_positions | intros ps].
  eapply triple_weaken;
    [apply (monitor_loop_at_most C (List.length (positions e)))
    | | auto | auto].
  cbn. intuition.
Qed.
